(** * Scan history of the QR scanner app

    A shallow embedding of [src/screens/ScanHistoryScreen.js]: the scan
    record repository ([fetchScanHistory], [getDemoScans], [deleteScan],
    [clearAllScans]), the filter/search engine ([filterScans]) and the
    QR-type classifier ([getQRType]), with the properties the specification
    states about them; then the presentation helpers of that screen
    ([formatDate], [handleScanPress]), the scanner component
    ([components/qrScanner.js]) and the authentication provider
    ([context/AuthContext.js]), with properties read off the code.

    Conventions of the model
    - A JavaScript string is well-formed Unicode text, held as the [string]
      of octets of its UTF-8 encoding; [toLowerCase] is the lower-case
      conversion of Unicode 14.0, with the final-sigma rule.
    - A [Date] is its time value: milliseconds since the epoch, in [Z]; the
      zone of the device gives the offset of local time at each instant.
    - Geographic coordinates are decimal numbers in [Q] (they are never
      inspected by the code modelled here).
    - [AsyncStorage] is a finite map from keys to stored texts; Firestore's
      [scans] collection is a list of documents.
    - An [async] function is a computation over the component's state and the
      two stores that either returns or throws; [try]/[catch]/[finally] are
      combinators on such computations. *)

From Stdlib Require Import ZArith QArith String Ascii List Lia Bool.
From Stdlib Require Import DecimalString Sorting.Sorted.
From stdpp Require Import base gmap strings list.
Import ListNotations.

Local Open Scope string_scope.
Local Open Scope Z_scope.

(* ===================================================================== *)
(** * Definitions *)
(* ===================================================================== *)

(** ** String built-ins used by the screen *)

Module JSString.

(** [c.toLowerCase()] on one ASCII character: A-Z (codes 65-90) move to
    a-z. *)
Definition lower_ascii (c : ascii) : ascii :=
  let n := nat_of_ascii c in
  if ((65 <=? n) && (n <=? 90))%nat then ascii_of_nat (n + 32) else c.

(** *** Text as code points

    A JavaScript string is modelled by its UTF-8 encoding, a [string] of
    octets.  [utf8_decode] reads it as a sequence of Unicode code points; an
    octet that is not part of a well-formed sequence is kept as it is. *)

Inductive Token :=
| CodePoint (c : Z)
| Octet (b : ascii).

Definition code (b : ascii) : Z := Z.of_N (N_of_ascii b).
Definition octet (n : Z) : ascii := ascii_of_N (Z.to_N n).

(** A continuation octet, 10xxxxxx. *)
Definition continuation (b : ascii) : bool :=
  (0x80 <=? code b) && (code b <=? 0xBF).

Fixpoint utf8_decode (s : string) : list Token :=
  match s with
  | EmptyString => []
  | String b0 s1 =>
    let n0 := code b0 in
    if n0 <? 0x80 then CodePoint n0 :: utf8_decode s1
    else if (0xC2 <=? n0) && (n0 <=? 0xDF) then
      match s1 with
      | String b1 s2 =>
        if continuation b1
        then CodePoint ((n0 - 0xC0) * 64 + (code b1 - 0x80)) :: utf8_decode s2
        else Octet b0 :: utf8_decode s1
      | _ => Octet b0 :: utf8_decode s1
      end
    else if (0xE0 <=? n0) && (n0 <=? 0xEF) then
      match s1 with
      | String b1 (String b2 s3) =>
        let c := (n0 - 0xE0) * 4096 + (code b1 - 0x80) * 64 + (code b2 - 0x80) in
        if continuation b1 && continuation b2 && (0x800 <=? c)
           && negb ((0xD800 <=? c) && (c <=? 0xDFFF))
        then CodePoint c :: utf8_decode s3
        else Octet b0 :: utf8_decode s1
      | _ => Octet b0 :: utf8_decode s1
      end
    else if (0xF0 <=? n0) && (n0 <=? 0xF4) then
      match s1 with
      | String b1 (String b2 (String b3 s4)) =>
        let c := (n0 - 0xF0) * 262144 + (code b1 - 0x80) * 4096
                 + (code b2 - 0x80) * 64 + (code b3 - 0x80) in
        if continuation b1 && continuation b2 && continuation b3
           && (0x10000 <=? c) && (c <=? 0x10FFFF)
        then CodePoint c :: utf8_decode s4
        else Octet b0 :: utf8_decode s1
      | _ => Octet b0 :: utf8_decode s1
      end
    else Octet b0 :: utf8_decode s1
  end.

Definition utf8_encode (c : Z) : string :=
  if c <? 0x80 then String (octet c) ""
  else if c <? 0x800 then
    String (octet (0xC0 + c / 64)) (String (octet (0x80 + c mod 64)) "")
  else if c <? 0x10000 then
    String (octet (0xE0 + c / 4096))
      (String (octet (0x80 + (c / 64) mod 64))
         (String (octet (0x80 + c mod 64)) ""))
  else
    String (octet (0xF0 + c / 262144))
      (String (octet (0x80 + (c / 4096) mod 64))
         (String (octet (0x80 + (c / 64) mod 64))
            (String (octet (0x80 + c mod 64)) ""))).

Definition encode_token (t : Token) : string :=
  match t with
  | CodePoint c => utf8_encode c
  | Octet b => String b ""
  end.

Fixpoint utf8_encode_all (l : list Token) : string :=
  match l with
  | [] => ""
  | t :: l' => (encode_token t ++ utf8_encode_all l')%string
  end.

(** *** The case data of Unicode 14.0

    [lowercase_mapping] lists the simple lower-case mappings of
    [UnicodeData.txt] as [(first, last, step, delta)]: every [step]-th code
    point from [first] to [last] maps to itself plus [delta].
    [Cased_ranges] and [Case_Ignorable_ranges] are the derived properties
    Cased and Case_Ignorable as inclusive ranges. *)

Definition lowercase_mapping : list (Z * Z * Z * Z) :=
  [(0x0041, 0x005A, 1, 32); (0x00C0, 0x00D6, 1, 32); (0x00D8, 0x00DE, 1, 32);
    (0x0100, 0x012E, 2, 1); (0x0132, 0x0136, 2, 1); (0x0139, 0x0147, 2, 1);
    (0x014A, 0x0176, 2, 1); (0x0178, 0x0178, 1, -121); (0x0179, 0x017D, 2, 1);
    (0x0181, 0x0181, 1, 210); (0x0182, 0x0184, 2, 1); (0x0186, 0x0186, 1, 206);
    (0x0187, 0x0187, 1, 1); (0x0189, 0x018A, 1, 205); (0x018B, 0x018B, 1, 1);
    (0x018E, 0x018E, 1, 79); (0x018F, 0x018F, 1, 202); (0x0190, 0x0190, 1, 203);
    (0x0191, 0x0191, 1, 1); (0x0193, 0x0193, 1, 205); (0x0194, 0x0194, 1, 207);
    (0x0196, 0x0196, 1, 211); (0x0197, 0x0197, 1, 209); (0x0198, 0x0198, 1, 1);
    (0x019C, 0x019C, 1, 211); (0x019D, 0x019D, 1, 213);
    (0x019F, 0x019F, 1, 214); (0x01A0, 0x01A4, 2, 1); (0x01A6, 0x01A6, 1, 218);
    (0x01A7, 0x01A7, 1, 1); (0x01A9, 0x01A9, 1, 218); (0x01AC, 0x01AC, 1, 1);
    (0x01AE, 0x01AE, 1, 218); (0x01AF, 0x01AF, 1, 1); (0x01B1, 0x01B2, 1, 217);
    (0x01B3, 0x01B5, 2, 1); (0x01B7, 0x01B7, 1, 219); (0x01B8, 0x01B8, 1, 1);
    (0x01BC, 0x01BC, 1, 1); (0x01C4, 0x01C4, 1, 2); (0x01C5, 0x01C5, 1, 1);
    (0x01C7, 0x01C7, 1, 2); (0x01C8, 0x01C8, 1, 1); (0x01CA, 0x01CA, 1, 2);
    (0x01CB, 0x01DB, 2, 1); (0x01DE, 0x01EE, 2, 1); (0x01F1, 0x01F1, 1, 2);
    (0x01F2, 0x01F4, 2, 1); (0x01F6, 0x01F6, 1, -97); (0x01F7, 0x01F7, 1, -56);
    (0x01F8, 0x021E, 2, 1); (0x0220, 0x0220, 1, -130); (0x0222, 0x0232, 2, 1);
    (0x023A, 0x023A, 1, 10795); (0x023B, 0x023B, 1, 1);
    (0x023D, 0x023D, 1, -163); (0x023E, 0x023E, 1, 10792);
    (0x0241, 0x0241, 1, 1); (0x0243, 0x0243, 1, -195); (0x0244, 0x0244, 1, 69);
    (0x0245, 0x0245, 1, 71); (0x0246, 0x024E, 2, 1); (0x0370, 0x0372, 2, 1);
    (0x0376, 0x0376, 1, 1); (0x037F, 0x037F, 1, 116); (0x0386, 0x0386, 1, 38);
    (0x0388, 0x038A, 1, 37); (0x038C, 0x038C, 1, 64); (0x038E, 0x038F, 1, 63);
    (0x0391, 0x03A1, 1, 32); (0x03A3, 0x03AB, 1, 32); (0x03CF, 0x03CF, 1, 8);
    (0x03D8, 0x03EE, 2, 1); (0x03F4, 0x03F4, 1, -60); (0x03F7, 0x03F7, 1, 1);
    (0x03F9, 0x03F9, 1, -7); (0x03FA, 0x03FA, 1, 1); (0x03FD, 0x03FF, 1, -130);
    (0x0400, 0x040F, 1, 80); (0x0410, 0x042F, 1, 32); (0x0460, 0x0480, 2, 1);
    (0x048A, 0x04BE, 2, 1); (0x04C0, 0x04C0, 1, 15); (0x04C1, 0x04CD, 2, 1);
    (0x04D0, 0x052E, 2, 1); (0x0531, 0x0556, 1, 48); (0x10A0, 0x10C5, 1, 7264);
    (0x10C7, 0x10C7, 1, 7264); (0x10CD, 0x10CD, 1, 7264);
    (0x13A0, 0x13EF, 1, 38864); (0x13F0, 0x13F5, 1, 8);
    (0x1C90, 0x1CBA, 1, -3008); (0x1CBD, 0x1CBF, 1, -3008);
    (0x1E00, 0x1E94, 2, 1); (0x1E9E, 0x1E9E, 1, -7615); (0x1EA0, 0x1EFE, 2, 1);
    (0x1F08, 0x1F0F, 1, -8); (0x1F18, 0x1F1D, 1, -8); (0x1F28, 0x1F2F, 1, -8);
    (0x1F38, 0x1F3F, 1, -8); (0x1F48, 0x1F4D, 1, -8); (0x1F59, 0x1F5F, 2, -8);
    (0x1F68, 0x1F6F, 1, -8); (0x1F88, 0x1F8F, 1, -8); (0x1F98, 0x1F9F, 1, -8);
    (0x1FA8, 0x1FAF, 1, -8); (0x1FB8, 0x1FB9, 1, -8); (0x1FBA, 0x1FBB, 1, -74);
    (0x1FBC, 0x1FBC, 1, -9); (0x1FC8, 0x1FCB, 1, -86); (0x1FCC, 0x1FCC, 1, -9);
    (0x1FD8, 0x1FD9, 1, -8); (0x1FDA, 0x1FDB, 1, -100); (0x1FE8, 0x1FE9, 1, -8);
    (0x1FEA, 0x1FEB, 1, -112); (0x1FEC, 0x1FEC, 1, -7);
    (0x1FF8, 0x1FF9, 1, -128); (0x1FFA, 0x1FFB, 1, -126);
    (0x1FFC, 0x1FFC, 1, -9); (0x2126, 0x2126, 1, -7517);
    (0x212A, 0x212A, 1, -8383); (0x212B, 0x212B, 1, -8262);
    (0x2132, 0x2132, 1, 28); (0x2160, 0x216F, 1, 16); (0x2183, 0x2183, 1, 1);
    (0x24B6, 0x24CF, 1, 26); (0x2C00, 0x2C2F, 1, 48); (0x2C60, 0x2C60, 1, 1);
    (0x2C62, 0x2C62, 1, -10743); (0x2C63, 0x2C63, 1, -3814);
    (0x2C64, 0x2C64, 1, -10727); (0x2C67, 0x2C6B, 2, 1);
    (0x2C6D, 0x2C6D, 1, -10780); (0x2C6E, 0x2C6E, 1, -10749);
    (0x2C6F, 0x2C6F, 1, -10783); (0x2C70, 0x2C70, 1, -10782);
    (0x2C72, 0x2C72, 1, 1); (0x2C75, 0x2C75, 1, 1); (0x2C7E, 0x2C7F, 1, -10815);
    (0x2C80, 0x2CE2, 2, 1); (0x2CEB, 0x2CED, 2, 1); (0x2CF2, 0x2CF2, 1, 1);
    (0xA640, 0xA66C, 2, 1); (0xA680, 0xA69A, 2, 1); (0xA722, 0xA72E, 2, 1);
    (0xA732, 0xA76E, 2, 1); (0xA779, 0xA77B, 2, 1); (0xA77D, 0xA77D, 1, -35332);
    (0xA77E, 0xA786, 2, 1); (0xA78B, 0xA78B, 1, 1); (0xA78D, 0xA78D, 1, -42280);
    (0xA790, 0xA792, 2, 1); (0xA796, 0xA7A8, 2, 1); (0xA7AA, 0xA7AA, 1, -42308);
    (0xA7AB, 0xA7AB, 1, -42319); (0xA7AC, 0xA7AC, 1, -42315);
    (0xA7AD, 0xA7AD, 1, -42305); (0xA7AE, 0xA7AE, 1, -42308);
    (0xA7B0, 0xA7B0, 1, -42258); (0xA7B1, 0xA7B1, 1, -42282);
    (0xA7B2, 0xA7B2, 1, -42261); (0xA7B3, 0xA7B3, 1, 928);
    (0xA7B4, 0xA7C2, 2, 1); (0xA7C4, 0xA7C4, 1, -48);
    (0xA7C5, 0xA7C5, 1, -42307); (0xA7C6, 0xA7C6, 1, -35384);
    (0xA7C7, 0xA7C9, 2, 1); (0xA7D0, 0xA7D0, 1, 1); (0xA7D6, 0xA7D8, 2, 1);
    (0xA7F5, 0xA7F5, 1, 1); (0xFF21, 0xFF3A, 1, 32); (0x10400, 0x10427, 1, 40);
    (0x104B0, 0x104D3, 1, 40); (0x10570, 0x1057A, 1, 39);
    (0x1057C, 0x1058A, 1, 39); (0x1058C, 0x10592, 1, 39);
    (0x10594, 0x10595, 1, 39); (0x10C80, 0x10CB2, 1, 64);
    (0x118A0, 0x118BF, 1, 32); (0x16E40, 0x16E5F, 1, 32);
    (0x1E900, 0x1E921, 1, 34)].

Definition Cased_ranges : list (Z * Z) :=
  [(0x0041, 0x005A); (0x0061, 0x007A); (0x00AA, 0x00AA); (0x00B5, 0x00B5);
    (0x00BA, 0x00BA); (0x00C0, 0x00D6); (0x00D8, 0x00F6); (0x00F8, 0x01BA);
    (0x01BC, 0x01BF); (0x01C4, 0x0293); (0x0295, 0x02B8); (0x02C0, 0x02C1);
    (0x02E0, 0x02E4); (0x0345, 0x0345); (0x0370, 0x0373); (0x0376, 0x0377);
    (0x037A, 0x037D); (0x037F, 0x037F); (0x0386, 0x0386); (0x0388, 0x038A);
    (0x038C, 0x038C); (0x038E, 0x03A1); (0x03A3, 0x03F5); (0x03F7, 0x0481);
    (0x048A, 0x052F); (0x0531, 0x0556); (0x0560, 0x0588); (0x10A0, 0x10C5);
    (0x10C7, 0x10C7); (0x10CD, 0x10CD); (0x10D0, 0x10FA); (0x10FD, 0x10FF);
    (0x13A0, 0x13F5); (0x13F8, 0x13FD); (0x1C80, 0x1C88); (0x1C90, 0x1CBA);
    (0x1CBD, 0x1CBF); (0x1D00, 0x1DBF); (0x1E00, 0x1F15); (0x1F18, 0x1F1D);
    (0x1F20, 0x1F45); (0x1F48, 0x1F4D); (0x1F50, 0x1F57); (0x1F59, 0x1F59);
    (0x1F5B, 0x1F5B); (0x1F5D, 0x1F5D); (0x1F5F, 0x1F7D); (0x1F80, 0x1FB4);
    (0x1FB6, 0x1FBC); (0x1FBE, 0x1FBE); (0x1FC2, 0x1FC4); (0x1FC6, 0x1FCC);
    (0x1FD0, 0x1FD3); (0x1FD6, 0x1FDB); (0x1FE0, 0x1FEC); (0x1FF2, 0x1FF4);
    (0x1FF6, 0x1FFC); (0x2071, 0x2071); (0x207F, 0x207F); (0x2090, 0x209C);
    (0x2102, 0x2102); (0x2107, 0x2107); (0x210A, 0x2113); (0x2115, 0x2115);
    (0x2119, 0x211D); (0x2124, 0x2124); (0x2126, 0x2126); (0x2128, 0x2128);
    (0x212A, 0x212D); (0x212F, 0x2134); (0x2139, 0x2139); (0x213C, 0x213F);
    (0x2145, 0x2149); (0x214E, 0x214E); (0x2160, 0x217F); (0x2183, 0x2184);
    (0x24B6, 0x24E9); (0x2C00, 0x2CE4); (0x2CEB, 0x2CEE); (0x2CF2, 0x2CF3);
    (0x2D00, 0x2D25); (0x2D27, 0x2D27); (0x2D2D, 0x2D2D); (0xA640, 0xA66D);
    (0xA680, 0xA69D); (0xA722, 0xA787); (0xA78B, 0xA78E); (0xA790, 0xA7CA);
    (0xA7D0, 0xA7D1); (0xA7D3, 0xA7D3); (0xA7D5, 0xA7D9); (0xA7F5, 0xA7F6);
    (0xA7F8, 0xA7FA); (0xAB30, 0xAB5A); (0xAB5C, 0xAB68); (0xAB70, 0xABBF);
    (0xFB00, 0xFB06); (0xFB13, 0xFB17); (0xFF21, 0xFF3A); (0xFF41, 0xFF5A);
    (0x10400, 0x1044F); (0x104B0, 0x104D3); (0x104D8, 0x104FB);
    (0x10570, 0x1057A); (0x1057C, 0x1058A); (0x1058C, 0x10592);
    (0x10594, 0x10595); (0x10597, 0x105A1); (0x105A3, 0x105B1);
    (0x105B3, 0x105B9); (0x105BB, 0x105BC); (0x10780, 0x10780);
    (0x10783, 0x10785); (0x10787, 0x107B0); (0x107B2, 0x107BA);
    (0x10C80, 0x10CB2); (0x10CC0, 0x10CF2); (0x118A0, 0x118DF);
    (0x16E40, 0x16E7F); (0x1D400, 0x1D454); (0x1D456, 0x1D49C);
    (0x1D49E, 0x1D49F); (0x1D4A2, 0x1D4A2); (0x1D4A5, 0x1D4A6);
    (0x1D4A9, 0x1D4AC); (0x1D4AE, 0x1D4B9); (0x1D4BB, 0x1D4BB);
    (0x1D4BD, 0x1D4C3); (0x1D4C5, 0x1D505); (0x1D507, 0x1D50A);
    (0x1D50D, 0x1D514); (0x1D516, 0x1D51C); (0x1D51E, 0x1D539);
    (0x1D53B, 0x1D53E); (0x1D540, 0x1D544); (0x1D546, 0x1D546);
    (0x1D54A, 0x1D550); (0x1D552, 0x1D6A5); (0x1D6A8, 0x1D6C0);
    (0x1D6C2, 0x1D6DA); (0x1D6DC, 0x1D6FA); (0x1D6FC, 0x1D714);
    (0x1D716, 0x1D734); (0x1D736, 0x1D74E); (0x1D750, 0x1D76E);
    (0x1D770, 0x1D788); (0x1D78A, 0x1D7A8); (0x1D7AA, 0x1D7C2);
    (0x1D7C4, 0x1D7CB); (0x1DF00, 0x1DF09); (0x1DF0B, 0x1DF1E);
    (0x1E900, 0x1E943); (0x1F130, 0x1F149); (0x1F150, 0x1F169);
    (0x1F170, 0x1F189)].

Definition Case_Ignorable_ranges : list (Z * Z) :=
  [(0x0027, 0x0027); (0x002E, 0x002E); (0x003A, 0x003A); (0x005E, 0x005E);
    (0x0060, 0x0060); (0x00A8, 0x00A8); (0x00AD, 0x00AD); (0x00AF, 0x00AF);
    (0x00B4, 0x00B4); (0x00B7, 0x00B8); (0x02B0, 0x036F); (0x0374, 0x0375);
    (0x037A, 0x037A); (0x0384, 0x0385); (0x0387, 0x0387); (0x0483, 0x0489);
    (0x0559, 0x0559); (0x055F, 0x055F); (0x0591, 0x05BD); (0x05BF, 0x05BF);
    (0x05C1, 0x05C2); (0x05C4, 0x05C5); (0x05C7, 0x05C7); (0x05F4, 0x05F4);
    (0x0600, 0x0605); (0x0610, 0x061A); (0x061C, 0x061C); (0x0640, 0x0640);
    (0x064B, 0x065F); (0x0670, 0x0670); (0x06D6, 0x06DD); (0x06DF, 0x06E8);
    (0x06EA, 0x06ED); (0x070F, 0x070F); (0x0711, 0x0711); (0x0730, 0x074A);
    (0x07A6, 0x07B0); (0x07EB, 0x07F5); (0x07FA, 0x07FA); (0x07FD, 0x07FD);
    (0x0816, 0x082D); (0x0859, 0x085B); (0x0888, 0x0888); (0x0890, 0x0891);
    (0x0898, 0x089F); (0x08C9, 0x0902); (0x093A, 0x093A); (0x093C, 0x093C);
    (0x0941, 0x0948); (0x094D, 0x094D); (0x0951, 0x0957); (0x0962, 0x0963);
    (0x0971, 0x0971); (0x0981, 0x0981); (0x09BC, 0x09BC); (0x09C1, 0x09C4);
    (0x09CD, 0x09CD); (0x09E2, 0x09E3); (0x09FE, 0x09FE); (0x0A01, 0x0A02);
    (0x0A3C, 0x0A3C); (0x0A41, 0x0A42); (0x0A47, 0x0A48); (0x0A4B, 0x0A4D);
    (0x0A51, 0x0A51); (0x0A70, 0x0A71); (0x0A75, 0x0A75); (0x0A81, 0x0A82);
    (0x0ABC, 0x0ABC); (0x0AC1, 0x0AC5); (0x0AC7, 0x0AC8); (0x0ACD, 0x0ACD);
    (0x0AE2, 0x0AE3); (0x0AFA, 0x0AFF); (0x0B01, 0x0B01); (0x0B3C, 0x0B3C);
    (0x0B3F, 0x0B3F); (0x0B41, 0x0B44); (0x0B4D, 0x0B4D); (0x0B55, 0x0B56);
    (0x0B62, 0x0B63); (0x0B82, 0x0B82); (0x0BC0, 0x0BC0); (0x0BCD, 0x0BCD);
    (0x0C00, 0x0C00); (0x0C04, 0x0C04); (0x0C3C, 0x0C3C); (0x0C3E, 0x0C40);
    (0x0C46, 0x0C48); (0x0C4A, 0x0C4D); (0x0C55, 0x0C56); (0x0C62, 0x0C63);
    (0x0C81, 0x0C81); (0x0CBC, 0x0CBC); (0x0CBF, 0x0CBF); (0x0CC6, 0x0CC6);
    (0x0CCC, 0x0CCD); (0x0CE2, 0x0CE3); (0x0D00, 0x0D01); (0x0D3B, 0x0D3C);
    (0x0D41, 0x0D44); (0x0D4D, 0x0D4D); (0x0D62, 0x0D63); (0x0D81, 0x0D81);
    (0x0DCA, 0x0DCA); (0x0DD2, 0x0DD4); (0x0DD6, 0x0DD6); (0x0E31, 0x0E31);
    (0x0E34, 0x0E3A); (0x0E46, 0x0E4E); (0x0EB1, 0x0EB1); (0x0EB4, 0x0EBC);
    (0x0EC6, 0x0EC6); (0x0EC8, 0x0ECD); (0x0F18, 0x0F19); (0x0F35, 0x0F35);
    (0x0F37, 0x0F37); (0x0F39, 0x0F39); (0x0F71, 0x0F7E); (0x0F80, 0x0F84);
    (0x0F86, 0x0F87); (0x0F8D, 0x0F97); (0x0F99, 0x0FBC); (0x0FC6, 0x0FC6);
    (0x102D, 0x1030); (0x1032, 0x1037); (0x1039, 0x103A); (0x103D, 0x103E);
    (0x1058, 0x1059); (0x105E, 0x1060); (0x1071, 0x1074); (0x1082, 0x1082);
    (0x1085, 0x1086); (0x108D, 0x108D); (0x109D, 0x109D); (0x10FC, 0x10FC);
    (0x135D, 0x135F); (0x1712, 0x1714); (0x1732, 0x1733); (0x1752, 0x1753);
    (0x1772, 0x1773); (0x17B4, 0x17B5); (0x17B7, 0x17BD); (0x17C6, 0x17C6);
    (0x17C9, 0x17D3); (0x17D7, 0x17D7); (0x17DD, 0x17DD); (0x180B, 0x180F);
    (0x1843, 0x1843); (0x1885, 0x1886); (0x18A9, 0x18A9); (0x1920, 0x1922);
    (0x1927, 0x1928); (0x1932, 0x1932); (0x1939, 0x193B); (0x1A17, 0x1A18);
    (0x1A1B, 0x1A1B); (0x1A56, 0x1A56); (0x1A58, 0x1A5E); (0x1A60, 0x1A60);
    (0x1A62, 0x1A62); (0x1A65, 0x1A6C); (0x1A73, 0x1A7C); (0x1A7F, 0x1A7F);
    (0x1AA7, 0x1AA7); (0x1AB0, 0x1ACE); (0x1B00, 0x1B03); (0x1B34, 0x1B34);
    (0x1B36, 0x1B3A); (0x1B3C, 0x1B3C); (0x1B42, 0x1B42); (0x1B6B, 0x1B73);
    (0x1B80, 0x1B81); (0x1BA2, 0x1BA5); (0x1BA8, 0x1BA9); (0x1BAB, 0x1BAD);
    (0x1BE6, 0x1BE6); (0x1BE8, 0x1BE9); (0x1BED, 0x1BED); (0x1BEF, 0x1BF1);
    (0x1C2C, 0x1C33); (0x1C36, 0x1C37); (0x1C78, 0x1C7D); (0x1CD0, 0x1CD2);
    (0x1CD4, 0x1CE0); (0x1CE2, 0x1CE8); (0x1CED, 0x1CED); (0x1CF4, 0x1CF4);
    (0x1CF8, 0x1CF9); (0x1D2C, 0x1D6A); (0x1D78, 0x1D78); (0x1D9B, 0x1DFF);
    (0x1FBD, 0x1FBD); (0x1FBF, 0x1FC1); (0x1FCD, 0x1FCF); (0x1FDD, 0x1FDF);
    (0x1FED, 0x1FEF); (0x1FFD, 0x1FFE); (0x200B, 0x200F); (0x2018, 0x2019);
    (0x2024, 0x2024); (0x2027, 0x2027); (0x202A, 0x202E); (0x2060, 0x2064);
    (0x2066, 0x206F); (0x2071, 0x2071); (0x207F, 0x207F); (0x2090, 0x209C);
    (0x20D0, 0x20F0); (0x2C7C, 0x2C7D); (0x2CEF, 0x2CF1); (0x2D6F, 0x2D6F);
    (0x2D7F, 0x2D7F); (0x2DE0, 0x2DFF); (0x2E2F, 0x2E2F); (0x3005, 0x3005);
    (0x302A, 0x302D); (0x3031, 0x3035); (0x303B, 0x303B); (0x3099, 0x309E);
    (0x30FC, 0x30FE); (0xA015, 0xA015); (0xA4F8, 0xA4FD); (0xA60C, 0xA60C);
    (0xA66F, 0xA672); (0xA674, 0xA67D); (0xA67F, 0xA67F); (0xA69C, 0xA69F);
    (0xA6F0, 0xA6F1); (0xA700, 0xA721); (0xA770, 0xA770); (0xA788, 0xA78A);
    (0xA7F2, 0xA7F4); (0xA7F8, 0xA7F9); (0xA802, 0xA802); (0xA806, 0xA806);
    (0xA80B, 0xA80B); (0xA825, 0xA826); (0xA82C, 0xA82C); (0xA8C4, 0xA8C5);
    (0xA8E0, 0xA8F1); (0xA8FF, 0xA8FF); (0xA926, 0xA92D); (0xA947, 0xA951);
    (0xA980, 0xA982); (0xA9B3, 0xA9B3); (0xA9B6, 0xA9B9); (0xA9BC, 0xA9BD);
    (0xA9CF, 0xA9CF); (0xA9E5, 0xA9E6); (0xAA29, 0xAA2E); (0xAA31, 0xAA32);
    (0xAA35, 0xAA36); (0xAA43, 0xAA43); (0xAA4C, 0xAA4C); (0xAA70, 0xAA70);
    (0xAA7C, 0xAA7C); (0xAAB0, 0xAAB0); (0xAAB2, 0xAAB4); (0xAAB7, 0xAAB8);
    (0xAABE, 0xAABF); (0xAAC1, 0xAAC1); (0xAADD, 0xAADD); (0xAAEC, 0xAAED);
    (0xAAF3, 0xAAF4); (0xAAF6, 0xAAF6); (0xAB5B, 0xAB5F); (0xAB69, 0xAB6B);
    (0xABE5, 0xABE5); (0xABE8, 0xABE8); (0xABED, 0xABED); (0xFB1E, 0xFB1E);
    (0xFBB2, 0xFBC2); (0xFE00, 0xFE0F); (0xFE13, 0xFE13); (0xFE20, 0xFE2F);
    (0xFE52, 0xFE52); (0xFE55, 0xFE55); (0xFEFF, 0xFEFF); (0xFF07, 0xFF07);
    (0xFF0E, 0xFF0E); (0xFF1A, 0xFF1A); (0xFF3E, 0xFF3E); (0xFF40, 0xFF40);
    (0xFF70, 0xFF70); (0xFF9E, 0xFF9F); (0xFFE3, 0xFFE3); (0xFFF9, 0xFFFB);
    (0x101FD, 0x101FD); (0x102E0, 0x102E0); (0x10376, 0x1037A);
    (0x10780, 0x10785); (0x10787, 0x107B0); (0x107B2, 0x107BA);
    (0x10A01, 0x10A03); (0x10A05, 0x10A06); (0x10A0C, 0x10A0F);
    (0x10A38, 0x10A3A); (0x10A3F, 0x10A3F); (0x10AE5, 0x10AE6);
    (0x10D24, 0x10D27); (0x10EAB, 0x10EAC); (0x10F46, 0x10F50);
    (0x10F82, 0x10F85); (0x11001, 0x11001); (0x11038, 0x11046);
    (0x11070, 0x11070); (0x11073, 0x11074); (0x1107F, 0x11081);
    (0x110B3, 0x110B6); (0x110B9, 0x110BA); (0x110BD, 0x110BD);
    (0x110C2, 0x110C2); (0x110CD, 0x110CD); (0x11100, 0x11102);
    (0x11127, 0x1112B); (0x1112D, 0x11134); (0x11173, 0x11173);
    (0x11180, 0x11181); (0x111B6, 0x111BE); (0x111C9, 0x111CC);
    (0x111CF, 0x111CF); (0x1122F, 0x11231); (0x11234, 0x11234);
    (0x11236, 0x11237); (0x1123E, 0x1123E); (0x112DF, 0x112DF);
    (0x112E3, 0x112EA); (0x11300, 0x11301); (0x1133B, 0x1133C);
    (0x11340, 0x11340); (0x11366, 0x1136C); (0x11370, 0x11374);
    (0x11438, 0x1143F); (0x11442, 0x11444); (0x11446, 0x11446);
    (0x1145E, 0x1145E); (0x114B3, 0x114B8); (0x114BA, 0x114BA);
    (0x114BF, 0x114C0); (0x114C2, 0x114C3); (0x115B2, 0x115B5);
    (0x115BC, 0x115BD); (0x115BF, 0x115C0); (0x115DC, 0x115DD);
    (0x11633, 0x1163A); (0x1163D, 0x1163D); (0x1163F, 0x11640);
    (0x116AB, 0x116AB); (0x116AD, 0x116AD); (0x116B0, 0x116B5);
    (0x116B7, 0x116B7); (0x1171D, 0x1171F); (0x11722, 0x11725);
    (0x11727, 0x1172B); (0x1182F, 0x11837); (0x11839, 0x1183A);
    (0x1193B, 0x1193C); (0x1193E, 0x1193E); (0x11943, 0x11943);
    (0x119D4, 0x119D7); (0x119DA, 0x119DB); (0x119E0, 0x119E0);
    (0x11A01, 0x11A0A); (0x11A33, 0x11A38); (0x11A3B, 0x11A3E);
    (0x11A47, 0x11A47); (0x11A51, 0x11A56); (0x11A59, 0x11A5B);
    (0x11A8A, 0x11A96); (0x11A98, 0x11A99); (0x11C30, 0x11C36);
    (0x11C38, 0x11C3D); (0x11C3F, 0x11C3F); (0x11C92, 0x11CA7);
    (0x11CAA, 0x11CB0); (0x11CB2, 0x11CB3); (0x11CB5, 0x11CB6);
    (0x11D31, 0x11D36); (0x11D3A, 0x11D3A); (0x11D3C, 0x11D3D);
    (0x11D3F, 0x11D45); (0x11D47, 0x11D47); (0x11D90, 0x11D91);
    (0x11D95, 0x11D95); (0x11D97, 0x11D97); (0x11EF3, 0x11EF4);
    (0x13430, 0x13438); (0x16AF0, 0x16AF4); (0x16B30, 0x16B36);
    (0x16B40, 0x16B43); (0x16F4F, 0x16F4F); (0x16F8F, 0x16F9F);
    (0x16FE0, 0x16FE1); (0x16FE3, 0x16FE4); (0x1AFF0, 0x1AFF3);
    (0x1AFF5, 0x1AFFB); (0x1AFFD, 0x1AFFE); (0x1BC9D, 0x1BC9E);
    (0x1BCA0, 0x1BCA3); (0x1CF00, 0x1CF2D); (0x1CF30, 0x1CF46);
    (0x1D167, 0x1D169); (0x1D173, 0x1D182); (0x1D185, 0x1D18B);
    (0x1D1AA, 0x1D1AD); (0x1D242, 0x1D244); (0x1DA00, 0x1DA36);
    (0x1DA3B, 0x1DA6C); (0x1DA75, 0x1DA75); (0x1DA84, 0x1DA84);
    (0x1DA9B, 0x1DA9F); (0x1DAA1, 0x1DAAF); (0x1E000, 0x1E006);
    (0x1E008, 0x1E018); (0x1E01B, 0x1E021); (0x1E023, 0x1E024);
    (0x1E026, 0x1E02A); (0x1E130, 0x1E13D); (0x1E2AE, 0x1E2AE);
    (0x1E2EC, 0x1E2EF); (0x1E8D0, 0x1E8D6); (0x1E944, 0x1E94B);
    (0x1F3FB, 0x1F3FF); (0xE0001, 0xE0001); (0xE0020, 0xE007F);
    (0xE0100, 0xE01EF)].

Definition in_ranges (ranges : list (Z * Z)) (c : Z) : bool :=
  existsb (fun '(first, last) => (first <=? c) && (c <=? last)) ranges.

Definition Cased (t : Token) : bool :=
  match t with
  | CodePoint c => in_ranges Cased_ranges c
  | Octet _ => false
  end.

Definition Case_Ignorable (t : Token) : bool :=
  match t with
  | CodePoint c => in_ranges Case_Ignorable_ranges c
  | Octet _ => false
  end.

(** The simple lower-case mapping of a code point. *)
Definition simple_lowercase (c : Z) : Z :=
  match
    List.find
      (fun '(first, last, step, _) =>
         (first <=? c) && (c <=? last) && ((c - first) mod step =? 0))
      lowercase_mapping
  with
  | Some (_, _, _, delta) => c + delta
  | None => c
  end.

(** Past any case-ignorable code points, the next one is a cased letter. *)
Fixpoint cased_letter_next (l : list Token) : bool :=
  match l with
  | [] => false
  | t :: l' => if Case_Ignorable t then cased_letter_next l' else Cased t
  end.

(** The condition Final_Sigma of [SpecialCasing.txt]: a cased letter comes
    before, possibly with case-ignorable code points in between, and none
    comes after.  [before] is the text before the sigma, nearest first. *)
Definition Final_Sigma (before after : list Token) : bool :=
  cased_letter_next before && negb (cased_letter_next after).

(** The lower-case form of one code point in its context: capital sigma
    becomes final or medial small sigma, capital I with dot above becomes i
    followed by a combining dot above, every other code point takes its
    simple mapping. *)
Definition lowercase_token (before after : list Token) (t : Token) : list Token :=
  match t with
  | Octet b => [Octet b]
  | CodePoint c =>
    if c =? 0x03A3 then
      [CodePoint (if Final_Sigma before after then 0x03C2 else 0x03C3)]
    else if c =? 0x0130 then [CodePoint 0x0069; CodePoint 0x0307]
    else [CodePoint (simple_lowercase c)]
  end.

Fixpoint lowercase_tokens (before l : list Token) : list Token :=
  match l with
  | [] => []
  | t :: l' => lowercase_token before l' t ++ lowercase_tokens (t :: before) l'
  end.

(** [s.toLowerCase()]: the Default Case Conversion of Unicode, with the
    locale-insensitive mappings of [SpecialCasing.txt]. *)
Definition toLowerCase (s : string) : string :=
  utf8_encode_all (lowercase_tokens [] (utf8_decode s)).

(** [s.toLowerCase()] where every character of [s] is ASCII. *)
Fixpoint toLowerCase_ascii (s : string) : string :=
  match s with
  | EmptyString => EmptyString
  | String c s' => String (lower_ascii c) (toLowerCase_ascii s')
  end.

(** Every character of [s] is ASCII (a code below 128). *)
Fixpoint is_ascii (s : string) : bool :=
  match s with
  | EmptyString => true
  | String c s' => (code c <? 0x80) && is_ascii s'
  end.

(** [s.startsWith(p)] *)
Fixpoint startsWith (s p : string) {struct p} : bool :=
  match p, s with
  | EmptyString, _ => true
  | String _ _, EmptyString => false
  | String a p', String b s' => Ascii.eqb a b && startsWith s' p'
  end.

(** [s.includes(p)]: [p] starts at some position of [s]. *)
Fixpoint includes (s p : string) {struct s} : bool :=
  startsWith s p ||
  match s with
  | EmptyString => false
  | String _ s' => includes s' p
  end.

(** Truthiness of a string: only the empty string is falsy. *)
Definition truthy (s : string) : bool :=
  match s with EmptyString => false | String _ _ => true end.

End JSString.
Import JSString.

(** ** The QR-type classifier *)

Record QRType := mkQRType { qr_type : string; icon : string; color : string }.

(** [getQRType], lines 225-239. *)
Definition getQRType (data : string) : QRType :=
  if startsWith data "http://" || startsWith data "https://" then
    {| qr_type := "url"; icon := "🌐"; color := "#2196F3" |}
  else if startsWith data "mailto:" then
    {| qr_type := "email"; icon := "📧"; color := "#FF9800" |}
  else if startsWith data "tel:" then
    {| qr_type := "phone"; icon := "📞"; color := "#4CAF50" |}
  else if startsWith data "WiFi:" then
    {| qr_type := "wifi"; icon := "📶"; color := "#9C27B0" |}
  else if includes data "Contact:" || includes data "VCARD" then
    {| qr_type := "contact"; icon := "👤"; color := "#FF5722" |}
  else
    {| qr_type := "text"; icon := "📝"; color := "#607D8B" |}.

(** The specification's reading of the classifier: an ordered list of rules,
    each a prefix test or a containment test, the first matching rule giving
    the kind, and [text] when none matches. *)
Module ClassifySpec.

Inductive Rule := Prefix (p : string) | Contains (p : string).

Definition is_prefix (p data : string) : Prop :=
  exists rest, data = (p ++ rest)%string.

Definition is_substring (p data : string) : Prop :=
  exists pre post, data = (pre ++ p ++ post)%string.

Definition matches (data : string) (r : Rule) : Prop :=
  match r with
  | Prefix p => is_prefix p data
  | Contains p => is_substring p data
  end.

Definition rules : list (Rule * string) :=
  [ (Prefix "http://", "url"); (Prefix "https://", "url");
    (Prefix "mailto:", "email"); (Prefix "tel:", "phone");
    (Prefix "WiFi:", "wifi");
    (Contains "Contact:", "contact"); (Contains "VCARD", "contact") ].

(** [kind] is what the first matching rule of [rs] gives for [data], or
    [text] when no rule matches. *)
Inductive first_match (data : string) : list (Rule * string) -> string -> Prop :=
| fm_none : first_match data [] "text"
| fm_here r kind rs : matches data r -> first_match data ((r, kind) :: rs) kind
| fm_later r k rs kind :
    ~ matches data r -> first_match data rs kind ->
    first_match data ((r, k) :: rs) kind.

End ClassifySpec.

(** ** Date built-ins used by the screen

    Time values are integers (milliseconds since 1970-01-01T00:00Z), as in
    ECMAScript.  The zone of the device is its local time zone adjustment
    [LocalTZA(t, isUTC)]: the offset of local time from UTC in force at the
    UTC instant [t] ([isUTC = true]) or at the local wall-clock time [t]
    ([isUTC = false]); it may change with [t] (daylight saving).  Days are
    turned into proleptic Gregorian dates and back with the usual
    era / day-of-era computation.  Time values are assumed to stay inside the
    range where a [Date] is valid, so [TimeClip] is the identity. *)

Module JSDate.

Definition msPerDay : Z := 86400000.

(** [Day(t)]: number of the day [t] falls in (floor division). *)
Definition Day (t : Z) : Z := t / msPerDay.

(** The zone of the device. *)
Record Zone := mkZone { LocalTZA : Z -> bool -> Z }.

(** A zone whose offset never changes; an integer used where a zone is
    expected stands for that zone. *)
Definition fixed_zone (offset : Z) : Zone :=
  {| LocalTZA := fun _ _ => offset |}.
Coercion fixed_zone : Z >-> Zone.

(** [LocalTime(t)] and [UTC(t)] of ECMAScript. *)
Definition LocalTime (zone : Zone) (t : Z) : Z := t + LocalTZA zone t true.
Definition UTC (zone : Zone) (t : Z) : Z := t - LocalTZA zone t false.

(** Year, month (1-12) and day of month (1-31) of a day number. *)
Definition civil_from_days (z : Z) : Z * Z * Z :=
  let z := z + 719468 in
  let era := z / 146097 in
  let doe := z mod 146097 in
  let yoe := (doe - doe / 1460 + doe / 36524 - doe / 146096) / 365 in
  let doy := doe - (365 * yoe + yoe / 4 - yoe / 100) in
  let mp := (5 * doy + 2) / 153 in
  let d := doy - (153 * mp + 2) / 5 + 1 in
  let m := if mp <? 10 then mp + 3 else mp - 9 in
  let y := yoe + era * 400 in
  (if m <=? 2 then y + 1 else y, m, d).

(** Day number of the date [y]-[m]-[d] (month 1-12). *)
Definition days_from_civil (y m d : Z) : Z :=
  let y := if m <=? 2 then y - 1 else y in
  let era := y / 400 in
  let yoe := y - era * 400 in
  let mp := if 2 <? m then m - 3 else m + 9 in
  let doy := (153 * mp + 2) / 5 + d - 1 in
  let doe := yoe * 365 + yoe / 4 - yoe / 100 + doy in
  era * 146097 + doe - 719468.

(** [date.getFullYear()], [date.getMonth()] (0-11), [date.getDate()]. *)
Definition getFullYear (zone : Zone) (t : Z) : Z :=
  let '(y, _, _) := civil_from_days (Day (LocalTime zone t)) in y.
Definition getMonth (zone : Zone) (t : Z) : Z :=
  let '(_, m, _) := civil_from_days (Day (LocalTime zone t)) in m - 1.
Definition getDate (zone : Zone) (t : Z) : Z :=
  let '(_, _, d) := civil_from_days (Day (LocalTime zone t)) in d.

(** [MakeDay(year, month, date)]: months outside 0-11 carry into the year. *)
Definition MakeDay (year month date : Z) : Z :=
  let ym := year + month / 12 in
  let mn := month mod 12 in
  days_from_civil ym (mn + 1) 1 + date - 1.

(** [new Date(year, month, date)]: the instant at which the zone shows
    00:00 of that date, with the offset in force at that wall-clock time; a
    year from 0 to 99 is read as 1900 + year. *)
Definition Date_ymd (zone : Zone) (year month date : Z) : Z :=
  let yr := if (0 <=? year) && (year <=? 99) then 1900 + year else year in
  UTC zone (MakeDay yr month date * msPerDay).

(** Local midnight of the calendar day [t] falls in: the instant at which
    the zone shows 00:00 of the local date of [t]. *)
Definition local_midnight (zone : Zone) (t : Z) : Z :=
  UTC zone (Day (LocalTime zone t) * msPerDay).

(** [t] falls on the local calendar day of [now]: same year, month and
    day of month in local time. *)
Definition same_local_day (zone : Zone) (t now : Z) : Prop :=
  getFullYear zone t = getFullYear zone now /\
  getMonth zone t = getMonth zone now /\
  getDate zone t = getDate zone now.

End JSDate.
Import JSDate.

(** ** Data model *)

Record LatLng := mkLatLng { latitude : Q; longitude : Q }.

(** A scan as the screen holds it.  Demo scans carry [type]; scans read from
    Firestore carry [userId] and [userEmail]. *)
Record Scan := mkScan {
  id : string;
  qrData : string;
  timestamp : Z;
  location : option LatLng;
  type : option string;
  userId : option string;
  userEmail : option string
}.

Definition with_timestamp (scan : Scan) (t : Z) : Scan :=
  {| id := id scan; qrData := qrData scan; timestamp := t;
     location := location scan; type := type scan;
     userId := userId scan; userEmail := userEmail scan |}.

(** ** The filter/search engine *)

(** The clock a render reads: [new Date()] and the zone of the device. *)
Record Clock := mkClock { now : Z; zone : Zone }.

(** The offset of local time in force at [now]. *)
Definition tza (clk : Clock) : Z := LocalTZA (zone clk) (now clk) true.

(** New York around the end of daylight saving time in 2023: four hours
    behind UTC until 5 November, 06:00 UTC, when clocks go back from 02:00
    to 01:00, and five hours behind from then on.  A wall-clock time before
    02:00 of that day is read with the earlier offset. *)
Definition new_york_autumn_2023 : Zone :=
  {| LocalTZA := fun t isUTC =>
       if isUTC
       then (if t <? 1699164000000 then -14400000 else -18000000)
       else (if t <? 1699149600000 then -14400000 else -18000000) |}.

(** The [switch] of [filterScans], lines 174-186. *)
Definition cutoffDate (clk : Clock) (selectedFilter : string) : option Z :=
  if String.eqb selectedFilter "today" then
    Some (Date_ymd (zone clk) (getFullYear (zone clk) (now clk))
                   (getMonth (zone clk) (now clk)) (getDate (zone clk) (now clk)))
  else if String.eqb selectedFilter "week" then
    Some (now clk - 7 * 24 * 60 * 60 * 1000)
  else if String.eqb selectedFilter "month" then
    Some (now clk - 30 * 24 * 60 * 60 * 1000)
  else None.

(** [filterScans], lines 166-201: the value handed to [setFilteredScans]. *)
Definition filterScans (clk : Clock) (scans : list Scan)
    (selectedFilter searchText : string) : list Scan :=
  let filtered := scans in
  let filtered :=
    if negb (String.eqb selectedFilter "all") then
      match cutoffDate clk selectedFilter with
      | Some cutoff => List.filter (fun scan => cutoff <=? timestamp scan) filtered
      | None => filtered
      end
    else filtered in
  let filtered :=
    if truthy searchText then
      List.filter
        (fun scan => includes (toLowerCase (qrData scan)) (toLowerCase searchText))
        filtered
    else filtered in
  filtered.

(** The specification's reading of the search: [searchText] occurs in
    [data] up to the case of letters. *)
Module SearchSpec.

(** Two texts that differ in the case of letters only have the same
    lower-case form. *)
Definition eq_ignore_case (a b : string) : Prop :=
  toLowerCase a = toLowerCase b.

Definition occurs_ignoring_case (searchText data : string) : Prop :=
  exists pre mid post,
    data = (pre ++ mid ++ post)%string /\ eq_ignore_case mid searchText.

(** The same reading spelled out for ASCII text, letter by letter: two
    characters are the same character, or one is a capital letter A-Z
    (codes 65-90) and the other the small letter 32 places up. *)
Definition same_letter (a b : ascii) : Prop :=
  a = b \/
  (65 <= code a <= 90 /\ code b = code a + 32) \/
  (65 <= code b <= 90 /\ code a = code b + 32).

Inductive same_ignoring_case : string -> string -> Prop :=
| same_nil : same_ignoring_case "" ""
| same_cons a b s t :
    same_letter a b -> same_ignoring_case s t ->
    same_ignoring_case (String a s) (String b t).

Definition occurs_up_to_case (searchText data : string) : Prop :=
  exists pre mid post,
    data = (pre ++ mid ++ post)%string /\ same_ignoring_case mid searchText.

(** The search predicate: an empty search text matches every record, a
    non-empty one matches when it occurs in [qrData] up to case. *)
Definition matches_search (searchText : string) (scan : Scan) : Prop :=
  match searchText with
  | EmptyString => True
  | String _ _ => occurs_ignoring_case searchText (qrData scan)
  end.

(** The time predicate: at or after the cut-off of the selected filter,
    when it has one. *)
Definition passes_time (clk : Clock) (selectedFilter : string) (scan : Scan) : Prop :=
  match cutoffDate clk selectedFilter with
  | Some cutoff => cutoff <= timestamp scan
  | None => True
  end.

End SearchSpec.

(** The two tests of [filterScans] as boolean functions of one record. *)
Definition time_test (clk : Clock) (selectedFilter : string) (scan : Scan) : bool :=
  match cutoffDate clk selectedFilter with
  | Some cutoff => cutoff <=? timestamp scan
  | None => true
  end.

Definition search_test (searchText : string) (scan : Scan) : bool :=
  if truthy searchText then
    includes (toLowerCase (qrData scan)) (toLowerCase searchText)
  else true.

(** ** The two stores and the component state *)

(** A text held by [AsyncStorage].  [JSONArray items] is the text
    [JSON.stringify(items)] of an array of scans, in which each [Date] is
    written as its ISO-8601 text; the model keeps the time value that text
    denotes.  [Text s] is any other text (a session token, damaged data):
    [JSON.parse(s).map(...)] throws on it. *)
Inductive Stored :=
| JSONArray (items : list Scan)
| Text (s : string).

(** A document of the Firestore collection [scans]; a [null] timestamp is
    [None]. *)
Record Doc := mkDoc {
  doc_id : string;
  doc_userId : string;
  doc_userEmail : string;
  doc_qrData : string;
  doc_timestamp : option Z;
  doc_location : option LatLng
}.

Record User := mkUser { uid : string; email : string }.

(** Calls into the two stores; each may be rejected by the environment. *)
Inductive Op :=
| GetItem (key : string)
| SetItem (key : string)
| RemoveItem (key : string)
| GetDocs
| DeleteDoc (docId : string).

(** What a run of a handler reads but does not change: the signed-in user
    ([useAuth()]), the clock, and which store calls are rejected. *)
Record Env := mkEnv {
  user : option User;
  clock : Clock;
  fails : Op -> bool
}.

Record State := mkState {
  scans : list Scan;                 (* useState([]) *)
  loading : bool;                    (* useState(true) *)
  storage : gmap string Stored;      (* AsyncStorage *)
  firestore : list Doc;              (* collection(db, 'scans') *)
  console : list string;             (* console.error, oldest first *)
  alerts : list (string * string)    (* Alert.alert(title, message), oldest first *)
}.

(** ** Computations that return or throw *)

Inductive Completion (A : Type) :=
| Normal (a : A)
| Throw (error : string).
Arguments Normal {A} a.
Arguments Throw {A} error.

Definition Async (A : Type) : Type := Env -> State -> Completion A * State.

Definition ret {A} (a : A) : Async A := fun _ st => (Normal a, st).

Definition throw {A} (error : string) : Async A := fun _ st => (Throw error, st).

Definition bind {A B} (m : Async A) (k : A -> Async B) : Async B :=
  fun env st =>
    match m env st with
    | (Normal a, st') => k a env st'
    | (Throw e, st') => (Throw e, st')
    end.

Notation "x <- m ;; k" := (bind m (fun x => k))
  (at level 100, m at next level, right associativity).
Notation "m ;;; k" := (bind m (fun _ => k))
  (at level 100, right associativity).

(** [try { body } catch (error) { handler }] *)
Definition try_catch {A} (body : Async A) (handler : string -> Async A) : Async A :=
  fun env st =>
    match body env st with
    | (Normal a, st') => (Normal a, st')
    | (Throw e, st') => handler e env st'
    end.

(** [try { body } finally { cleanup }] *)
Definition try_finally {A} (body : Async A) (cleanup : Async unit) : Async A :=
  fun env st =>
    match body env st with
    | (c, st') =>
        match cleanup env st' with
        | (Normal _, st'') => (c, st'')
        | (Throw e, st'') => (Throw e, st'')
        end
    end.

Definition ask : Async Env := fun env st => (Normal env, st).
Definition get : Async State := fun _ st => (Normal st, st).
Definition put (st : State) : Async unit := fun _ _ => (Normal tt, st).

(** ** State setters, logging and alerts *)

Definition setScans (l : list Scan) : Async unit :=
  st <- get ;;
  put {| scans := l; loading := loading st; storage := storage st;
         firestore := firestore st; console := console st; alerts := alerts st |}.

Definition setLoading (b : bool) : Async unit :=
  st <- get ;;
  put {| scans := scans st; loading := b; storage := storage st;
         firestore := firestore st; console := console st; alerts := alerts st |}.

Definition console_error (msg : string) : Async unit :=
  st <- get ;;
  put {| scans := scans st; loading := loading st; storage := storage st;
         firestore := firestore st; console := console st ++ [msg];
         alerts := alerts st |}.

Definition Alert_alert (title message : string) : Async unit :=
  st <- get ;;
  put {| scans := scans st; loading := loading st; storage := storage st;
         firestore := firestore st; console := console st;
         alerts := alerts st ++ [(title, message)] |}.

Definition set_storage (m : gmap string Stored) : Async unit :=
  st <- get ;;
  put {| scans := scans st; loading := loading st; storage := m;
         firestore := firestore st; console := console st; alerts := alerts st |}.

Definition set_firestore (docs : list Doc) : Async unit :=
  st <- get ;;
  put {| scans := scans st; loading := loading st; storage := storage st;
         firestore := docs; console := console st; alerts := alerts st |}.

(** [Date.now()] *)
Definition Date_now : Async Z := env <- ask ;; ret (now (clock env)).

(** ** AsyncStorage and JSON *)

(** A rejected call leaves the store as it was and throws. *)
Definition guarded {A} (op : Op) (m : Async A) : Async A :=
  env <- ask ;;
  if fails env op then throw "rejected" else m.

Definition AsyncStorage_getItem (key : string) : Async (option Stored) :=
  guarded (GetItem key) (st <- get ;; ret (storage st !! key)).

Definition AsyncStorage_setItem (key : string) (value : Stored) : Async unit :=
  guarded (SetItem key) (st <- get ;; set_storage (<[key := value]> (storage st))).

Definition AsyncStorage_removeItem (key : string) : Async unit :=
  guarded (RemoveItem key) (st <- get ;; set_storage (delete key (storage st))).

(** [if (value)] on what [getItem] gave: [null] and the empty text are
    falsy. *)
Definition stored_truthy (value : option Stored) : bool :=
  match value with
  | None => false
  | Some (JSONArray _) => true
  | Some (Text s) => truthy s
  end.

(** [JSON.stringify(scans)] *)
Definition JSON_stringify (l : list Scan) : Stored := JSONArray l.

(** [JSON.parse(text)], as far as the following [.map] needs an array. *)
Definition JSON_parse (value : option Stored) : Async (list Scan) :=
  match value with
  | Some (JSONArray items) => ret items
  | Some (Text _) => throw "SyntaxError"
  | None => throw "TypeError"
  end.

(** [scan => ({ ...scan, timestamp: new Date(scan.timestamp) })] *)
Definition revive (scan : Scan) : Scan := with_timestamp scan (timestamp scan).

(** ** Firestore *)

(** [orderBy('timestamp', 'desc')]: later first, [null] last; documents
    with equal timestamps keep their order. *)
Definition later_or_equal (a b : option Z) : bool :=
  match a, b with
  | Some x, Some y => y <=? x
  | Some _, None => true
  | None, Some _ => false
  | None, None => true
  end.

Fixpoint insert_desc (d : Doc) (l : list Doc) : list Doc :=
  match l with
  | [] => [d]
  | d' :: l' =>
      if later_or_equal (doc_timestamp d) (doc_timestamp d') then d :: l
      else d' :: insert_desc d l'
  end.

Definition orderBy_timestamp_desc (l : list Doc) : list Doc :=
  fold_right insert_desc [] l.

(** [getDocs(query(collection(db, 'scans'), where('userId', '==', uid),
    orderBy('timestamp', 'desc')))] *)
Definition getDocs (uid : string) : Async (list Doc) :=
  guarded GetDocs
    (st <- get ;;
     ret (orderBy_timestamp_desc
            (List.filter (fun d => String.eqb (doc_userId d) uid) (firestore st)))).

(** [deleteDoc(doc(db, 'scans', id))] *)
Definition deleteDoc (docId : string) : Async unit :=
  guarded (DeleteDoc docId)
    (st <- get ;;
     set_firestore
       (List.filter (fun d => negb (String.eqb (doc_id d) docId)) (firestore st))).

(** The object pushed for each document, lines 63-67. *)
Definition scan_of_doc (now : Z) (d : Doc) : Scan :=
  {| id := doc_id d;
     qrData := doc_qrData d;
     timestamp := match doc_timestamp d with Some t => t | None => now end;
     location := doc_location d;
     type := None;
     userId := Some (doc_userId d);
     userEmail := Some (doc_userEmail d) |}.

(** ** The scan record repository *)

(** [!user || user.uid === 'demo-user'] *)
Definition is_demo (u : option User) : bool :=
  match u with
  | None => true
  | Some usr => String.eqb (uid usr) "demo-user"
  end.

(** [user && user.uid !== 'demo-user'] *)
Definition is_remote (u : option User) : bool :=
  match u with
  | None => false
  | Some usr => negb (String.eqb (uid usr) "demo-user")
  end.

(** [user.uid], read only where [user] is not [null]. *)
Definition user_uid (u : option User) : string :=
  match u with
  | Some usr => uid usr
  | None => ""
  end.

(** The array literal of [getDemoScans], lines 112-148.  Its five calls of
    [Date.now()] are made within one synchronous expression; the model gives
    them one clock reading, [now]. *)
Definition defaultDemoScans (now : Z) : list Scan :=
  [ {| id := "1";
       qrData := "https://expo.dev";
       timestamp := now - 86400000;
       location := Some {| latitude := 40.7128; longitude := -74.0060 |};
       type := Some "url"; userId := None; userEmail := None |};
    {| id := "2";
       qrData := "Hello World QR Code - This is a simple text QR code for testing";
       timestamp := now - 172800000;
       location := None;
       type := Some "text"; userId := None; userEmail := None |};
    {| id := "3";
       qrData := "https://reactnative.dev/docs/getting-started";
       timestamp := now - 259200000;
       location := Some {| latitude := 37.7749; longitude := -122.4194 |};
       type := Some "url"; userId := None; userEmail := None |};
    {| id := "4";
       qrData := String.concat (String "010" "")
                   ["Contact: John Doe"; "Phone: +1-555-123-4567";
                    "Email: john@example.com"];
       timestamp := now - 345600000;
       location := Some {| latitude := 34.0522; longitude := -118.2437 |};
       type := Some "contact"; userId := None; userEmail := None |};
    {| id := "5";
       qrData := "WiFi:T:WPA;S:MyNetwork;P:password123;H:false;;";
       timestamp := now - 432000000;
       location := None;
       type := Some "wifi"; userId := None; userEmail := None |} ].

(** [getDemoScans], lines 96-158.  The first [try] either returns the saved
    scans ([Some]) or falls through ([None]). *)
Definition getDemoScans : Async (list Scan) :=
  saved <-
    try_catch
      (savedDemoScans <- AsyncStorage_getItem "demoScans" ;;
       if stored_truthy savedDemoScans then
         parsedScans <- JSON_parse savedDemoScans ;;
         ret (Some (map revive parsedScans))
       else ret None)
      (fun error => console_error "Error loading demo scans:" ;;; ret None) ;;
  match saved with
  | Some savedScans => ret savedScans
  | None =>
      now <- Date_now ;;
      let demoScans := defaultDemoScans now in
      try_catch
        (AsyncStorage_setItem "demoScans" (JSON_stringify demoScans))
        (fun error => console_error "Error saving demo scans:") ;;;
      ret demoScans
  end.

(** [fetchScanHistory], lines 41-94. *)
Definition fetchScanHistory : Async unit :=
  try_finally
    (try_catch
       (setLoading true ;;;
        env <- ask ;;
        if is_demo (user env) then
          demoScans <- getDemoScans ;;
          setScans demoScans ;;;
          setLoading false
        else
          querySnapshot <- getDocs (user_uid (user env)) ;;
          now <- Date_now ;;
          let scanData := map (scan_of_doc now) querySnapshot in
          setScans scanData ;;;
          AsyncStorage_setItem "scanHistory" (JSON_stringify scanData))
       (fun error =>
          console_error "Error fetching scan history:" ;;;
          try_catch
            (localScans <- AsyncStorage_getItem "scanHistory" ;;
             if stored_truthy localScans then
               parsedScans <- JSON_parse localScans ;;
               setScans (map revive parsedScans)
             else ret tt)
            (fun localError =>
               console_error "Error loading local scan history:" ;;;
               Alert_alert "Error" "Failed to load scan history")))
    (setLoading false).

(** [s => s.id !== scan.id] *)
Definition other_than (scan : Scan) (s : Scan) : bool :=
  negb (String.eqb (id s) (id scan)).

(** [deleteScan], lines 286-306. *)
Definition deleteScan (scan : Scan) : Async unit :=
  try_catch
    (env <- ask ;;
     (if is_remote (user env) then
        deleteDoc (id scan)
      else
        st <- get ;;
        let updatedDemoScans := List.filter (other_than scan) (scans st) in
        AsyncStorage_setItem "demoScans" (JSON_stringify updatedDemoScans)) ;;;
     st <- get ;;
     let updatedScans := List.filter (other_than scan) (scans st) in
     setScans updatedScans ;;;
     Alert_alert "Success" "Scan deleted successfully")
    (fun error =>
       console_error "Error deleting scan:" ;;;
       Alert_alert "Error" "Failed to delete scan").

(** The button of the confirmation dialog the user presses. *)
Inductive Button := Cancel | ClearAll.

(** The [onPress] handler of the "Clear All" button, lines 317-329. *)
Definition clearAll_onPress : Async unit :=
  try_catch
    (env <- ask ;;
     (if is_remote (user env) then
        (* would need a batch delete; nothing is done *)
        ret tt
      else ret tt) ;;;
     AsyncStorage_removeItem "demoScans" ;;;
     setScans [] ;;;
     Alert_alert "Success" "All scans cleared")
    (fun error => Alert_alert "Error" "Failed to clear scans").

(** [clearAllScans], lines 308-333: the dialog, then what the pressed button
    does. *)
Definition clearAllScans (pressed : Button) : Async unit :=
  Alert_alert "Clear All Scans"
    "Are you sure you want to delete all scan history? This action cannot be undone." ;;;
  match pressed with
  | Cancel => ret tt
  | ClearAll => clearAll_onPress
  end.

(** Running a handler: the state it leaves, and how it completed. *)
Definition run {A} (m : Async A) (env : Env) (st : State) : State := snd (m env st).
Definition completion {A} (m : Async A) (env : Env) (st : State) : Completion A :=
  fst (m env st).

(** The state of a freshly mounted screen over given stores. *)
Definition mount (store : gmap string Stored) (docs : list Doc) : State :=
  {| scans := []; loading := true; storage := store; firestore := docs;
     console := []; alerts := [] |}.

(** No store call is rejected. *)
Definition no_faults : Op -> bool := fun _ => false.

(** Firestore is unreachable; AsyncStorage works. *)
Definition remote_down : Op -> bool :=
  fun op =>
    match op with
    | GetDocs | DeleteDoc _ => true
    | _ => false
    end.

(** Every store call is rejected. *)
Definition all_down : Op -> bool := fun _ => true.

(** Reads of AsyncStorage are rejected; writes are accepted. *)
Definition reads_down : Op -> bool :=
  fun op =>
    match op with
    | GetItem _ => true
    | _ => false
    end.

(** The store call [deleteScan] depends on: Firestore for a signed-in user,
    the demo snapshot otherwise. *)
Definition delete_op (u : option User) (scan : Scan) : Op :=
  if is_remote u then DeleteDoc (id scan) else SetItem "demoScans".

(** Timestamps strictly decreasing along a list of scans. *)
Fixpoint strictly_decreasing (l : list Scan) : Prop :=
  match l with
  | [] => True
  | a :: l' =>
      match l' with
      | [] => True
      | b :: _ => timestamp b < timestamp a
      end /\ strictly_decreasing l'
  end.

(** ** What a successful query gives *)

(** The array [scanData] of [fetchScanHistory], lines 59-68: the user's
    documents, latest first, each turned into a scan. *)
Definition remote_list (env : Env) (docs : list Doc) : list Scan :=
  map (scan_of_doc (now (clock env)))
    (orderBy_timestamp_desc
       (List.filter (fun d => String.eqb (doc_userId d) (user_uid (user env))) docs)).

(** [a] is listed before [b] by [orderBy('timestamp', 'desc')]. *)
Definition listed_before (a b : Doc) : Prop :=
  later_or_equal (doc_timestamp a) (doc_timestamp b) = true.

(** ** Presentation helpers of the history screen *)

(** What the device's formatting functions give: they depend on the locale
    and the zone, and are kept abstract.  [toLocaleTimeString date] is
    [date.toLocaleTimeString([], { hour: '2-digit', minute: '2-digit' })],
    [Intl_format date] the [Intl.DateTimeFormat('en-US', ...)] text of lines
    215-221, [toFixed4 x] is [x.toFixed(4)]. *)
Record Locale := mkLocale {
  toLocaleTimeString : Z -> string;
  Intl_format : Z -> string;
  toFixed4 : Q -> string
}.

(** [Math.ceil(a / b)] for integers [a] and [b > 0]: the ceiling of the
    exact quotient.  For a number of milliseconds between two valid dates
    and [b] the milliseconds of a day, the rounded quotient of the two
    doubles has the same ceiling. *)
Definition Math_ceil_div (a b : Z) : Z := - ((- a) / b).

(** The text of an integer in a template literal. *)
Definition Number_toString (n : Z) : string :=
  NilZero.string_of_int (Z.to_int n).

(** [diffDays] of [formatDate], lines 204-206. *)
Definition diffDays (clk : Clock) (date : Z) : Z :=
  let diffTime := Z.abs (now clk - date) in
  Math_ceil_div diffTime (1000 * 60 * 60 * 24).

(** [formatDate], lines 203-223. *)
Definition formatDate (loc : Locale) (clk : Clock) (date : Z) : string :=
  let diffDays := diffDays clk date in
  if diffDays =? 1 then
    ("Today at " ++ toLocaleTimeString loc date)%string
  else if diffDays =? 2 then
    ("Yesterday at " ++ toLocaleTimeString loc date)%string
  else if diffDays <=? 7 then
    (Number_toString (diffDays - 1) ++ " days ago")%string
  else
    Intl_format loc date.

(** The dialog of [handleScanPress], lines 241-255: title, message and the
    labels of its buttons.  An entry that is [false] in the source array is
    [None] here, and [.filter(Boolean)] drops it. *)
Definition handleScanPress_buttons (scan : Scan) : list string :=
  let qrType := getQRType (qrData scan) in
  omap (fun entry : option string => entry)
    [ Some "Copy";
      if String.eqb (qr_type qrType) "url" then Some "Open URL" else None;
      Some "Share";
      Some "Delete";
      Some "Close" ].

Definition handleScanPress (scan : Scan) : string * string * list string :=
  ("QR Code Details", qrData scan, handleScanPress_buttons scan).

(** Writes to AsyncStorage are rejected; everything else is accepted. *)
Definition writes_down : Op -> bool :=
  fun op =>
    match op with
    | SetItem _ => true
    | _ => false
    end.

(** ** Components with a state of their own

    The scanner component and the authentication provider keep state beside
    the stores; their handlers are computations over that state, with the
    same completions and the same [try]/[catch]/[finally]. *)

Definition AsyncOn (S A : Type) : Type := Env -> S -> Completion A * S.

Definition ret_on {S A} (a : A) : AsyncOn S A := fun _ s => (Normal a, s).

Definition throw_on {S A} (error : string) : AsyncOn S A :=
  fun _ s => (Throw error, s).

Definition bind_on {S A B} (m : AsyncOn S A) (k : A -> AsyncOn S B) : AsyncOn S B :=
  fun env s =>
    match m env s with
    | (Normal a, s') => k a env s'
    | (Throw e, s') => (Throw e, s')
    end.

Notation "x <-' m ;; k" := (bind_on m (fun x => k))
  (at level 100, m at next level, right associativity).
Notation "m ;;' k" := (bind_on m (fun _ => k))
  (at level 100, right associativity).

Definition try_catch_on {S A} (body : AsyncOn S A) (handler : string -> AsyncOn S A)
  : AsyncOn S A :=
  fun env s =>
    match body env s with
    | (Normal a, s') => (Normal a, s')
    | (Throw e, s') => handler e env s'
    end.

Definition try_finally_on {S A} (body : AsyncOn S A) (cleanup : AsyncOn S unit)
  : AsyncOn S A :=
  fun env s =>
    match body env s with
    | (c, s') =>
        match cleanup env s' with
        | (Normal _, s'') => (c, s'')
        | (Throw e, s'') => (Throw e, s'')
        end
    end.

Definition ask_on {S} : AsyncOn S Env := fun env s => (Normal env, s).
Definition get_on {S} : AsyncOn S S := fun _ s => (Normal s, s).
Definition put_on {S} (s : S) : AsyncOn S unit := fun _ _ => (Normal tt, s).

Definition run_on {S A} (m : AsyncOn S A) (env : Env) (s : S) : S := snd (m env s).
Definition completion_on {S A} (m : AsyncOn S A) (env : Env) (s : S) : Completion A :=
  fst (m env s).

(** ** The scanner component ([components/qrScanner.js]) *)

(** What the location service answers: permission refused, a position, or
    a failure of either call. *)
Inductive LocationResponse :=
| PermissionDenied
| Position (coords : LatLng)
| LocationError.

(** What Firestore answers to [addDoc]: a rejection, or the id of the new
    document and the time the server stamps it with. *)
Inductive AddDocResponse :=
| AddRejected
| Added (docId : string) (serverTime : Z).

(** [getLocation], lines 34-50. *)
Definition getLocation (response : LocationResponse) : Async (option LatLng) :=
  try_catch
    (match response with
     | PermissionDenied => ret None
     | Position coords =>
         ret (Some {| latitude := latitude coords; longitude := longitude coords |})
     | LocationError => throw "location"
     end)
    (fun error => console_error "Error getting location:" ;;; ret None).

(** [value || fallback] for a text that may be missing. *)
Definition or_else (value : option string) (fallback : string) : string :=
  match value with
  | Some s => if truthy s then s else fallback
  | None => fallback
  end.

(** [addDoc(collection(db, 'scans'), scanData)] with
    [timestamp: serverTimestamp()]. *)
Definition addDoc (response : AddDocResponse) (userId userEmail qrData : string)
    (location : option LatLng) : Async unit :=
  match response with
  | AddRejected => throw "rejected"
  | Added docId serverTime =>
      st <- get ;;
      set_firestore
        (firestore st ++
         [ {| doc_id := docId; doc_userId := userId; doc_userEmail := userEmail;
              doc_qrData := qrData; doc_timestamp := Some serverTime;
              doc_location := location |} ])
  end.

(** [saveScanToDatabase], lines 51-66. *)
Definition saveScanToDatabase (response : AddDocResponse) (data : string)
    (location : option LatLng) : Async bool :=
  try_catch
    (env <- ask ;;
     let userId := or_else (option_map uid (user env)) "demo-user" in
     let userEmail := or_else (option_map email (user env)) "demo@example.com" in
     addDoc response userId userEmail data location ;;;
     ret true)
    (fun error => console_error "Error saving scan:" ;;; ret false).

(** The state of the scanner: its two flags, over the stores.  The
    handler reads the flags as last set (the component has re-rendered
    between two camera callbacks). *)
Record ScannerState := mkScanner {
  scanned : bool;          (* useState(false) *)
  scanner_loading : bool;  (* useState(false), [loading] in the source *)
  app : State
}.

Definition setScanned (b : bool) : AsyncOn ScannerState unit :=
  s <-' get_on ;;
  put_on {| scanned := b; scanner_loading := scanner_loading s; app := app s |}.

Definition setScannerLoading (b : bool) : AsyncOn ScannerState unit :=
  s <-' get_on ;;
  put_on {| scanned := scanned s; scanner_loading := b; app := app s |}.

(** A computation on the stores, run inside the scanner. *)
Definition in_app {A} (m : Async A) : AsyncOn ScannerState A :=
  fun env s =>
    match m env (app s) with
    | (c, st') =>
        (c, {| scanned := scanned s; scanner_loading := scanner_loading s; app := st' |})
    end.

(** The message of the success dialog, line 80. *)
Definition scanned_message (loc : Locale) (data : string)
    (location : option LatLng) : string :=
  ("Data: " ++ data ++
   match location with
   | Some l =>
       String "010" "" ++ "Location: " ++ toFixed4 loc (latitude l) ++ ", "
       ++ toFixed4 loc (longitude l)
   | None => ""
   end)%string.

(** [handleBarCodeScanned], lines 68-109. *)
Definition handleBarCodeScanned (loc : Locale) (located : LocationResponse)
    (added : AddDocResponse) (data : string) : AsyncOn ScannerState unit :=
  s <-' get_on ;;
  if scanned s then ret_on tt
  else
    setScanned true ;;'
    setScannerLoading true ;;'
    try_finally_on
      (try_catch_on
         (location <-' in_app (getLocation located) ;;
          saved <-' in_app (saveScanToDatabase added data location) ;;
          if saved then
            in_app (Alert_alert "QR Code Scanned!" (scanned_message loc data location))
          else
            in_app (Alert_alert "Error" "Failed to save scan data") ;;'
            setScanned false)
         (fun error =>
            in_app (console_error "Scan error:") ;;'
            in_app (Alert_alert "Error" "An error occurred while processing the scan") ;;'
            setScanned false))
      (setScannerLoading false).

(** The "Scan Another" button of the success dialog, lines 84-87. *)
Definition scanAnother_onPress : AsyncOn ScannerState unit :=
  setScanned false ;;' setScannerLoading false.

(** A scanner just opened over given stores. *)
Definition open_scanner (st : State) : ScannerState :=
  {| scanned := false; scanner_loading := false; app := st |}.

(** ** The authentication provider ([context/AuthContext.js]) *)

(** What Firebase Authentication answers to a sign-in or a registration:
    the signed-in user, or an error with its message. *)
Inductive AuthResponse :=
| Authenticated (usr : User)
| AuthFailed (message : string).

(** The provider's state: [user] as set by the provider's own functions
    (the [onAuthStateChanged] listener is outside this model), the tokens in
    AsyncStorage and the console. *)
Record Session := mkSession {
  session_user : option User;
  session_storage : gmap string Stored;
  session_console : list string
}.

(** What [login] and [register] resolve to: [{ success: true, user }] or
    [{ success: false, error }]. *)
Inductive AuthResult :=
| AuthSuccess (usr : User)
| AuthFailure (error : string).

Definition setUser (u : option User) : AsyncOn Session unit :=
  s <-' get_on ;;
  put_on {| session_user := u; session_storage := session_storage s;
            session_console := session_console s |}.

(** One call of [AsyncStorage.setItem(key, value)], given the answer of the
    store to that call: the promise is rejected, or the item is stored. *)
Definition session_setItem_answer (rejected : bool) (key : string) (value : string)
  : AsyncOn Session unit :=
  if rejected then throw_on "rejected"
  else
    s <-' get_on ;;
    put_on {| session_user := session_user s;
              session_storage := <[key := Text value]> (session_storage s);
              session_console := session_console s |}.

(** [AsyncStorage.setItem(key, value)] with the answer the environment gives
    for the key. *)
Definition session_setItem (key : string) (value : string) : AsyncOn Session unit :=
  env <-' ask_on ;;
  session_setItem_answer (fails env (SetItem key)) key value.

Definition session_removeItem (key : string) : AsyncOn Session unit :=
  env <-' ask_on ;;
  if fails env (RemoveItem key) then throw_on "rejected"
  else
    s <-' get_on ;;
    put_on {| session_user := session_user s;
              session_storage := delete key (session_storage s);
              session_console := session_console s |}.

Definition session_console_error (msg : string) : AsyncOn Session unit :=
  s <-' get_on ;;
  put_on {| session_user := session_user s; session_storage := session_storage s;
            session_console := session_console s ++ [msg] |}.

(** [signInWithEmailAndPassword] and [createUserWithEmailAndPassword]: the
    answer of Firebase, an error being thrown with its message. *)
Definition firebase_auth (response : AuthResponse) : AsyncOn Session User :=
  match response with
  | Authenticated usr => ret_on usr
  | AuthFailed message => throw_on message
  end.

(** [signOut(auth)] *)
Definition signOut (accepted : bool) : AsyncOn Session unit :=
  if accepted then ret_on tt else throw_on "sign-out failed".

Definition demoUser : User := {| uid := "demo-user"; email := "demo@example.com" |}.

(** [login], lines 23-39; [error] in the handler is [error.message].  The
    token is written at two places, and the store answers each call on its
    own: [first_rejected] is its answer to the write of the [try] block
    (line 26), [second_rejected] its answer to the write of the [catch]
    block (line 33). *)
Definition login_answers (response : AuthResponse)
    (first_rejected second_rejected : bool) (email password : string)
  : AsyncOn Session AuthResult :=
  try_catch_on
    (result_user <-' firebase_auth response ;;
     session_setItem_answer first_rejected "userToken" (uid result_user) ;;'
     ret_on (AuthSuccess result_user))
    (fun error =>
       if String.eqb email "demo@example.com" && String.eqb password "demo123" then
         setUser (Some demoUser) ;;'
         session_setItem_answer second_rejected "userToken" "demo-user" ;;'
         ret_on (AuthSuccess demoUser)
       else ret_on (AuthFailure error)).

(** [login] with a store that answers every write of the token alike, as
    the environment says. *)
Definition login (response : AuthResponse) (email password : string)
  : AsyncOn Session AuthResult :=
  try_catch_on
    (result_user <-' firebase_auth response ;;
     session_setItem "userToken" (uid result_user) ;;'
     ret_on (AuthSuccess result_user))
    (fun error =>
       if String.eqb email "demo@example.com" && String.eqb password "demo123" then
         setUser (Some demoUser) ;;'
         session_setItem "userToken" "demo-user" ;;'
         ret_on (AuthSuccess demoUser)
       else ret_on (AuthFailure error)).

(** [register], lines 41-49. *)
Definition register (response : AuthResponse) (email password : string)
  : AsyncOn Session AuthResult :=
  try_catch_on
    (result_user <-' firebase_auth response ;;
     session_setItem "userToken" (uid result_user) ;;'
     ret_on (AuthSuccess result_user))
    (fun error => ret_on (AuthFailure error)).

(** [logout], lines 51-59. *)
Definition logout (accepted : bool) : AsyncOn Session unit :=
  try_catch_on
    (signOut accepted ;;'
     session_removeItem "userToken" ;;'
     setUser None)
    (fun error => session_console_error "Logout error:").

(** What [getLocation] returns for each answer of the location service,
    and whether it logs an error. *)
Definition location_of (located : LocationResponse) : option LatLng :=
  match located with
  | Position coords =>
      Some {| latitude := latitude coords; longitude := longitude coords |}
  | PermissionDenied | LocationError => None
  end.

Definition location_log (located : LocationResponse) : list string :=
  match located with
  | LocationError => ["Error getting location:"]
  | PermissionDenied | Position _ => []
  end.

(** The document [saveScanToDatabase] sends for the current user. *)
Definition scan_document (env : Env) (docId : string) (serverTime : Z)
    (data : string) (location : option LatLng) : Doc :=
  {| doc_id := docId;
     doc_userId := or_else (option_map uid (user env)) "demo-user";
     doc_userEmail := or_else (option_map email (user env)) "demo@example.com";
     doc_qrData := data;
     doc_timestamp := Some serverTime;
     doc_location := location |}.

(* ===================================================================== *)
(** * Properties *)
(* ===================================================================== *)

(** ** Strings *)

Section StringFacts.

Local Open Scope string_scope.

Lemma startsWith_spec (s p : string) :
  startsWith s p = true <-> ClassifySpec.is_prefix p s.
Proof.
  unfold ClassifySpec.is_prefix.
  revert s; induction p as [|a p IH]; intros s; simpl.
  - split; [intros _; exists s; reflexivity | reflexivity].
  - destruct s as [|b s].
    + split; [discriminate | intros [rest H]; discriminate].
    + rewrite andb_true_iff, IH. split.
      * intros [Hab [rest ->]]. apply Ascii.eqb_eq in Hab as ->.
        exists rest; reflexivity.
      * intros [rest H]. injection H as -> ->.
        split; [apply Ascii.eqb_refl | exists rest; reflexivity].
Qed.

Lemma includes_spec (s p : string) :
  includes s p = true <-> ClassifySpec.is_substring p s.
Proof.
  unfold ClassifySpec.is_substring.
  induction s as [|b s IH].
  - cbn [includes]. rewrite orb_false_r, startsWith_spec. split.
    + intros [rest ->]. exists "", rest. reflexivity.
    + intros [pre [post H]]. destruct pre; [|discriminate].
      exists post. exact H.
  - cbn [includes]. rewrite orb_true_iff, startsWith_spec, IH. split.
    + intros [[rest ->] | [pre [post ->]]].
      * exists "", rest. reflexivity.
      * exists (String b pre), post. reflexivity.
    + intros [pre [post H]]. destruct pre as [|c pre].
      * left. exists post. exact H.
      * right. injection H as -> ->. exists pre, post. reflexivity.
Qed.

End StringFacts.

(** ** Case conversion *)

Section CaseFacts.

Lemma code_nat (c : ascii) : code c = Z.of_nat (nat_of_ascii c).
Proof. unfold code, nat_of_ascii. now rewrite N_nat_Z. Qed.

Lemma code_bounded (c : ascii) : 0 <= code c < 256.
Proof. rewrite code_nat. pose proof (nat_ascii_bounded c). lia. Qed.

Lemma code_inj (a b : ascii) : code a = code b -> a = b.
Proof.
  rewrite !code_nat. intros H. apply Nat2Z.inj in H.
  rewrite <- (ascii_nat_embedding a), <- (ascii_nat_embedding b). now rewrite H.
Qed.

Lemma code_lower_ascii (c : ascii) :
  code (lower_ascii c)
  = if (65 <=? code c) && (code c <=? 90) then code c + 32 else code c.
Proof.
  unfold lower_ascii. rewrite (code_nat c).
  pose proof (nat_ascii_bounded c) as Hb.
  set (n := nat_of_ascii c) in *.
  destruct (Nat.leb_spec 65 n), (Nat.leb_spec n 90); cbn [andb];
    destruct (Z.leb_spec 65 (Z.of_nat n)), (Z.leb_spec (Z.of_nat n) 90);
    cbn [andb]; try lia;
    try (subst n; apply code_nat).
  rewrite code_nat, nat_ascii_embedding by lia. lia.
Qed.

Lemma lower_ascii_same_letter (a b : ascii) :
  lower_ascii a = lower_ascii b <-> SearchSpec.same_letter a b.
Proof.
  unfold SearchSpec.same_letter. split.
  - intros H. apply (f_equal code) in H. rewrite !code_lower_ascii in H.
    destruct (Z.leb_spec 65 (code a)), (Z.leb_spec (code a) 90),
             (Z.leb_spec 65 (code b)), (Z.leb_spec (code b) 90);
      cbn [andb] in H;
      first [ left; apply code_inj; lia | right; left; lia | right; right; lia ].
  - intros H. apply code_inj. rewrite !code_lower_ascii.
    destruct H as [-> | [[Ha Hb] | [Hb Ha]]]; [reflexivity | |];
    destruct (Z.leb_spec 65 (code a)), (Z.leb_spec (code a) 90),
             (Z.leb_spec 65 (code b)), (Z.leb_spec (code b) 90);
      cbn [andb]; lia.
Qed.

Lemma toLowerCase_ascii_same (a b : string) :
  toLowerCase_ascii a = toLowerCase_ascii b <-> SearchSpec.same_ignoring_case a b.
Proof.
  split.
  - revert b; induction a as [|x a IH]; intros [|y b] H; try discriminate.
    + constructor.
    + cbn in H. injection H as Hc Hs. constructor.
      * now apply lower_ascii_same_letter.
      * now apply IH.
  - induction 1 as [|x y s t Hc _ IH]; [reflexivity|].
    cbn. apply lower_ascii_same_letter in Hc. now rewrite Hc, IH.
Qed.

Lemma toLowerCase_ascii_app (a b : string) :
  toLowerCase_ascii (a ++ b) = (toLowerCase_ascii a ++ toLowerCase_ascii b)%string.
Proof. induction a as [|c a IH]; simpl; [reflexivity | now rewrite IH]. Qed.

Lemma toLowerCase_ascii_app_inv (s x y : string) :
  toLowerCase_ascii s = (x ++ y)%string ->
  exists s1 s2, s = (s1 ++ s2)%string /\ toLowerCase_ascii s1 = x /\ toLowerCase_ascii s2 = y.
Proof.
  revert s; induction x as [|c x IH]; intros s H.
  - exists "", s. auto.
  - destruct s as [|b s]; [discriminate|].
    simpl in H. injection H as Hc Hs.
    destruct (IH s Hs) as (s1 & s2 & -> & <- & <-).
    exists (String b s1), s2. simpl. rewrite Hc. auto.
Qed.

Lemma is_ascii_app (a b : string) :
  is_ascii (a ++ b) = is_ascii a && is_ascii b.
Proof.
  induction a as [|c a IH]; [reflexivity|].
  change (is_ascii (String c (a ++ b)) = is_ascii (String c a) && is_ascii b).
  cbn [is_ascii]. now rewrite IH, andb_assoc.
Qed.

(** An ASCII character is read as its own code point. *)
Lemma utf8_decode_ascii (b : ascii) (s : string) :
  (code b <? 0x80) = true ->
  utf8_decode (String b s) = CodePoint (code b) :: utf8_decode s.
Proof. intros H. cbn [utf8_decode]. now rewrite H. Qed.

(** The lower-case form of an ASCII character, in any context. *)
Lemma lowercase_token_ascii (before after : list Token) (b : ascii) :
  (code b <? 0x80) = true ->
  utf8_encode_all (lowercase_token before after (CodePoint (code b)))
  = String (lower_ascii b) "".
Proof.
  destruct b as [[] [] [] [] [] [] [] []]; intros H;
    solve [ discriminate H | vm_compute; reflexivity ].
Qed.

Lemma utf8_encode_all_app (l1 l2 : list Token) :
  utf8_encode_all (l1 ++ l2)
  = (utf8_encode_all l1 ++ utf8_encode_all l2)%string.
Proof.
  induction l1 as [|t l1 IH]; [reflexivity|].
  rewrite <- app_comm_cons. cbn [utf8_encode_all]. rewrite IH.
  generalize (encode_token t) (utf8_encode_all l1) (utf8_encode_all l2).
  intros x y z. induction x as [|c x IHx]; [reflexivity|].
  change (String c (x ++ y ++ z) = String c ((x ++ y) ++ z))%string.
  now rewrite IHx.
Qed.

Lemma lowercase_tokens_ascii (s : string) (before : list Token) :
  is_ascii s = true ->
  utf8_encode_all (lowercase_tokens before (utf8_decode s)) = toLowerCase_ascii s.
Proof.
  revert before; induction s as [|b s IH]; intros before H; [reflexivity|].
  cbn [is_ascii] in H. apply andb_true_iff in H as [Hb Hs].
  rewrite (utf8_decode_ascii b s Hb). cbn [lowercase_tokens].
  rewrite utf8_encode_all_app, (lowercase_token_ascii _ _ b Hb), (IH _ Hs).
  reflexivity.
Qed.

(** On ASCII text [toLowerCase] folds the letters A-Z and nothing else. *)
Lemma toLowerCase_on_ascii (s : string) :
  is_ascii s = true -> toLowerCase s = toLowerCase_ascii s.
Proof. apply lowercase_tokens_ascii. Qed.

Lemma is_ascii_toLowerCase_ascii (s : string) :
  is_ascii (toLowerCase_ascii s) = is_ascii s.
Proof.
  induction s as [|c s IH]; [reflexivity|]. cbn [toLowerCase_ascii is_ascii].
  rewrite IH. f_equal. rewrite code_lower_ascii.
  destruct (Z.leb_spec 65 (code c)), (Z.leb_spec (code c) 90); cbn [andb];
    try reflexivity.
  destruct (Z.ltb_spec (code c + 32) 128), (Z.ltb_spec (code c) 128); lia.
Qed.

End CaseFacts.

(** The search test of [filterScans]: the lower-case form of the search
    text occurs in the lower-case form of the data. *)
Lemma search_test_substring (searchText : string) (scan : Scan) :
  search_test searchText scan = true <->
  match searchText with
  | EmptyString => True
  | String _ _ =>
    ClassifySpec.is_substring (toLowerCase searchText) (toLowerCase (qrData scan))
  end.
Proof.
  unfold search_test.
  destruct searchText as [|c s]; cbn [truthy]; [tauto|].
  apply includes_spec.
Qed.

(** For ASCII text that is the occurrence of the search text in the data up
    to the case of the letters A-Z. *)
Lemma search_ascii (searchText data : string) :
  is_ascii searchText = true -> is_ascii data = true ->
  ClassifySpec.is_substring (toLowerCase searchText) (toLowerCase data) <->
  SearchSpec.occurs_up_to_case searchText data.
Proof.
  intros Hs Hd.
  rewrite (toLowerCase_on_ascii _ Hs), (toLowerCase_on_ascii _ Hd).
  unfold ClassifySpec.is_substring, SearchSpec.occurs_up_to_case.
  split.
  - intros (pre & post & H).
    apply toLowerCase_ascii_app_inv in H as (s1 & s23 & -> & <- & H).
    apply toLowerCase_ascii_app_inv in H as (s2 & s3 & -> & H2 & <-).
    exists s1, s2, s3. split; [reflexivity|].
    now apply toLowerCase_ascii_same.
  - intros (pre & mid & post & -> & H).
    apply toLowerCase_ascii_same in H.
    exists (toLowerCase_ascii pre), (toLowerCase_ascii post).
    now rewrite !toLowerCase_ascii_app, H.
Qed.

(** ** The classifier *)

Lemma first_match_functional (data : string) rs k1 k2 :
  ClassifySpec.first_match data rs k1 ->
  ClassifySpec.first_match data rs k2 -> k1 = k2.
Proof.
  intros H1; revert k2.
  induction H1 as [| r kind rs Hm | r k rs kind Hn H1 IH]; intros k2 H2;
    inversion H2; subst; auto; contradiction.
Qed.

Ltac rule_step :=
  first
    [ apply ClassifySpec.fm_here; cbn [ClassifySpec.matches];
      (apply startsWith_spec || apply includes_spec); assumption
    | apply ClassifySpec.fm_later;
      [ cbn [ClassifySpec.matches]; intros Hm;
        (apply startsWith_spec in Hm || apply includes_spec in Hm); congruence
      | ] ].

Lemma getQRType_first_match (data : string) :
  ClassifySpec.first_match data ClassifySpec.rules (qr_type (getQRType data)).
Proof.
  unfold getQRType, ClassifySpec.rules.
  destruct (startsWith data "http://") eqn:E1;
  destruct (startsWith data "https://") eqn:E2;
  destruct (startsWith data "mailto:") eqn:E3;
  destruct (startsWith data "tel:") eqn:E4;
  destruct (startsWith data "WiFi:") eqn:E5;
  destruct (includes data "Contact:") eqn:E6;
  destruct (includes data "VCARD") eqn:E7;
  cbn [orb qr_type];
  repeat rule_step; apply ClassifySpec.fm_none.
Qed.

(** C7.  For every input string the kind [getQRType] gives is the kind of
    the first rule that matches in the ordered list
    prefix http:// -> url, prefix https:// -> url, prefix mailto: -> email,
    prefix tel: -> phone, prefix WiFi: -> wifi, contains Contact: -> contact,
    contains VCARD -> contact, and text when no rule matches; in particular
    the three sample inputs are classified url, wifi and text. *)
Theorem getQRType_ordered_rules :
  (forall data kind,
     ClassifySpec.first_match data ClassifySpec.rules kind <->
     qr_type (getQRType data) = kind) /\
  qr_type (getQRType "https://example.com") = "url" /\
  qr_type (getQRType "WiFi:T:WPA;S:Net;P:pw;;") = "wifi" /\
  qr_type (getQRType "plain text") = "text".
Proof.
  split; [|repeat split; reflexivity].
  intros data kind. split.
  - intros H. exact (first_match_functional _ _ _ _ (getQRType_first_match data) H).
  - intros <-. apply getQRType_first_match.
Qed.

(** ** The calendar *)

Section Calendar.

(** The year-of-era estimate is the year whose days contain [doe]. *)
Lemma year_of_era_bounds (doe : Z) :
  0 <= doe < 146097 ->
  let yoe := (doe - doe / 1460 + doe / 36524 - doe / 146096) / 365 in
  0 <= yoe < 400 /\ 0 <= doe - (365 * yoe + yoe / 4 - yoe / 100) <= 365.
Proof. intros H yoe. subst yoe. Z.div_mod_to_equations. lia. Qed.

(** The month index (March = 0) and day of month of a day of the year. *)
Lemma month_of_year_bounds (doy : Z) :
  0 <= doy <= 365 ->
  let mp := (5 * doy + 2) / 153 in
  0 <= mp < 12 /\ 1 <= doy - (153 * mp + 2) / 5 + 1.
Proof. intros H mp. subst mp. Z.div_mod_to_equations. lia. Qed.

(** Rebuilding the day number from its date gives it back. *)
Lemma days_from_civil_from_days (z : Z) :
  let '(y, m, d) := civil_from_days z in
  days_from_civil y m d = z /\ 1 <= m <= 12 /\ 1 <= d /\
  (0 <= z -> 1600 <= y).
Proof.
  unfold civil_from_days.
  set (z' := z + 719468).
  set (era := z' / 146097).
  set (doe := z' mod 146097).
  assert (Hz : z' = 146097 * era + doe) by (apply Z.div_mod; lia).
  assert (Hdoe : 0 <= doe < 146097) by (apply Z.mod_pos_bound; lia).
  pose proof (year_of_era_bounds doe Hdoe) as Hy. cbv zeta in Hy.
  set (yoe := (doe - doe / 1460 + doe / 36524 - doe / 146096) / 365) in *.
  set (doy := doe - (365 * yoe + yoe / 4 - yoe / 100)) in *.
  destruct Hy as [Hyoe Hdoy].
  pose proof (month_of_year_bounds doy Hdoy) as Hm. cbv zeta in Hm.
  set (mp := (5 * doy + 2) / 153) in *.
  destruct Hm as [Hmp Hd].
  cbv zeta.
  assert (Hera : 0 <= z -> 4 <= era).
  { intros Hz0. subst era z'. apply Z.div_le_lower_bound; lia. }
  assert (Hz' : z' = z + 719468) by reflexivity.
  assert (Edoy : doy = doe - (365 * yoe + yoe / 4 - yoe / 100)) by reflexivity.
  clearbody mp doy yoe doe era z'.
  unfold days_from_civil.
  destruct (mp <? 10) eqn:Emp;
    [apply Z.ltb_lt in Emp | apply Z.ltb_ge in Emp].
  - replace (mp + 3 <=? 2) with false by (symmetry; apply Z.leb_gt; lia).
    replace (2 <? mp + 3) with true by (symmetry; apply Z.ltb_lt; lia).
    replace ((yoe + era * 400) / 400) with era
      by (apply Z.div_unique with (r := yoe); lia).
    replace (mp + 3 - 3) with mp by lia.
    replace (yoe + era * 400 - era * 400) with yoe by lia.
    repeat split; lia.
  - replace (mp - 9 <=? 2) with true by (symmetry; apply Z.leb_le; lia).
    replace (2 <? mp - 9) with false by (symmetry; apply Z.ltb_ge; lia).
    replace ((yoe + era * 400 + 1 - 1) / 400) with era
      by (apply Z.div_unique with (r := yoe); lia).
    replace (mp - 9 + 9) with mp by lia.
    replace (yoe + era * 400 + 1 - 1 - era * 400) with yoe by lia.
    repeat split; lia.
Qed.

(** [new Date(now.getFullYear(), now.getMonth(), now.getDate())] is local
    midnight of the day of [t] in every zone, unless the local year of [t]
    is one of the years 0 to 99, which the constructor reads as 1900 to
    1999. *)
Lemma Date_ymd_today (z : Zone) (t : Z) :
  ~ (0 <= getFullYear z t <= 99) ->
  Date_ymd z (getFullYear z t) (getMonth z t) (getDate z t)
  = local_midnight z t.
Proof.
  unfold Date_ymd, getFullYear, getMonth, getDate, local_midnight, MakeDay.
  pose proof (days_from_civil_from_days (Day (LocalTime z t))) as H.
  destruct (civil_from_days (Day (LocalTime z t))) as [[y m] d].
  destruct H as (Hrt & Hm & Hd & _).
  intros Hy.
  replace ((0 <=? y) && (y <=? 99)) with false.
  2:{ symmetry. apply andb_false_iff.
      destruct (Z.leb_spec 0 y); [right; apply Z.leb_gt; lia | now left]. }
  replace ((m - 1) / 12) with 0 by (symmetry; apply Z.div_small; lia).
  replace ((m - 1) mod 12) with (m - 1) by (symmetry; apply Z.mod_small; lia).
  replace (y + 0) with y by lia. replace (m - 1 + 1) with m by lia.
  assert (Hlin : days_from_civil y m 1 + d - 1 = days_from_civil y m d).
  { unfold days_from_civil. lia. }
  rewrite Hlin, Hrt. reflexivity.
Qed.

(** A local time at or after 1970 is not in the years 0 to 99. *)
Lemma getFullYear_since_1970 (z : Zone) (t : Z) :
  0 <= LocalTime z t -> ~ (0 <= getFullYear z t <= 99).
Proof.
  intros Ht. unfold getFullYear.
  pose proof (days_from_civil_from_days (Day (LocalTime z t))) as H.
  destruct (civil_from_days (Day (LocalTime z t))) as [[y m] d].
  destruct H as (_ & _ & _ & Hy).
  assert (Hday : 0 <= Day (LocalTime z t)).
  { unfold Day, msPerDay. apply Z.div_pos; lia. }
  specialize (Hy Hday). lia.
Qed.

End Calendar.

(** ** The filter/search engine *)

Lemma filter_sublist {A} (p : A -> bool) (l : list A) :
  sublist (List.filter p l) l.
Proof.
  induction l as [|a l IH]; simpl.
  - constructor.
  - destruct (p a); [apply sublist_skip | apply sublist_cons]; exact IH.
Qed.

Lemma filter_filter {A} (p q : A -> bool) (l : list A) :
  List.filter q (List.filter p l) = List.filter (fun a => p a && q a) l.
Proof.
  induction l as [|a l IH]; simpl; [reflexivity|].
  destruct (p a); simpl; [destruct (q a)|]; now rewrite IH.
Qed.

Lemma filter_true {A} (p : A -> bool) (l : list A) :
  (forall a, In a l -> p a = true) -> List.filter p l = l.
Proof.
  induction l as [|a l IH]; intros H; simpl; [reflexivity|].
  rewrite (H a (or_introl eq_refl)), IH; [reflexivity|].
  intros b Hb. apply H. now right.
Qed.

(** [filterScans] is one pass keeping the records that pass both tests. *)
Lemma filterScans_filter (clk : Clock) (scans : list Scan)
    (selectedFilter searchText : string) :
  filterScans clk scans selectedFilter searchText
  = List.filter
      (fun scan => time_test clk selectedFilter scan && search_test searchText scan)
      scans.
Proof.
  unfold filterScans, time_test, search_test.
  assert (Hall : cutoffDate clk "all" = None) by reflexivity.
  destruct (String.eqb selectedFilter "all") eqn:Eall; cbn [negb].
  - apply String.eqb_eq in Eall as ->. rewrite Hall.
    destruct (truthy searchText).
    + reflexivity.
    + symmetry. now apply filter_true.
  - destruct (cutoffDate clk selectedFilter) as [cutoff|];
      destruct (truthy searchText).
    + apply filter_filter.
    + apply filter_ext. intros scan. now rewrite andb_true_r.
    + reflexivity.
    + symmetry. now apply filter_true.
Qed.

Lemma time_test_spec clk selectedFilter scan :
  time_test clk selectedFilter scan = true <->
  SearchSpec.passes_time clk selectedFilter scan.
Proof.
  unfold time_test, SearchSpec.passes_time.
  destruct (cutoffDate clk selectedFilter); [apply Z.leb_le | tauto].
Qed.

(** The search is blind to the case of ASCII letters: [wifi] finds the
    seeded Wi-Fi record and nothing else among the seeds. *)
Example filterScans_all_wifi :
  map id (filterScans (mkClock 1700000000000 0)
            (defaultDemoScans 1700000000000) "all" "wifi") = ["5"].
Proof. vm_compute. reflexivity. Qed.

(** It is blind to the case of other letters too: a capital E with acute
    accent is found by the small one. *)
Example filterScans_all_accent :
  map id (filterScans (mkClock 1700000000000 0)
            [mkScan "a" "CAFÉ" 1700000000000 None None None None] "all" "é")
  = ["a"].
Proof. vm_compute. reflexivity. Qed.

(** The seeds cover the kinds url, text, contact and wifi. *)
Example defaultDemoScans_kinds :
  map (fun scan => qr_type (getQRType (qrData scan))) (defaultDemoScans 0)
  = ["url"; "text"; "url"; "contact"; "wifi"].
Proof. reflexivity. Qed.

(** C10.  With the time filter [all] and an empty search text
    [filterScans] returns the record list unchanged: same elements, same
    order. *)
Theorem filterScans_all_empty_identity (clk : Clock) (scans : list Scan) :
  filterScans clk scans "all" "" = scans.
Proof.
  unfold filterScans.
  (* the time branch is skipped for [all] *)
  change (String.eqb "all" "all") with true. cbn [negb].
  (* the empty search text is falsy *)
  cbn [truthy]. reflexivity.
Qed.

(** C4 (amended).  For every record list, time filter and search text, a
    record survives [filterScans] exactly when it is in the input and passes
    the time predicate and the search predicate together.  An empty search
    text matches every record; a non-empty one matches when its lower-case
    form occurs as a substring in the lower-case form of [qrData].  For
    ASCII search text and [qrData] that is: when the search text occurs in
    [qrData] as a substring up to the case of the letters.  The result is
    the input filtered in one pass, so the survivors keep their multiplicity
    and relative order. *)
Theorem filterScans_time_and_search (clk : Clock) (scans : list Scan)
    (selectedFilter searchText : string) :
  (forall scan,
     In scan (filterScans clk scans selectedFilter searchText) <->
     In scan scans /\
     SearchSpec.passes_time clk selectedFilter scan /\
     match searchText with
     | EmptyString => True
     | String _ _ =>
       ClassifySpec.is_substring (toLowerCase searchText)
                                 (toLowerCase (qrData scan))
     end) /\
  (forall scan,
     is_ascii searchText = true -> is_ascii (qrData scan) = true ->
     ClassifySpec.is_substring (toLowerCase searchText)
                               (toLowerCase (qrData scan)) <->
     SearchSpec.occurs_up_to_case searchText (qrData scan)) /\
  sublist (filterScans clk scans selectedFilter searchText) scans /\
  filterScans clk scans selectedFilter searchText
  = List.filter
      (fun scan => time_test clk selectedFilter scan && search_test searchText scan)
      scans.
Proof.
  rewrite filterScans_filter. split; [|split; [|split]].
  - intros scan. rewrite filter_In, andb_true_iff, time_test_spec,
      search_test_substring. reflexivity.
  - intros scan. apply search_ascii.
  - apply filter_sublist.
  - reflexivity.
Qed.

(** C4 (as stated, refuted).  The small sigma occurs in the payload of two
    Greek capitals, alpha and sigma, up to case: it is the capital sigma in
    small.  The search does not find it: the capital sigma at the end of
    the payload becomes a final small sigma, another character. *)
Lemma filterScans_search_misses_capital_sigma :
  let record := mkScan "a" "ΑΣ" 1700000000000 None None None None in
  SearchSpec.matches_search "σ" record /\
  filterScans (mkClock 1700000000000 0) [record] "all" "σ" = [] /\
  toLowerCase "ΑΣ" = "ας" /\
  toLowerCase "Σ" = "σ" /\
  toLowerCase "σ" = "σ".
Proof.
  intros record. split; [|repeat split; vm_compute; reflexivity].
  exists "Α", "Σ", "". split; vm_compute; reflexivity.
Qed.

(** ** The [today] and [week] windows *)

(** 1700000000000 is 14 November 2023, 22:13:20 UTC; two hours east of
    Greenwich it is already the 15th. *)
Example calendar_sample :
  (getFullYear 0 1700000000000, getMonth 0 1700000000000, getDate 0 1700000000000)
  = (2023, 10, 14) /\
  getDate 7200000 1700000000000 = 15 /\
  Date_ymd 0 2023 10 14 = 1699920000000.
Proof. repeat split; reflexivity. Qed.

(** Two instants have the same local date exactly when they fall in the
    same local day. *)
Lemma same_local_day_iff (z : Zone) (t now : Z) :
  same_local_day z t now <->
  Day (LocalTime z t) = Day (LocalTime z now).
Proof.
  unfold same_local_day, getFullYear, getMonth, getDate.
  split.
  - pose proof (days_from_civil_from_days (Day (LocalTime z t))) as H1.
    pose proof (days_from_civil_from_days (Day (LocalTime z now))) as H2.
    destruct (civil_from_days (Day (LocalTime z t))) as [[y1 m1] d1].
    destruct (civil_from_days (Day (LocalTime z now))) as [[y2 m2] d2].
    destruct H1 as (H1 & _). destruct H2 as (H2 & _).
    intros (Hy & Hm & Hd).
    assert (m1 = m2) by lia. subst. congruence.
  - intros ->. auto.
Qed.

(** Where the offset never changes, local midnight of the day of [t] is
    [t] less the time of day. *)
Lemma local_midnight_fixed (offset t : Z) :
  local_midnight offset t = t - (t + offset) mod msPerDay.
Proof.
  unfold local_midnight, UTC, LocalTime, Day, fixed_zone, LocalTZA, msPerDay.
  Z.div_mod_to_equations. lia.
Qed.

(** Where the offset never changes: at or after local midnight of today
    means today or a later day. *)
Lemma local_midnight_le (offset t now : Z) :
  local_midnight offset now <= t <->
  Day (LocalTime offset now) <= Day (LocalTime offset t).
Proof.
  rewrite local_midnight_fixed.
  unfold Day, LocalTime, fixed_zone, LocalTZA, msPerDay.
  Z.div_mod_to_equations. lia.
Qed.

Lemma cutoffDate_today_year (clk : Clock) :
  ~ (0 <= getFullYear (zone clk) (now clk) <= 99) ->
  cutoffDate clk "today" = Some (local_midnight (zone clk) (now clk)).
Proof.
  intros H. unfold cutoffDate.
  change (String.eqb "today" "today") with true. cbv iota.
  rewrite Date_ymd_today by exact H. reflexivity.
Qed.

Lemma cutoffDate_today (clk : Clock) :
  0 <= now clk + tza clk ->
  cutoffDate clk "today" = Some (local_midnight (zone clk) (now clk)).
Proof.
  intros H. apply cutoffDate_today_year, getFullYear_since_1970. exact H.
Qed.

(** C3 (amended).  In every zone, and unless the local year of the device
    clock is one of the years 0 to 99, [filterScans] with the filter [today]
    and an empty search text returns, for every record list, exactly the
    records whose timestamp is at or after local midnight of the current
    day, the instant [new Date(year, month, date)] denotes in the zone.
    That lower bound is the only test: a record of the list at or after it
    is returned whatever its date.  Where the offset of the zone never
    changes, these are the records of the current local calendar day
    together with those dated on a later day. *)
Theorem filterScans_today (clk : Clock) (scans : list Scan) :
  ~ (0 <= getFullYear (zone clk) (now clk) <= 99) ->
  filterScans clk scans "today" ""
  = List.filter
      (fun scan => local_midnight (zone clk) (now clk) <=? timestamp scan) scans
  /\
  (forall scan,
     In scan scans ->
     local_midnight (zone clk) (now clk) <= timestamp scan ->
     In scan (filterScans clk scans "today" ""))
  /\
  (forall offset : Z,
     zone clk = fixed_zone offset ->
     forall scan,
       In scan (filterScans clk scans "today" "") <->
       In scan scans /\
       (same_local_day offset (timestamp scan) (now clk) \/
        Day (LocalTime offset (now clk))
        < Day (LocalTime offset (timestamp scan)))).
Proof.
  intros H.
  assert (E : filterScans clk scans "today" ""
              = List.filter
                  (fun scan => local_midnight (zone clk) (now clk) <=? timestamp scan)
                  scans).
  { rewrite filterScans_filter. unfold time_test, search_test.
    rewrite (cutoffDate_today_year clk H). cbn [truthy].
    apply filter_ext. intros scan. apply andb_true_r. }
  split; [exact E|]. split.
  - intros scan Hin Hle. rewrite E. apply filter_In.
    split; [exact Hin | now apply Z.leb_le].
  - intros offset Hz scan. rewrite E, Hz, filter_In, Z.leb_le,
      local_midnight_le, same_local_day_iff.
    split; intros [Hin Hd]; (split; [exact Hin | lia]).
Qed.

(** At 03:43 on 15 November 2023 in a zone five and a half hours east, a
    record of a second earlier is kept and one of the day before is not.
    In New York at 23:30 on 5 November 2023, the day the clocks went back,
    the cut-off is 04:00 UTC of that day, midnight in daylight time: a
    record of ten minutes later is kept, one of ten minutes earlier is
    not. *)
Lemma filterScans_today_witness :
  ~ (0 <= getFullYear 19800000 1700000000000 <= 99) /\
  filterScans (mkClock 1700000000000 19800000)
    [mkScan "a" "hello" 1699999999000 None None None None;
     mkScan "b" "old" 1699900000000 None None None None] "today" ""
  = [mkScan "a" "hello" 1699999999000 None None None None] /\
  local_midnight new_york_autumn_2023 1699245000000 = 1699156800000 /\
  filterScans (mkClock 1699245000000 new_york_autumn_2023)
    [mkScan "c" "hello" 1699157400000 None None None None;
     mkScan "d" "old" 1699156200000 None None None None] "today" ""
  = [mkScan "c" "hello" 1699157400000 None None None None].
Proof.
  assert (H : ~ (0 <= getFullYear 19800000 1700000000000 <= 99)).
  { replace (getFullYear 19800000 1700000000000) with 2023
      by (vm_compute; reflexivity).
    lia. }
  assert (H' : ~ (0 <= getFullYear new_york_autumn_2023 1699245000000 <= 99)).
  { replace (getFullYear new_york_autumn_2023 1699245000000) with 2023
      by (vm_compute; reflexivity).
    lia. }
  split; [exact H|].
  destruct (filterScans_today (mkClock 1700000000000 19800000)
              [mkScan "a" "hello" 1699999999000 None None None None;
               mkScan "b" "old" 1699900000000 None None None None] H)
    as [E _].
  destruct (filterScans_today (mkClock 1699245000000 new_york_autumn_2023)
              [mkScan "c" "hello" 1699157400000 None None None None;
               mkScan "d" "old" 1699156200000 None None None None] H')
    as [E' _].
  rewrite E, E'. repeat split; vm_compute; reflexivity.
Defined.

(** C3 (as stated, refuted).  On 14 November 2023 (UTC) a record dated
    15 November passes the [today] filter although it does not fall on the
    current calendar day.  And with a device clock at noon of 15 June of
    the year 50, a record of that very instant is dropped: the cut-off is
    midnight of 15 June 1950. *)
Lemma filterScans_today_keeps_tomorrow :
  filterScans (mkClock 1700000000000 0)
    [mkScan "a" "hello" 1700086400000 None None None None] "today" ""
  = [mkScan "a" "hello" 1700086400000 None None None None] /\
  getDate 0 1700000000000 = 14 /\
  getDate 0 1700086400000 = 15 /\
  filterScans (mkClock (-60574996800000) 0)
    [mkScan "b" "hello" (-60574996800000) None None None None] "today" ""
  = [] /\
  (getFullYear 0 (-60574996800000), getMonth 0 (-60574996800000),
   getDate 0 (-60574996800000)) = (50, 5, 15) /\
  cutoffDate (mkClock (-60574996800000) 0) "today" = Some (-616896000000).
Proof. repeat split; vm_compute; reflexivity. Qed.

(** C2 (amended).  Up to two days after seeding, the [week] filter with an
    empty search text keeps all five seeded demo records, in their
    newest-first order: none of them is older than seven days. *)
Theorem filterScans_week_keeps_seeds (seeded : Z) (clk : Clock) :
  now clk <= seeded + 172800000 ->
  filterScans clk (defaultDemoScans seeded) "week" "" = defaultDemoScans seeded.
Proof.
  intros H. rewrite filterScans_filter. apply filter_true.
  intros scan Hin. unfold time_test, search_test. cbn.
  rewrite andb_true_r. apply Z.leb_le.
  cbn in Hin.
  repeat (destruct Hin as [<- | Hin]; [cbn; lia|]).
  contradiction.
Qed.

(** Filtering a day after seeding. *)
Lemma filterScans_week_keeps_seeds_witness :
  1700086400000 <= 1700000000000 + 172800000 /\
  filterScans (mkClock 1700086400000 0) (defaultDemoScans 1700000000000) "week" ""
  = defaultDemoScans 1700000000000.
Proof.
  assert (H : 1700086400000 <= 1700000000000 + 172800000) by lia.
  split; [exact H|].
  apply (filterScans_week_keeps_seeds 1700000000000 (mkClock 1700086400000 0) H).
Defined.

(** C2 (as stated, refuted).  Filtering the freshly seeded records by
    [week] at the time of seeding returns five records, not three. *)
Lemma filterScans_week_fresh_seeds_five :
  length (filterScans (mkClock 1700000000000 0)
            (defaultDemoScans 1700000000000) "week" "") = 5%nat.
Proof. vm_compute. reflexivity. Qed.

(** ** Running the repository *)

Ltac unfold_async :=
  unfold run, completion, fetchScanHistory, getDemoScans, deleteScan,
    clearAllScans, clearAll_onPress, try_finally, try_catch,
    AsyncStorage_getItem, AsyncStorage_setItem, AsyncStorage_removeItem,
    getDocs, deleteDoc, guarded, setScans, setLoading, console_error,
    Alert_alert, set_storage, set_firestore, Date_now, JSON_parse,
    JSON_stringify, bind, ret, throw, ask, get, put.

Ltac reduce_async :=
  cbn -[defaultDemoScans orderBy_timestamp_desc insert delete lookup].

(** Use what is known about the environment and the stores. *)
Ltac use_hyps :=
  repeat match goal with
  | H : fails ?e ?op = _ |- context [fails ?e ?op] => rewrite H
  | H : storage ?st !! ?k = _ |- context [storage ?st !! ?k] => rewrite H
  | H : is_demo ?u = _ |- context [is_demo ?u] => rewrite H
  | H : is_remote ?u = _ |- context [is_remote ?u] => rewrite H
  | H : stored_truthy ?v = _ |- context [stored_truthy ?v] => rewrite H
  end.

(** Run a handler as far as the hypotheses decide its branches. *)
Ltac exec :=
  unfold_async;
  repeat (reduce_async; progress use_hyps);
  reduce_async.

(** Run a handler, splitting on every store call and stored text left
    undecided. *)
Ltac exec_cases :=
  exec;
  repeat (match goal with
          | |- context [fails ?e ?op] => destruct (fails e op) eqn:?
          | |- context [storage ?st !! ?k] =>
              destruct (storage st !! k) as [[?|[|? ?]]|] eqn:?
          end; reduce_async).

Lemma revive_id (scan : Scan) : revive scan = scan.
Proof. destruct scan; reflexivity. Qed.

Lemma map_revive (l : list Scan) : map revive l = l.
Proof. induction l as [|a l IH]; simpl; [|rewrite revive_id, IH]; reflexivity. Qed.

Lemma is_remote_demo (u : option User) : is_remote u = negb (is_demo u).
Proof. destruct u; reflexivity. Qed.

(** A demo load with no usable snapshot and a working store seeds. *)
Lemma fetch_demo_seeds (env : Env) (st : State) :
  is_demo (user env) = true ->
  fails env (GetItem "demoScans") = false ->
  stored_truthy (storage st !! "demoScans") = false ->
  fails env (SetItem "demoScans") = false ->
  fetchScanHistory env st
  = (Normal tt,
     {| scans := defaultDemoScans (now (clock env));
        loading := false;
        storage := <["demoScans" := JSONArray (defaultDemoScans (now (clock env)))]>
                     (storage st);
        firestore := firestore st;
        console := console st;
        alerts := alerts st |}).
Proof. intros Hd Hg Hs Hset. exec. reflexivity. Qed.

(** A demo load with a readable snapshot returns the snapshot. *)
Lemma fetch_demo_saved (env : Env) (st : State) (saved : list Scan) :
  is_demo (user env) = true ->
  fails env (GetItem "demoScans") = false ->
  storage st !! "demoScans" = Some (JSONArray saved) ->
  fetchScanHistory env st
  = (Normal tt,
     {| scans := saved; loading := false; storage := storage st;
        firestore := firestore st; console := console st;
        alerts := alerts st |}).
Proof. intros Hd Hg Hs. exec. rewrite map_revive. reflexivity. Qed.

(** [fetchScanHistory] completes normally whatever the stores do, and
    leaves [loading] false. *)
Lemma fetchScanHistory_never_throws (env : Env) (st : State) :
  completion fetchScanHistory env st = Normal tt /\
  loading (run fetchScanHistory env st) = false.
Proof.
  destruct (is_demo (user env)) eqn:Hd; exec_cases; split; reflexivity.
Qed.

(** C1.  For a demo or absent user whose cache holds no demo snapshot (and
    a store that accepts the read and the write), loading returns exactly
    the five seed records, dated 1 to 5 days before the clock reading of
    the load and hence strictly decreasing, and stores them under the key
    [demoScans]; a following load by a demo or absent user, at any clock
    reading, returns the same five records. *)
Theorem demo_load_seeds_once (env env2 : Env) (st : State) :
  is_demo (user env) = true ->
  storage st !! "demoScans" = None ->
  fails env (GetItem "demoScans") = false ->
  fails env (SetItem "demoScans") = false ->
  is_demo (user env2) = true ->
  fails env2 (GetItem "demoScans") = false ->
  let st1 := run fetchScanHistory env st in
  let st2 := run fetchScanHistory env2 st1 in
  completion fetchScanHistory env st = Normal tt /\
  scans st1 = defaultDemoScans (now (clock env)) /\
  length (scans st1) = 5%nat /\
  map (fun scan => now (clock env) - timestamp scan) (scans st1)
  = [1 * msPerDay; 2 * msPerDay; 3 * msPerDay; 4 * msPerDay; 5 * msPerDay] /\
  strictly_decreasing (scans st1) /\
  storage st1 !! "demoScans" = Some (JSON_stringify (scans st1)) /\
  completion fetchScanHistory env2 st1 = Normal tt /\
  scans st2 = scans st1.
Proof.
  intros Hd Hs Hg Hset Hd2 Hg2 st1 st2.
  assert (Hs' : stored_truthy (storage st !! "demoScans") = false)
    by (rewrite Hs; reflexivity).
  pose proof (fetch_demo_seeds env st Hd Hg Hs' Hset) as E1.
  assert (Est1 : st1 = snd (fetchScanHistory env st)) by reflexivity.
  rewrite E1 in Est1. cbn [snd] in Est1.
  assert (Hs1 : storage st1 !! "demoScans"
                = Some (JSONArray (defaultDemoScans (now (clock env))))).
  { rewrite Est1. cbn [storage]. apply lookup_insert_eq. }
  pose proof (fetch_demo_saved env2 st1 _ Hd2 Hg2 Hs1) as E2.
  assert (Est2 : st2 = snd (fetchScanHistory env2 st1)) by reflexivity.
  rewrite E2 in Est2. cbn [snd] in Est2.
  unfold completion. rewrite E1, E2, Est2. cbn [fst scans]. rewrite Hs1.
  rewrite Est1. cbn [scans].
  repeat split; cbn; try lia.
  unfold msPerDay. repeat f_equal; lia.
Qed.

Lemma demo_load_seeds_once_witness :
  let env := mkEnv None (mkClock 1700000000000 0) no_faults in
  let env2 := mkEnv (Some (mkUser "demo-user" "demo@example.com"))
                (mkClock 1700000600000 0) no_faults in
  scans (run fetchScanHistory env2 (run fetchScanHistory env (mount ∅ [])))
  = defaultDemoScans 1700000000000.
Proof.
  intros env env2.
  destruct (demo_load_seeds_once env env2 (mount ∅ [])
              eq_refl (lookup_empty _) eq_refl eq_refl eq_refl eq_refl)
    as (_ & E1 & _ & _ & _ & _ & _ & E2).
  rewrite E2. exact E1.
Defined.

(** C9.  For a demo or absent user, when the read of the demo snapshot is
    rejected, loading completes normally without any alert (the error is
    only logged), takes the five default seed records dated from the
    current clock reading, and writes them over the snapshot when the write
    is accepted; whatever the snapshot held before, all five seed ids are
    back in the list. *)
Theorem demo_load_reseeds_on_read_error (env : Env) (st : State) :
  is_demo (user env) = true ->
  fails env (GetItem "demoScans") = true ->
  let st' := run fetchScanHistory env st in
  completion fetchScanHistory env st = Normal tt /\
  scans st' = defaultDemoScans (now (clock env)) /\
  map id (scans st') = ["1"; "2"; "3"; "4"; "5"] /\
  alerts st' = alerts st /\
  console st' = (console st ++
                 "Error loading demo scans:" ::
                 (if fails env (SetItem "demoScans")
                  then ["Error saving demo scans:"] else []))%list /\
  (fails env (SetItem "demoScans") = false ->
   storage st' = <["demoScans" := JSON_stringify (defaultDemoScans (now (clock env)))]>
                   (storage st)).
Proof.
  intros Hd Hg st'. subst st'.
  destruct (fails env (SetItem "demoScans")) eqn:Hset; exec;
    rewrite <- ?app_assoc; repeat split; congruence.
Qed.

(** Seeding, deleting record 1, then loading while reads are rejected
    brings record 1 back. *)
Lemma demo_load_reseeds_on_read_error_witness :
  let clk := mkClock 1700000000000 0 in
  let seeded := run fetchScanHistory (mkEnv None clk no_faults) (mount ∅ []) in
  let first := mkScan "1" "https://expo.dev" 1699913600000
                 (Some (mkLatLng 40.7128 (-74.0060))) (Some "url") None None in
  let deleted := run (deleteScan first) (mkEnv None clk no_faults) seeded in
  let reloaded := run fetchScanHistory (mkEnv None clk reads_down) deleted in
  map id (scans deleted) = ["2"; "3"; "4"; "5"] /\
  storage deleted !! "demoScans" = Some (JSONArray (scans deleted)) /\
  map id (scans reloaded) = ["1"; "2"; "3"; "4"; "5"].
Proof.
  intros clk seeded first deleted reloaded.
  split; [reflexivity|]. split; [vm_compute; reflexivity|].
  destruct (demo_load_reseeds_on_read_error (mkEnv None clk reads_down) deleted
              eq_refl eq_refl)
    as (_ & _ & E & _).
  exact E.
Defined.

(** C5 (amended).  [deleteScan] has no [return] statement: on every path
    it resolves to [undefined] ([Normal tt]), so no value tells a failed
    delete from a successful one.  For a signed-in non-demo user it deletes
    the Firestore document with the record's id; otherwise it writes the
    in-memory list without the record over the demo snapshot (so that a
    following demo load does not bring the record back).  Either way it
    then removes the record from the in-memory list and reports success.
    When the store call is rejected the failure is surfaced by the alert
    "Failed to delete scan", and the in-memory list and both stores are left
    as they were. *)
Theorem deleteScan_outcomes (env : Env) (st : State) (scan : Scan) :
  let st' := run (deleteScan scan) env st in
  completion (deleteScan scan) env st = Normal tt /\
  (is_remote (user env) = true ->
   fails env (DeleteDoc (id scan)) = false ->
   firestore st'
   = List.filter (fun d => negb (String.eqb (doc_id d) (id scan))) (firestore st) /\
   storage st' = storage st /\
   scans st' = List.filter (other_than scan) (scans st) /\
   alerts st' = (alerts st ++ [("Success", "Scan deleted successfully")])%list) /\
  (is_remote (user env) = false ->
   fails env (SetItem "demoScans") = false ->
   storage st'
   = <["demoScans" := JSON_stringify (List.filter (other_than scan) (scans st))]>
       (storage st) /\
   firestore st' = firestore st /\
   scans st' = List.filter (other_than scan) (scans st) /\
   alerts st' = (alerts st ++ [("Success", "Scan deleted successfully")])%list /\
   forall env2,
     is_demo (user env2) = true ->
     fails env2 (GetItem "demoScans") = false ->
     scans (run fetchScanHistory env2 st') = List.filter (other_than scan) (scans st) /\
     ~ In (id scan) (map id (scans (run fetchScanHistory env2 st')))) /\
  (fails env (delete_op (user env) scan) = true ->
   scans st' = scans st /\
   storage st' = storage st /\
   firestore st' = firestore st /\
   alerts st' = (alerts st ++ [("Error", "Failed to delete scan")])%list).
Proof.
  intros st'. subst st'. split; [|split; [|split]].
  - destruct (is_remote (user env)) eqn:Hr; exec_cases; reflexivity.
  - intros Hr Hok. exec. repeat split; reflexivity.
  - intros Hr Hok.
    assert (E : run (deleteScan scan) env st
                = {| scans := List.filter (other_than scan) (scans st);
                     loading := loading st;
                     storage := <["demoScans" :=
                                    JSONArray (List.filter (other_than scan) (scans st))]>
                                  (storage st);
                     firestore := firestore st;
                     console := console st;
                     alerts := (alerts st ++ [("Success", "Scan deleted successfully")])%list |}).
    { exec. reflexivity. }
    rewrite E. cbn [scans storage firestore alerts JSON_stringify].
    repeat split.
    + unfold run. erewrite fetch_demo_saved; eauto.
      cbn [storage]. apply lookup_insert_eq.
    + unfold run. erewrite fetch_demo_saved; eauto;
        [|cbn [storage]; apply lookup_insert_eq].
      cbn [snd scans]. rewrite in_map_iff. intros (s & Hid & Hin).
      apply filter_In in Hin as [_ Hne]. unfold other_than in Hne.
      rewrite Hid, String.eqb_refl in Hne. discriminate.
  - unfold delete_op. intros Hfail.
    destruct (is_remote (user env)) eqn:Hr; exec; repeat split; reflexivity.
Qed.

(** The three cases of [deleteScan] on concrete stores: a signed-in user
    deleting a document, a demo user deleting a seeded record, and a
    signed-in user while Firestore is unreachable. *)
Lemma deleteScan_outcomes_witness :
  let clk := mkClock 1700000000000 0 in
  let alice := Some (mkUser "alice" "alice@example.com") in
  let docs := [mkDoc "d1" "alice" "alice@example.com" "tel:123" (Some 1699990000000) None;
               mkDoc "d2" "alice" "alice@example.com" "hello" (Some 1699980000000) None] in
  let loaded := run fetchScanHistory (mkEnv alice clk no_faults) (mount ∅ docs) in
  let d1 := scan_of_doc 0 (mkDoc "d1" "alice" "alice@example.com" "tel:123"
                             (Some 1699990000000) None) in
  let seeded := run fetchScanHistory (mkEnv None clk no_faults) (mount ∅ []) in
  let first := mkScan "1" "https://expo.dev" 1699913600000
                 (Some (mkLatLng 40.7128 (-74.0060))) (Some "url") None None in
  (map doc_id (firestore (run (deleteScan d1) (mkEnv alice clk no_faults) loaded)) = ["d2"] /\
   map id (scans (run (deleteScan d1) (mkEnv alice clk no_faults) loaded)) = ["d2"]) /\
  map id (scans (run (deleteScan first) (mkEnv None clk no_faults) seeded))
  = ["2"; "3"; "4"; "5"] /\
  (scans (run (deleteScan d1) (mkEnv alice clk remote_down) loaded) = scans loaded /\
   alerts (run (deleteScan d1) (mkEnv alice clk remote_down) loaded)
   = [("Error", "Failed to delete scan")]).
Proof.
  intros clk alice docs loaded d1 seeded first.
  destruct (deleteScan_outcomes (mkEnv alice clk no_faults) loaded d1)
    as (_ & Hremote & _ & _).
  destruct (Hremote eq_refl eq_refl) as (Hf & _ & Hs & _).
  destruct (deleteScan_outcomes (mkEnv None clk no_faults) seeded first)
    as (_ & _ & Hdemo & _).
  destruct (Hdemo eq_refl eq_refl) as (_ & _ & Hs2 & _).
  destruct (deleteScan_outcomes (mkEnv alice clk remote_down) loaded d1)
    as (_ & _ & _ & Hfail).
  destruct (Hfail eq_refl) as (Hs3 & _ & _ & Ha).
  refine (conj (conj _ _) (conj _ (conj Hs3 _))).
  - rewrite Hf. reflexivity.
  - rewrite Hs. reflexivity.
  - rewrite Hs2. reflexivity.
  - rewrite Ha. reflexivity.
Defined.

(** C5 (as stated, refuted).  A signed-in user deletes a loaded record
    while Firestore is unreachable.  The call resolves to [undefined], the
    very value of a delete that succeeds, not to [false]; the failure shows
    in the alert only, and the list is unchanged. *)
Lemma deleteScan_failure_returns_nothing :
  let clk := mkClock 1700000000000 0 in
  let alice := Some (mkUser "alice" "alice@example.com") in
  let docs := [mkDoc "d1" "alice" "alice@example.com" "tel:123" (Some 1699990000000) None] in
  let loaded := run fetchScanHistory (mkEnv alice clk no_faults) (mount ∅ docs) in
  let d1 := scan_of_doc 0 (mkDoc "d1" "alice" "alice@example.com" "tel:123"
                             (Some 1699990000000) None) in
  scans loaded = [d1] /\
  completion (deleteScan d1) (mkEnv alice clk remote_down) loaded = Normal tt /\
  completion (deleteScan d1) (mkEnv alice clk no_faults) loaded = Normal tt /\
  scans (run (deleteScan d1) (mkEnv alice clk remote_down) loaded) = [d1] /\
  map doc_id (firestore (run (deleteScan d1) (mkEnv alice clk remote_down) loaded))
  = ["d1"] /\
  alerts (run (deleteScan d1) (mkEnv alice clk remote_down) loaded)
  = [("Error", "Failed to delete scan")] /\
  alerts (run (deleteScan d1) (mkEnv alice clk no_faults) loaded)
  = [("Success", "Scan deleted successfully")].
Proof. vm_compute. repeat split; reflexivity. Qed.

(** C8.  [clearAllScans] never touches Firestore, whoever is signed in and
    whichever button is pressed: no document is deleted.  When the user
    confirms and the removal is accepted, the demo snapshot is removed from
    AsyncStorage, the in-memory list is emptied and success is reported,
    for demo and signed-in users alike. *)
Theorem clearAllScans_local_only (env : Env) (st : State) (pressed : Button) :
  let st' := run (clearAllScans pressed) env st in
  completion (clearAllScans pressed) env st = Normal tt /\
  firestore st' = firestore st /\
  (pressed = ClearAll ->
   fails env (RemoveItem "demoScans") = false ->
   storage st' = delete "demoScans" (storage st) /\
   storage st' !! "demoScans" = None /\
   scans st' = [] /\
   last (alerts st') = Some ("Success", "All scans cleared")).
Proof.
  intros st'. subst st'. split; [|split].
  - destruct pressed, (is_remote (user env)) eqn:Hr; exec_cases; reflexivity.
  - destruct pressed, (is_remote (user env)) eqn:Hr; exec_cases; reflexivity.
  - intros -> Hok.
    destruct (is_remote (user env)) eqn:Hr; exec; rewrite last_snoc;
      repeat split; try reflexivity; apply lookup_delete_eq.
Qed.

(** A signed-in user with two documents and a stale demo snapshot clears
    all: the list and the snapshot are gone, both documents remain. *)
Lemma clearAllScans_local_only_witness :
  let clk := mkClock 1700000000000 0 in
  let alice := Some (mkUser "alice" "alice@example.com") in
  let docs := [mkDoc "d1" "alice" "alice@example.com" "tel:123" (Some 1699990000000) None;
               mkDoc "d2" "alice" "alice@example.com" "hello" (Some 1699980000000) None] in
  let loaded := run fetchScanHistory (mkEnv alice clk no_faults)
                  (mount (<["demoScans" := JSONArray []]> ∅) docs) in
  let cleared := run (clearAllScans ClearAll) (mkEnv alice clk no_faults) loaded in
  length (scans loaded) = 2%nat /\
  firestore cleared = docs /\
  storage cleared !! "demoScans" = None /\
  scans cleared = [].
Proof.
  intros clk alice docs loaded cleared.
  destruct (clearAllScans_local_only (mkEnv alice clk no_faults) loaded ClearAll)
    as (_ & Hf & H).
  destruct (H eq_refl eq_refl) as (_ & Hs & Hl & _).
  exact (conj eq_refl (conj Hf (conj Hs Hl))).
Defined.

(** C6 (amended).  [fetchScanHistory] never throws.  When the Firestore
    query is rejected for a signed-in non-demo user, it reads the backup
    snapshot under [scanHistory] and leaves both stores as they were: a
    readable backup becomes the in-memory list, with no alert; when there is
    no backup (or an empty text) the in-memory list is left as it was, which
    is empty on a first load, and no alert is raised; when the backup cannot
    be read (the read is rejected or the text does not parse) the in-memory
    list is left as it was and the alert "Failed to load scan history" is
    raised. *)
Theorem fetchScanHistory_remote_failure (env : Env) (st : State) :
  let st' := run fetchScanHistory env st in
  completion fetchScanHistory env st = Normal tt /\
  (is_demo (user env) = false ->
   fails env GetDocs = true ->
   storage st' = storage st /\
   firestore st' = firestore st /\
   (forall backup,
      fails env (GetItem "scanHistory") = false ->
      storage st !! "scanHistory" = Some (JSONArray backup) ->
      scans st' = backup /\ alerts st' = alerts st) /\
   (fails env (GetItem "scanHistory") = false ->
    stored_truthy (storage st !! "scanHistory") = false ->
    scans st' = scans st /\ alerts st' = alerts st) /\
   (fails env (GetItem "scanHistory") = true \/
    (exists c s, storage st !! "scanHistory" = Some (Text (String c s))) ->
    scans st' = scans st /\
    alerts st' = (alerts st ++ [("Error", "Failed to load scan history")])%list)).
Proof.
  intros st'. subst st'.
  split; [apply fetchScanHistory_never_throws|].
  intros Hd Hq. split; [|split; [|split; [|split]]].
  - exec_cases; reflexivity.
  - exec_cases; reflexivity.
  - intros backup Hg Hs. exec. rewrite map_revive. split; reflexivity.
  - intros Hg Hs. exec. split; reflexivity.
  - intros [Hg | (c & s & Hs)].
    + exec. split; reflexivity.
    + destruct (fails env (GetItem "scanHistory")) eqn:Hg; exec;
        split; reflexivity.
Qed.

(** With Firestore unreachable: a backup of one record is shown; a first
    load without backup shows nothing and raises no alert; a load with
    every store call rejected raises the alert. *)
Lemma fetchScanHistory_remote_failure_witness :
  let clk := mkClock 1700000000000 0 in
  let alice := Some (mkUser "alice" "alice@example.com") in
  let kept := mkScan "d1" "tel:123" 1699990000000 None None
                (Some "alice") (Some "alice@example.com") in
  let offline := mkEnv alice clk remote_down in
  scans (run fetchScanHistory offline (mount (<["scanHistory" := JSONArray [kept]]> ∅) []))
  = [kept] /\
  (scans (run fetchScanHistory offline (mount ∅ [])) = [] /\
   alerts (run fetchScanHistory offline (mount ∅ [])) = []) /\
  alerts (run fetchScanHistory (mkEnv alice clk all_down) (mount ∅ []))
  = [("Error", "Failed to load scan history")].
Proof.
  intros clk alice kept offline.
  destruct (fetchScanHistory_remote_failure offline
              (mount (<["scanHistory" := JSONArray [kept]]> ∅) []))
    as (_ & H1).
  destruct (H1 eq_refl eq_refl) as (_ & _ & Hbackup & _).
  destruct (Hbackup [kept] eq_refl (lookup_insert_eq _ _ _)) as (E1 & _).
  destruct (fetchScanHistory_remote_failure offline (mount ∅ [])) as (_ & H2).
  destruct (H2 eq_refl eq_refl) as (_ & _ & _ & Hempty & _).
  destruct (Hempty eq_refl eq_refl) as (E2 & E3).
  destruct (fetchScanHistory_remote_failure (mkEnv alice clk all_down) (mount ∅ []))
    as (_ & H3).
  destruct (H3 eq_refl eq_refl) as (_ & _ & _ & _ & Hbad).
  destruct (Hbad (or_introl eq_refl)) as (_ & E4).
  exact (conj E1 (conj (conj E2 E3) E4)).
Defined.

(** C6 (as stated, refuted).  A signed-in user loads while Firestore is
    unreachable.  On a first load with no backup the list is empty but no
    alert is raised: the failure is only logged.  On a refresh after a
    successful load, with every store call rejected, the alert is raised but
    the list still holds the record loaded before: it is not emptied. *)
Lemma fetchScanHistory_remote_failure_not_as_stated :
  let clk := mkClock 1700000000000 0 in
  let alice := Some (mkUser "alice" "alice@example.com") in
  let docs := [mkDoc "d1" "alice" "alice@example.com" "tel:123" (Some 1699990000000) None] in
  let first_offline := run fetchScanHistory (mkEnv alice clk remote_down) (mount ∅ []) in
  let loaded := run fetchScanHistory (mkEnv alice clk no_faults) (mount ∅ docs) in
  let refreshed := run fetchScanHistory (mkEnv alice clk all_down) loaded in
  (scans first_offline = [] /\
   alerts first_offline = [] /\
   console first_offline = ["Error fetching scan history:"]) /\
  (map id (scans loaded) = ["d1"] /\
   map id (scans refreshed) = ["d1"] /\
   alerts refreshed = [("Error", "Failed to load scan history")]).
Proof. vm_compute. repeat split; reflexivity. Qed.

(* ===================================================================== *)
(** * Further properties of the repository *)
(* ===================================================================== *)

(** ** The Firestore query *)

Lemma later_or_equal_total (a b : option Z) :
  later_or_equal a b = true \/ later_or_equal b a = true.
Proof.
  destruct a as [x|], b as [y|]; cbn; auto.
  destruct (Z.leb_spec y x); [left; reflexivity | right; apply Z.leb_le; lia].
Qed.

Lemma later_or_equal_trans (a b c : option Z) :
  later_or_equal a b = true -> later_or_equal b c = true ->
  later_or_equal a c = true.
Proof.
  destruct a as [x|], b as [y|], c as [z|]; cbn; try congruence.
  rewrite !Z.leb_le. lia.
Qed.

Lemma insert_desc_perm (d : Doc) (l : list Doc) :
  Permutation (insert_desc d l) (d :: l).
Proof.
  induction l as [|d' l IH]; cbn; [reflexivity|].
  destruct (later_or_equal (doc_timestamp d) (doc_timestamp d')); [reflexivity|].
  rewrite IH. apply perm_swap.
Qed.

Lemma orderBy_perm (l : list Doc) : Permutation (orderBy_timestamp_desc l) l.
Proof.
  induction l as [|d l IH]; cbn; [reflexivity|].
  unfold orderBy_timestamp_desc in IH. now rewrite insert_desc_perm, IH.
Qed.

Lemma insert_desc_sorted (d : Doc) (l : list Doc) :
  StronglySorted listed_before l -> StronglySorted listed_before (insert_desc d l).
Proof.
  induction l as [|d' l IH]; intros Hs; cbn.
  - repeat constructor.
  - apply StronglySorted_inv in Hs as [Hs Hall].
    destruct (later_or_equal (doc_timestamp d) (doc_timestamp d')) eqn:E.
    + constructor; [constructor; assumption|].
      constructor; [exact E|].
      eapply Forall_impl; [exact Hall|].
      intros x Hx. unfold listed_before in *.
      eapply later_or_equal_trans; eassumption.
    + constructor; [apply IH; exact Hs|].
      rewrite (insert_desc_perm d l). constructor; [|exact Hall].
      unfold listed_before.
      destruct (later_or_equal_total (doc_timestamp d) (doc_timestamp d'));
        congruence.
Qed.

Lemma orderBy_sorted (l : list Doc) :
  StronglySorted listed_before (orderBy_timestamp_desc l).
Proof.
  induction l as [|d l IH]; cbn; [constructor|].
  apply insert_desc_sorted. exact IH.
Qed.

(** Dated documents listed latest first give scans listed latest first. *)
Lemma scans_of_sorted_docs (now : Z) (l : list Doc) :
  StronglySorted listed_before l ->
  Forall (fun d => doc_timestamp d <> None) l ->
  StronglySorted (fun a b => timestamp b <= timestamp a) (map (scan_of_doc now) l).
Proof.
  induction 1 as [|d l Hs IH Hall]; intros Hd; cbn; [constructor|].
  apply Forall_cons_1 in Hd as [Hd Hl].
  constructor; [apply IH; exact Hl|].
  apply Forall_map. rewrite Forall_forall in Hall, Hl |- *.
  intros x Hx. specialize (Hall x Hx). specialize (Hl x Hx).
  unfold listed_before in Hall. cbn.
  destruct (doc_timestamp d), (doc_timestamp x); cbn in Hall;
    try congruence. now apply Z.leb_le.
Qed.

(** ** Loading for a signed-in user *)

(** A load with Firestore and the backup write working. *)
Lemma fetch_remote_ok (env : Env) (st : State) :
  is_demo (user env) = false ->
  fails env GetDocs = false ->
  fails env (SetItem "scanHistory") = false ->
  fetchScanHistory env st
  = (Normal tt,
     {| scans := remote_list env (firestore st);
        loading := false;
        storage := <["scanHistory" := JSONArray (remote_list env (firestore st))]>
                     (storage st);
        firestore := firestore st;
        console := console st;
        alerts := alerts st |}).
Proof. intros Hd Hq Hw. unfold remote_list. exec. reflexivity. Qed.

(** A load with Firestore unreachable and a readable backup. *)
Lemma fetch_offline_backup (env : Env) (st : State) (backup : list Scan) :
  is_demo (user env) = false ->
  fails env GetDocs = true ->
  fails env (GetItem "scanHistory") = false ->
  storage st !! "scanHistory" = Some (JSONArray backup) ->
  fetchScanHistory env st
  = (Normal tt,
     {| scans := backup;
        loading := false;
        storage := storage st;
        firestore := firestore st;
        console := (console st ++ ["Error fetching scan history:"])%list;
        alerts := alerts st |}).
Proof. intros Hd Hq Hg Hs. exec. rewrite map_revive. reflexivity. Qed.

(** X1.  A load for a signed-in user with Firestore reachable lists
    exactly that user's documents, one scan per document and none of another
    user, latest first when each document is dated; the same list is
    written as the backup and Firestore is left untouched. *)
Theorem remote_load_own_documents (env : Env) (st : State) :
  is_demo (user env) = false ->
  fails env GetDocs = false ->
  fails env (SetItem "scanHistory") = false ->
  let st' := run fetchScanHistory env st in
  let mine := List.filter
                (fun d => String.eqb (doc_userId d) (user_uid (user env)))
                (firestore st) in
  Permutation (map id (scans st')) (map doc_id mine) /\
  length (scans st') = length mine /\
  (forall scan, In scan (scans st') -> userId scan = Some (user_uid (user env))) /\
  (Forall (fun d => doc_timestamp d <> None) mine ->
   StronglySorted (fun a b => timestamp b <= timestamp a) (scans st')) /\
  storage st' !! "scanHistory" = Some (JSON_stringify (scans st')) /\
  firestore st' = firestore st /\
  alerts st' = alerts st.
Proof.
  intros Hd Hq Hw st' mine. subst st'. unfold run.
  rewrite (fetch_remote_ok env st Hd Hq Hw).
  cbn [snd scans storage firestore alerts]. unfold remote_list. fold mine.
  pose proof (orderBy_perm mine) as Hp.
  repeat split.
  - rewrite map_map. cbn [scan_of_doc id]. now rewrite Hp.
  - now rewrite length_map, Hp.
  - intros scan Hin. apply in_map_iff in Hin as (d & <- & Hin). cbn.
    apply (Permutation_in _ Hp) in Hin.
    subst mine. apply filter_In in Hin as [_ E].
    apply String.eqb_eq in E. now rewrite E.
  - intros Hdated. apply scans_of_sorted_docs; [apply orderBy_sorted|].
    now rewrite Hp.
  - apply lookup_insert_eq.
Qed.

Lemma remote_load_own_documents_witness :
  let env := mkEnv (Some (mkUser "alice" "alice@example.com"))
               (mkClock 1700000000000 0) no_faults in
  let docs := [mkDoc "d1" "alice" "alice@example.com" "tel:123" (Some 1699980000000) None;
               mkDoc "d2" "bob" "bob@example.com" "secret" (Some 1699985000000) None;
               mkDoc "d3" "alice" "alice@example.com" "hello" (Some 1699990000000) None] in
  length (scans (run fetchScanHistory env (mount ∅ docs))) = 2%nat /\
  map id (scans (run fetchScanHistory env (mount ∅ docs))) = ["d3"; "d1"].
Proof.
  intros env docs.
  destruct (remote_load_own_documents env (mount ∅ docs) eq_refl eq_refl eq_refl)
    as (_ & Hlen & _).
  split; [exact Hlen | reflexivity].
Defined.

(** X2.  After a load that reached Firestore, a load with Firestore
    unreachable by any signed-in user, the same or another, shows the list
    of the earlier load: the backup is kept under one key for all users, so
    every record shown belongs to the user of the earlier load.  No alert
    is raised. *)
Theorem offline_load_shows_last_backup (env env2 : Env) (st : State) :
  is_demo (user env) = false ->
  fails env GetDocs = false ->
  fails env (SetItem "scanHistory") = false ->
  is_demo (user env2) = false ->
  fails env2 GetDocs = true ->
  fails env2 (GetItem "scanHistory") = false ->
  let st1 := run fetchScanHistory env st in
  let st2 := run fetchScanHistory env2 st1 in
  completion fetchScanHistory env2 st1 = Normal tt /\
  scans st2 = scans st1 /\
  (forall scan, In scan (scans st2) -> userId scan = Some (user_uid (user env))) /\
  alerts st2 = alerts st.
Proof.
  intros Hd Hq Hw Hd2 Hq2 Hg2 st1 st2. subst st2 st1. unfold run, completion.
  rewrite (fetch_remote_ok env st Hd Hq Hw). cbn [snd].
  erewrite fetch_offline_backup; eauto; [|cbn [storage]; apply lookup_insert_eq].
  cbn [fst snd scans alerts]. repeat split.
  intros scan Hin. unfold remote_list in Hin.
  apply in_map_iff in Hin as (d & <- & Hin). cbn.
  apply (Permutation_in _ (orderBy_perm _)) in Hin.
  apply filter_In in Hin as [_ E]. apply String.eqb_eq in E. now rewrite E.
Qed.

Lemma offline_load_shows_last_backup_witness :
  let clk := mkClock 1700000000000 0 in
  let alice := mkEnv (Some (mkUser "alice" "alice@example.com")) clk no_faults in
  let bob_offline := mkEnv (Some (mkUser "bob" "bob@example.com")) clk remote_down in
  let docs := [mkDoc "d1" "alice" "alice@example.com" "tel:123" (Some 1699980000000) None] in
  map userId (scans (run fetchScanHistory bob_offline
                       (run fetchScanHistory alice (mount ∅ docs))))
  = [Some "alice"].
Proof.
  intros clk alice bob_offline docs.
  destruct (offline_load_shows_last_backup alice bob_offline (mount ∅ docs)
              eq_refl eq_refl eq_refl eq_refl eq_refl eq_refl)
    as (_ & E & _).
  rewrite E. reflexivity.
Defined.

(** X3.  When the query succeeds but the backup write is rejected, the
    handler falls into its fallback although it already holds the fresh
    list: an older backup, if one is readable, replaces the fresh list;
    with no backup the fresh list stays and nothing is reported; when the
    backup read is rejected too the fresh list stays and the alert
    "Failed to load scan history" is raised. *)
Theorem remote_load_backup_write_rejected (env : Env) (st : State) :
  is_demo (user env) = false ->
  fails env GetDocs = false ->
  fails env (SetItem "scanHistory") = true ->
  let st' := run fetchScanHistory env st in
  completion fetchScanHistory env st = Normal tt /\
  storage st' = storage st /\
  (forall older,
     fails env (GetItem "scanHistory") = false ->
     storage st !! "scanHistory" = Some (JSONArray older) ->
     scans st' = older /\ alerts st' = alerts st) /\
  (fails env (GetItem "scanHistory") = false ->
   stored_truthy (storage st !! "scanHistory") = false ->
   scans st' = remote_list env (firestore st) /\ alerts st' = alerts st) /\
  (fails env (GetItem "scanHistory") = true ->
   scans st' = remote_list env (firestore st) /\
   alerts st' = (alerts st ++ [("Error", "Failed to load scan history")])%list).
Proof.
  intros Hd Hq Hw st'. subst st'. unfold remote_list.
  split; [|split; [|split; [|split]]].
  - exec_cases; reflexivity.
  - exec_cases; reflexivity.
  - intros older Hg Hs. exec. rewrite map_revive. split; reflexivity.
  - intros Hg Hs. exec. split; reflexivity.
  - intros Hg. exec. split; reflexivity.
Qed.

Lemma remote_load_backup_write_rejected_witness :
  let clk := mkClock 1700000000000 0 in
  let alice := Some (mkUser "alice" "alice@example.com") in
  let stale := mkScan "d0" "old" 1690000000000 None None (Some "alice")
                 (Some "alice@example.com") in
  let docs := [mkDoc "d1" "alice" "alice@example.com" "tel:123" (Some 1699980000000) None] in
  map id (scans (run fetchScanHistory (mkEnv alice clk writes_down)
                   (mount (<["scanHistory" := JSONArray [stale]]> ∅) docs)))
  = ["d0"] /\
  map id (scans (run fetchScanHistory (mkEnv alice clk writes_down) (mount ∅ docs)))
  = ["d1"].
Proof.
  intros clk alice stale docs.
  destruct (remote_load_backup_write_rejected (mkEnv alice clk writes_down)
              (mount (<["scanHistory" := JSONArray [stale]]> ∅) docs)
              eq_refl eq_refl eq_refl)
    as (_ & _ & Hold & _).
  destruct (Hold [stale] eq_refl (lookup_insert_eq _ _ _)) as (E1 & _).
  destruct (remote_load_backup_write_rejected (mkEnv alice clk writes_down)
              (mount ∅ docs) eq_refl eq_refl eq_refl)
    as (_ & _ & _ & Hnone & _).
  destruct (Hnone eq_refl eq_refl) as (E2 & _).
  split; [rewrite E1 | rewrite E2]; reflexivity.
Defined.

(** ** More on the filter/search engine *)

Lemma filter_sublist_impl {A} (p q : A -> bool) (l : list A) :
  (forall a, p a = true -> q a = true) ->
  sublist (List.filter p l) (List.filter q l).
Proof.
  intros H. induction l as [|a l IH]; cbn; [constructor|].
  destruct (p a) eqn:Ep.
  - rewrite (H a Ep). now apply sublist_skip.
  - destruct (q a); [apply sublist_cons|]; exact IH.
Qed.

Lemma string_append_assoc (a b c : string) :
  ((a ++ b) ++ c = a ++ (b ++ c))%string.
Proof.
  induction a as [|x a IH]; [reflexivity|].
  change (String x ((a ++ b) ++ c) = String x (a ++ (b ++ c)))%string.
  now rewrite IH.
Qed.

(** A record found for an ASCII search text is found for every part of
    it. *)
Lemma search_test_part (pre s post : string) (scan : Scan) :
  is_ascii pre = true -> is_ascii s = true -> is_ascii post = true ->
  search_test (pre ++ s ++ post) scan = true -> search_test s scan = true.
Proof.
  intros Hpre Hs Hpost. unfold search_test.
  destruct s as [|c s]; [reflexivity|].
  replace (truthy (pre ++ String c s ++ post)) with true
    by (destruct pre; reflexivity).
  cbn [truthy]. rewrite !includes_spec.
  rewrite (toLowerCase_on_ascii (pre ++ String c s ++ post))
    by (rewrite !is_ascii_app, Hpre, Hs, Hpost; reflexivity).
  rewrite (toLowerCase_on_ascii (String c s)) by exact Hs.
  intros (a & b & H). rewrite !toLowerCase_ascii_app in H.
  exists (a ++ toLowerCase_ascii pre)%string,
         (toLowerCase_ascii post ++ b)%string.
  rewrite H, !string_append_assoc. reflexivity.
Qed.

(** Where the offset never changes, local midnight is less than a day
    back. *)
Lemma local_midnight_recent (offset t : Z) :
  t - msPerDay < local_midnight offset t <= t.
Proof.
  rewrite local_midnight_fixed.
  pose proof (Z.mod_pos_bound (t + offset) msPerDay) as H.
  unfold msPerDay in *. lia.
Qed.

(** X4.  For a device clock at or after 1970, in a zone where local
    midnight of the current day is at most seven days back (it is less than
    one day back where the offset never changes, [local_midnight_recent]),
    the time windows are nested, whatever the search text: what [today]
    shows is among what [week] shows, that among what [month] shows, and
    that among what [all] shows, each in the same order. *)
Theorem filterScans_windows_nested (clk : Clock) (scans : list Scan)
    (searchText : string) :
  0 <= now clk + tza clk ->
  now clk - local_midnight (zone clk) (now clk) <= 7 * msPerDay ->
  sublist (filterScans clk scans "today" searchText)
          (filterScans clk scans "week" searchText) /\
  sublist (filterScans clk scans "week" searchText)
          (filterScans clk scans "month" searchText) /\
  sublist (filterScans clk scans "month" searchText)
          (filterScans clk scans "all" searchText).
Proof.
  intros H Hm. rewrite !filterScans_filter.
  pose proof (cutoffDate_today clk H) as Hc.
  unfold msPerDay in Hm.
  remember (local_midnight (zone clk) (now clk)) as midnight eqn:E. clear E.
  repeat split; apply filter_sublist_impl; intros scan;
    rewrite !andb_true_iff; intros [Ht Hs]; (split; [|exact Hs]);
    revert Ht; unfold time_test; rewrite ?Hc; cbn;
    rewrite ?Z.leb_le; try reflexivity; lia.
Qed.

Lemma filterScans_windows_nested_witness :
  let clk := mkClock 1700000000000 0 in
  map id (filterScans clk (defaultDemoScans 1700050000000) "today" "") = ["1"] /\
  sublist (filterScans clk (defaultDemoScans 1700050000000) "today" "")
          (filterScans clk (defaultDemoScans 1700050000000) "week" "").
Proof.
  intros clk.
  destruct (filterScans_windows_nested clk (defaultDemoScans 1700050000000) ""
              ltac:(cbn; lia) ltac:(vm_compute; discriminate)) as (H & _).
  split; [reflexivity | exact H].
Defined.

(** X5.  Lengthening an ASCII search text never adds a result: what is
    found for an ASCII text that contains [searchText] is among what is
    found for [searchText], in the same order, under every time filter and
    for every payload. *)
Theorem filterScans_longer_search_narrows (clk : Clock) (scans : list Scan)
    (selectedFilter pre searchText post : string) :
  is_ascii pre = true -> is_ascii searchText = true -> is_ascii post = true ->
  sublist (filterScans clk scans selectedFilter (pre ++ searchText ++ post))
          (filterScans clk scans selectedFilter searchText).
Proof.
  intros Hpre Hs Hpost.
  rewrite !filterScans_filter. apply filter_sublist_impl.
  intros scan. rewrite !andb_true_iff. intros [Ht Hsearch].
  split; [exact Ht | exact (search_test_part _ _ _ _ Hpre Hs Hpost Hsearch)].
Qed.

(** Among the seeds, what [WiFi:T] finds is among what [Fi] finds. *)
Lemma filterScans_longer_search_narrows_witness :
  sublist (filterScans (mkClock 1700000000000 0)
             (defaultDemoScans 1700000000000) "all" "WiFi:T")
          (filterScans (mkClock 1700000000000 0)
             (defaultDemoScans 1700000000000) "all" "Fi").
Proof.
  exact (filterScans_longer_search_narrows (mkClock 1700000000000 0)
           (defaultDemoScans 1700000000000) "all" "Wi" "Fi" ":T"
           eq_refl eq_refl eq_refl).
Defined.

(** Beyond ASCII a longer search text can find more: a capital sigma alone
    becomes a medial small sigma and is not found in a payload that ends in
    a final small sigma, while after a letter it becomes the final one. *)
Example filterScans_longer_search_sigma :
  let scans := [mkScan "a" "aς" 1700000000000 None None None None] in
  filterScans (mkClock 1700000000000 0) scans "all" "AΣ" = scans /\
  filterScans (mkClock 1700000000000 0) scans "all" "Σ" = [].
Proof. split; vm_compute; reflexivity. Qed.

(** X6.  A filter name other than [today], [week] and [month] takes the
    [default] branch of the switch and filters like [all]. *)
Theorem filterScans_unknown_filter (clk : Clock) (scans : list Scan)
    (selectedFilter searchText : string) :
  selectedFilter <> "today" ->
  selectedFilter <> "week" ->
  selectedFilter <> "month" ->
  filterScans clk scans selectedFilter searchText
  = filterScans clk scans "all" searchText.
Proof.
  intros H1 H2 H3. rewrite !filterScans_filter.
  apply filter_ext. intros scan. f_equal.
  unfold time_test, cutoffDate.
  apply String.eqb_neq in H1, H2, H3. rewrite H1, H2, H3. reflexivity.
Qed.

Lemma filterScans_unknown_filter_witness :
  filterScans (mkClock 1700000000000 0) (defaultDemoScans 1600000000000) "year" ""
  = defaultDemoScans 1600000000000.
Proof.
  rewrite (filterScans_unknown_filter _ _ "year" "");
    [reflexivity | discriminate | discriminate | discriminate].
Defined.

(** ** How loading, deleting and clearing compose *)

(** An accepted delete for a signed-in user. *)
Lemma delete_remote_ok (env : Env) (st : State) (scan : Scan) :
  is_demo (user env) = false ->
  fails env (DeleteDoc (id scan)) = false ->
  deleteScan scan env st
  = (Normal tt,
     {| scans := List.filter (other_than scan) (scans st);
        loading := loading st;
        storage := storage st;
        firestore := List.filter (fun d => negb (String.eqb (doc_id d) (id scan)))
                       (firestore st);
        console := console st;
        alerts := (alerts st ++ [("Success", "Scan deleted successfully")])%list |}).
Proof.
  intros Hd Hok.
  assert (Hr : is_remote (user env) = true) by (rewrite is_remote_demo, Hd; reflexivity).
  exec. reflexivity.
Qed.

(** An accepted delete for a demo or absent user. *)
Lemma delete_demo_ok (env : Env) (st : State) (scan : Scan) :
  is_demo (user env) = true ->
  fails env (SetItem "demoScans") = false ->
  deleteScan scan env st
  = (Normal tt,
     {| scans := List.filter (other_than scan) (scans st);
        loading := loading st;
        storage := <["demoScans" := JSONArray (List.filter (other_than scan) (scans st))]>
                     (storage st);
        firestore := firestore st;
        console := console st;
        alerts := (alerts st ++ [("Success", "Scan deleted successfully")])%list |}).
Proof.
  intros Hd Hok.
  assert (Hr : is_remote (user env) = false) by (rewrite is_remote_demo, Hd; reflexivity).
  exec. reflexivity.
Qed.

(** A confirmed and accepted clear. *)
Lemma clearAll_ok (env : Env) (st : State) :
  fails env (RemoveItem "demoScans") = false ->
  clearAllScans ClearAll env st
  = (Normal tt,
     {| scans := [];
        loading := loading st;
        storage := delete "demoScans" (storage st);
        firestore := firestore st;
        console := console st;
        alerts := ((alerts st ++
                    [("Clear All Scans",
                      "Are you sure you want to delete all scan history? This action cannot be undone.")]) ++
                   [("Success", "All scans cleared")])%list |}).
Proof.
  intros Hok. destruct (is_remote (user env)) eqn:Hr; exec; reflexivity.
Qed.

Lemma other_than_self (scan : Scan) : other_than scan scan = false.
Proof. unfold other_than. now rewrite String.eqb_refl. Qed.

Lemma filter_other_than_absent (scan : Scan) (l : list Scan) :
  ~ In (id scan) (map id l) -> List.filter (other_than scan) l = l.
Proof.
  intros H. apply filter_true. intros s Hs. unfold other_than.
  apply negb_true_iff, String.eqb_neq. intros E. apply H.
  rewrite <- E. now apply in_map.
Qed.

(** X7.  A signed-in user's delete does not touch the backup: after a
    load, the deletion of a listed record removes its document and takes it
    off the list, but the next load with Firestore unreachable shows the
    list as it was before the deletion, the deleted record included. *)
Theorem remote_delete_returns_offline (env env2 : Env) (st : State) (scan : Scan) :
  is_demo (user env) = false ->
  fails env GetDocs = false ->
  fails env (SetItem "scanHistory") = false ->
  fails env (DeleteDoc (id scan)) = false ->
  In scan (scans (run fetchScanHistory env st)) ->
  is_demo (user env2) = false ->
  fails env2 GetDocs = true ->
  fails env2 (GetItem "scanHistory") = false ->
  let st1 := run fetchScanHistory env st in
  let st2 := run (deleteScan scan) env st1 in
  let st3 := run fetchScanHistory env2 st2 in
  ~ In scan (scans st2) /\
  ~ In (id scan) (map doc_id (firestore st2)) /\
  scans st3 = scans st1 /\
  In scan (scans st3).
Proof.
  intros Hd Hq Hw Hdel Hin Hd2 Hq2 Hg2 st1 st2 st3.
  subst st3 st2 st1. revert Hin. unfold run.
  rewrite (fetch_remote_ok env st Hd Hq Hw). cbn [snd scans]. intros Hin.
  rewrite (delete_remote_ok env _ scan Hd Hdel). cbn [snd scans firestore].
  erewrite fetch_offline_backup; eauto;
    [|cbn [storage]; apply lookup_insert_eq].
  cbn [snd scans]. repeat split; [| |exact Hin].
  - intros H. apply filter_In in H as [_ H]. now rewrite other_than_self in H.
  - rewrite in_map_iff. intros (d & E & H). apply filter_In in H as [_ H].
    now rewrite E, String.eqb_refl in H.
Qed.

Lemma remote_delete_returns_offline_witness :
  let clk := mkClock 1700000000000 0 in
  let alice := Some (mkUser "alice" "alice@example.com") in
  let online := mkEnv alice clk no_faults in
  let offline := mkEnv alice clk remote_down in
  let d1 := mkDoc "d1" "alice" "alice@example.com" "tel:123" (Some 1699980000000) None in
  let loaded := run fetchScanHistory online (mount ∅ [d1]) in
  let deleted := run (deleteScan (scan_of_doc 0 d1)) online loaded in
  (map id (scans deleted) = [] /\ firestore deleted = []) /\
  map id (scans (run fetchScanHistory offline deleted)) = ["d1"].
Proof.
  intros clk alice online offline d1 loaded deleted.
  destruct (remote_delete_returns_offline online offline (mount ∅ [d1])
              (scan_of_doc 0 d1) eq_refl eq_refl eq_refl eq_refl
              (or_introl eq_refl) eq_refl eq_refl eq_refl)
    as (_ & _ & E & _).
  split; [split; reflexivity|].
  subst deleted loaded. rewrite E. reflexivity.
Defined.

(** X8.  For a signed-in user "Clear All" only empties what is shown:
    once confirmed and accepted, the list is empty, and the next load that
    reaches Firestore shows exactly what a load would have shown without
    the clearing. *)
Theorem remote_clearAll_undone_by_reload (env : Env) (st : State) :
  is_demo (user env) = false ->
  fails env (RemoveItem "demoScans") = false ->
  fails env GetDocs = false ->
  fails env (SetItem "scanHistory") = false ->
  let cleared := run (clearAllScans ClearAll) env st in
  scans cleared = [] /\
  scans (run fetchScanHistory env cleared) = scans (run fetchScanHistory env st) /\
  scans (run fetchScanHistory env cleared) = remote_list env (firestore st).
Proof.
  intros Hd Hrm Hq Hw cleared. subst cleared. unfold run.
  rewrite (clearAll_ok env st Hrm). cbn [snd scans].
  rewrite !(fetch_remote_ok env _ Hd Hq Hw). cbn [snd scans firestore].
  repeat split.
Qed.

Lemma remote_clearAll_undone_by_reload_witness :
  let env := mkEnv (Some (mkUser "alice" "alice@example.com"))
               (mkClock 1700000000000 0) no_faults in
  let docs := [mkDoc "d1" "alice" "alice@example.com" "tel:123" (Some 1699980000000) None;
               mkDoc "d3" "alice" "alice@example.com" "hello" (Some 1699990000000) None] in
  let loaded := run fetchScanHistory env (mount ∅ docs) in
  map id (scans (run fetchScanHistory env (run (clearAllScans ClearAll) env loaded)))
  = ["d3"; "d1"].
Proof.
  intros env docs loaded.
  destruct (remote_clearAll_undone_by_reload env loaded eq_refl eq_refl eq_refl eq_refl)
    as (_ & _ & E).
  rewrite E. reflexivity.
Defined.

(** X9.  For a demo or absent user "Clear All" removes the snapshot, so
    the next load seeds again: whatever was listed before, the five default
    records come back, dated from the clock of that load.  Deleting the only
    listed record instead leaves an empty snapshot, and the next load shows
    an empty list. *)
Theorem demo_clearAll_reseeds (env env2 : Env) (st : State) :
  is_demo (user env) = true ->
  is_demo (user env2) = true ->
  fails env2 (GetItem "demoScans") = false ->
  fails env2 (SetItem "demoScans") = false ->
  (fails env (RemoveItem "demoScans") = false ->
   scans (run fetchScanHistory env2 (run (clearAllScans ClearAll) env st))
   = defaultDemoScans (now (clock env2))) /\
  (forall scan,
     scans st = [scan] ->
     fails env (SetItem "demoScans") = false ->
     scans (run fetchScanHistory env2 (run (deleteScan scan) env st)) = []).
Proof.
  intros Hd Hd2 Hg2 Hw2. split.
  - intros Hrm. unfold run. rewrite (clearAll_ok env st Hrm). cbn [snd].
    rewrite fetch_demo_seeds; auto.
    cbn [storage]. now rewrite lookup_delete_eq.
  - intros scan Hscans Hw. unfold run.
    rewrite (delete_demo_ok env st scan Hd Hw). cbn [snd].
    rewrite (fetch_demo_saved env2 _ (List.filter (other_than scan) (scans st))
               Hd2 Hg2) by (cbn [storage]; apply lookup_insert_eq).
    cbn [snd scans]. rewrite Hscans. cbn. now rewrite other_than_self.
Qed.

Lemma demo_clearAll_reseeds_witness :
  let env := mkEnv None (mkClock 1700000000000 0) no_faults in
  let later := mkEnv None (mkClock 1700000900000 0) no_faults in
  let only := mkScan "3" "kept" 1699000000000 None (Some "text") None None in
  let st := mount (<["demoScans" := JSONArray [only]]> ∅) [] in
  let loaded := run fetchScanHistory env st in
  scans loaded = [only] /\
  scans (run fetchScanHistory later (run (clearAllScans ClearAll) env loaded))
  = defaultDemoScans 1700000900000 /\
  scans (run fetchScanHistory later (run (deleteScan only) env loaded)) = [].
Proof.
  intros env later only st loaded.
  destruct (demo_clearAll_reseeds env later loaded eq_refl eq_refl eq_refl eq_refl)
    as (H1 & H2).
  exact (conj eq_refl (conj (H1 eq_refl) (H2 only eq_refl eq_refl))).
Defined.

(** X10.  For a demo or absent user a snapshot that does not parse is
    treated like a missing one, except that the failure is logged: the five
    default records are listed and written over the damaged snapshot, and no
    alert is raised. *)
Theorem demo_load_replaces_damaged_snapshot (env : Env) (st : State)
    (c : ascii) (s : string) :
  is_demo (user env) = true ->
  fails env (GetItem "demoScans") = false ->
  storage st !! "demoScans" = Some (Text (String c s)) ->
  fails env (SetItem "demoScans") = false ->
  let st' := run fetchScanHistory env st in
  completion fetchScanHistory env st = Normal tt /\
  scans st' = defaultDemoScans (now (clock env)) /\
  storage st' !! "demoScans" = Some (JSON_stringify (defaultDemoScans (now (clock env)))) /\
  console st' = (console st ++ ["Error loading demo scans:"])%list /\
  alerts st' = alerts st.
Proof.
  intros Hd Hg Hs Hw st'. subst st'. exec.
  repeat split. apply lookup_insert_eq.
Qed.

Lemma demo_load_replaces_damaged_snapshot_witness :
  let env := mkEnv None (mkClock 1700000000000 0) no_faults in
  let st := mount (<["demoScans" := Text "[{"]> ∅) [] in
  scans (run fetchScanHistory env st) = defaultDemoScans 1700000000000 /\
  console (run fetchScanHistory env st) = ["Error loading demo scans:"].
Proof.
  intros env st.
  destruct (demo_load_replaces_damaged_snapshot env st "[" "{"
              eq_refl eq_refl (lookup_insert_eq _ _ _) eq_refl)
    as (_ & E1 & _ & E2 & _).
  exact (conj E1 E2).
Defined.

(** X11.  Deleting a record whose id is not on the list changes nothing
    on the list, and success is reported all the same once the store call
    is accepted. *)
Theorem deleteScan_absent_id (env : Env) (st : State) (scan : Scan) :
  ~ In (id scan) (map id (scans st)) ->
  fails env (delete_op (user env) scan) = false ->
  let st' := run (deleteScan scan) env st in
  scans st' = scans st /\
  alerts st' = (alerts st ++ [("Success", "Scan deleted successfully")])%list.
Proof.
  intros Habs Hok st'. subst st'. unfold run, delete_op in *.
  destruct (is_demo (user env)) eqn:Hd; rewrite is_remote_demo, Hd in Hok;
    cbn [negb] in Hok.
  - rewrite (delete_demo_ok env st scan Hd Hok). cbn [snd scans alerts].
    now rewrite filter_other_than_absent.
  - rewrite (delete_remote_ok env st scan Hd Hok). cbn [snd scans alerts].
    now rewrite filter_other_than_absent.
Qed.

Lemma deleteScan_absent_id_witness :
  let env := mkEnv None (mkClock 1700000000000 0) no_faults in
  let loaded := run fetchScanHistory env (mount ∅ []) in
  let ghost := mkScan "9" "gone" 0 None None None None in
  length (scans (run (deleteScan ghost) env loaded)) = 5%nat /\
  alerts (run (deleteScan ghost) env loaded) = [("Success", "Scan deleted successfully")].
Proof.
  intros env loaded ghost.
  destruct (deleteScan_absent_id env loaded ghost) as (E1 & E2).
  - cbn. intros H. repeat (destruct H as [H|H]; [discriminate|]). exact H.
  - reflexivity.
  - rewrite E1, E2. split; reflexivity.
Defined.

(** ** Date labels *)

(** [diffDays] is the elapsed time in days, rounded up. *)
Lemma diffDays_bounds (clk : Clock) (date : Z) :
  (diffDays clk date - 1) * msPerDay < Z.abs (now clk - date)
  <= diffDays clk date * msPerDay.
Proof.
  unfold diffDays, Math_ceil_div, msPerDay.
  change (1000 * 60 * 60 * 24) with 86400000.
  generalize (Z.abs (now clk - date)). intros e.
  Z.div_mod_to_equations. lia.
Qed.

(** The four branches of [formatDate], by the value of [diffDays]. *)
Lemma formatDate_by_diffDays (loc : Locale) (clk : Clock) (date : Z) :
  let n := diffDays clk date in
  (n = 1 ->
   formatDate loc clk date = ("Today at " ++ toLocaleTimeString loc date)%string) /\
  (n = 2 ->
   formatDate loc clk date = ("Yesterday at " ++ toLocaleTimeString loc date)%string) /\
  (n <= 7 -> n <> 1 -> n <> 2 ->
   formatDate loc clk date = (Number_toString (n - 1) ++ " days ago")%string) /\
  (7 < n -> formatDate loc clk date = Intl_format loc date).
Proof.
  intros n. unfold formatDate. fold n.
  destruct (Z.eqb_spec n 1); [repeat split; intros; (reflexivity || lia)|].
  destruct (Z.eqb_spec n 2); [repeat split; intros; (reflexivity || lia)|].
  destruct (Z.leb_spec n 7); repeat split; intros; (reflexivity || lia).
Qed.

(** X12.  [formatDate] labels a date by the time elapsed between it and
    now, in either direction: up to 24 hours "Today at", up to 48 hours
    "Yesterday at", up to 7 days "k days ago" with k from 2 to 6 the number
    of full days elapsed (one less when the elapsed time is a whole number
    of days), beyond that the full date; a date equal to now is labelled
    "-1 days ago". *)
Theorem formatDate_by_elapsed_time (loc : Locale) (clk : Clock) (date : Z) :
  let elapsed := Z.abs (now clk - date) in
  (elapsed = 0 -> formatDate loc clk date = "-1 days ago") /\
  (0 < elapsed <= msPerDay ->
   formatDate loc clk date = ("Today at " ++ toLocaleTimeString loc date)%string) /\
  (msPerDay < elapsed <= 2 * msPerDay ->
   formatDate loc clk date = ("Yesterday at " ++ toLocaleTimeString loc date)%string) /\
  (2 * msPerDay < elapsed <= 7 * msPerDay ->
   exists k, 2 <= k <= 6 /\
             k * msPerDay < elapsed <= (k + 1) * msPerDay /\
             formatDate loc clk date = (Number_toString k ++ " days ago")%string) /\
  (7 * msPerDay < elapsed -> formatDate loc clk date = Intl_format loc date).
Proof.
  intros elapsed. subst elapsed.
  pose proof (diffDays_bounds clk date) as Hb.
  unfold formatDate. unfold msPerDay in *.
  set (n := diffDays clk date) in *.
  repeat split; intros He.
  - replace n with 0 by lia. reflexivity.
  - replace n with 1 by lia. reflexivity.
  - replace n with 2 by lia. reflexivity.
  - exists (n - 1).
    destruct (Z.eqb_spec n 1); [lia|]. destruct (Z.eqb_spec n 2); [lia|].
    destruct (Z.leb_spec n 7); [|lia].
    repeat split; lia.
  - destruct (Z.eqb_spec n 1); [lia|]. destruct (Z.eqb_spec n 2); [lia|].
    destruct (Z.leb_spec n 7); [lia|]. reflexivity.
Qed.

Lemma formatDate_by_elapsed_time_witness :
  let loc := mkLocale (fun _ => "10:13 PM") (fun _ => "Nov 14, 2023, 10:13 PM")
               (fun _ => "0.0000") in
  let clk := mkClock 1700000000000 0 in
  formatDate loc clk 1700000000000 = "-1 days ago" /\
  formatDate loc clk 1699999999999 = "Today at 10:13 PM" /\
  formatDate loc clk 1700000000001 = "Today at 10:13 PM" /\
  formatDate loc clk 1699913600000 = "Today at 10:13 PM" /\
  formatDate loc clk 1699913599999 = "Yesterday at 10:13 PM" /\
  formatDate loc clk 1699395200000 = "6 days ago" /\
  formatDate loc clk 1699395199999 = "Nov 14, 2023, 10:13 PM".
Proof.
  intros loc clk.
  pose proof (formatDate_by_elapsed_time loc clk 1700000000000) as (H0 & _).
  pose proof (formatDate_by_elapsed_time loc clk 1699999999999) as (_ & H1 & _).
  pose proof (formatDate_by_elapsed_time loc clk 1700000000001) as (_ & H2 & _).
  pose proof (formatDate_by_elapsed_time loc clk 1699913600000) as (_ & H3 & _).
  pose proof (formatDate_by_elapsed_time loc clk 1699913599999) as (_ & _ & H4 & _).
  pose proof (formatDate_by_elapsed_time loc clk 1699395199999) as (_ & _ & _ & _ & H6).
  cbv zeta in *.
  refine (conj (H0 eq_refl) (conj (H1 _) (conj (H2 _) (conj (H3 _)
            (conj (H4 _) (conj eq_refl (H6 _)))))));
    subst clk; unfold msPerDay; cbn; lia.
Defined.

Lemma time_test_today (clk : Clock) (scan : Scan) :
  0 <= now clk + tza clk ->
  time_test clk "today" scan
  = (local_midnight (zone clk) (now clk) <=? timestamp scan).
Proof.
  intros H. unfold time_test. rewrite (cutoffDate_today clk H). reflexivity.
Qed.

(** X13.  The labels and the time windows agree for records that are not
    dated in the future.  For a device clock at or after 1970 and while at
    most 24 hours have passed since local midnight (always so where the
    offset never changes; not in the last hour of a 25-hour day), a record
    shown under [today] and dated before now is labelled "Today at".  In
    every zone, a record shown under [week] gets a relative label
    ("Today at", "Yesterday at" or "k days ago" with k from -1 to 6), and a
    record of the list that [week] does not show gets the full date. *)
Theorem labels_agree_with_windows (loc : Locale) (clk : Clock)
    (scans : list Scan) (searchText : string) (scan : Scan) :
  timestamp scan <= now clk ->
  (0 <= now clk + tza clk ->
   now clk - local_midnight (zone clk) (now clk) <= msPerDay ->
   In scan (filterScans clk scans "today" searchText) ->
   timestamp scan < now clk ->
   formatDate loc clk (timestamp scan)
   = ("Today at " ++ toLocaleTimeString loc (timestamp scan))%string) /\
  (In scan (filterScans clk scans "week" searchText) ->
   formatDate loc clk (timestamp scan)
   = ("Today at " ++ toLocaleTimeString loc (timestamp scan))%string \/
   formatDate loc clk (timestamp scan)
   = ("Yesterday at " ++ toLocaleTimeString loc (timestamp scan))%string \/
   exists k, -1 <= k <= 6 /\
             formatDate loc clk (timestamp scan)
             = (Number_toString k ++ " days ago")%string) /\
  (In scan scans ->
   ~ In scan (filterScans clk scans "week" "") ->
   formatDate loc clk (timestamp scan) = Intl_format loc (timestamp scan)).
Proof.
  intros Hpast.
  pose proof (diffDays_bounds clk (timestamp scan)) as Hb.
  pose proof (formatDate_by_diffDays loc clk (timestamp scan)) as Hf.
  cbv zeta in Hf. destruct Hf as (C1 & C2 & C3 & C4).
  assert (Habs : Z.abs (now clk - timestamp scan) = now clk - timestamp scan)
    by lia.
  rewrite Habs in Hb. unfold msPerDay in Hb.
  set (n := diffDays clk (timestamp scan)) in *.
  split; [|split].
  - intros Hclk Hm Hin Hlt. apply C1.
    rewrite filterScans_filter in Hin. apply filter_In in Hin as [_ Hin].
    apply andb_true_iff in Hin as [Ht _].
    rewrite (time_test_today clk scan Hclk) in Ht. apply Z.leb_le in Ht.
    unfold msPerDay in Hm. lia.
  - intros Hin.
    rewrite filterScans_filter in Hin. apply filter_In in Hin as [_ Hin].
    apply andb_true_iff in Hin as [Ht _]. unfold time_test in Ht.
    cbn in Ht. apply Z.leb_le in Ht.
    destruct (Z.eq_dec n 1) as [E1|E1]; [left; now apply C1|].
    destruct (Z.eq_dec n 2) as [E2|E2]; [right; left; now apply C2|].
    right; right. exists (n - 1). split; [lia|]. apply C3; lia.
  - intros Hin Hout. apply C4.
    rewrite filterScans_filter in Hout.
    destruct (Z_le_gt_dec (now clk - 7 * 24 * 60 * 60 * 1000) (timestamp scan))
      as [Hle|Hgt]; [|lia].
    exfalso. apply Hout. apply filter_In. split; [exact Hin|].
    unfold time_test, search_test. cbn. rewrite andb_true_r.
    now apply Z.leb_le.
Qed.

Lemma labels_agree_with_windows_witness :
  let loc := mkLocale (fun _ => "9:00 PM") (fun _ => "Nov 1, 2023, 9:00 PM")
               (fun _ => "0.0000") in
  let clk := mkClock 1700000000000 0 in
  let recent := mkScan "a" "x" 1699995000000 None None None None in
  let old := mkScan "b" "y" 1698872400000 None None None None in
  formatDate loc clk (timestamp recent) = "Today at 9:00 PM" /\
  formatDate loc clk (timestamp old) = "Nov 1, 2023, 9:00 PM".
Proof.
  intros loc clk recent old.
  assert (Hr : timestamp recent <= now clk) by (vm_compute; discriminate).
  assert (Ho : timestamp old <= now clk) by (vm_compute; discriminate).
  destruct (labels_agree_with_windows loc clk [recent; old] "" recent Hr)
    as (H1 & _).
  destruct (labels_agree_with_windows loc clk [recent; old] "" old Ho)
    as (_ & _ & H3).
  split.
  - apply H1; [vm_compute; discriminate | vm_compute; discriminate
              | vm_compute; left; reflexivity | vm_compute; reflexivity].
  - apply H3; [vm_compute; right; left; reflexivity|].
    vm_compute. intros [H|H]; [discriminate | exact H].
Defined.

(** On the 25-hour day the first part needs its bound.  In New York at
    23:30 on 5 November 2023 local midnight is 24 hours and 30 minutes
    back; a record of 00:10 that day is shown under [today] and labelled
    "Yesterday at". *)
Example labels_on_a_25_hour_day :
  let loc := mkLocale (fun _ => "12:10 AM") (fun _ => "Nov 5, 2023, 12:10 AM")
               (fun _ => "0.0000") in
  let clk := mkClock 1699245000000 new_york_autumn_2023 in
  let record := mkScan "c" "hello" 1699157400000 None None None None in
  now clk - local_midnight (zone clk) (now clk) = 88200000 /\
  filterScans clk [record] "today" "" = [record] /\
  formatDate loc clk (timestamp record) = "Yesterday at 12:10 AM".
Proof. vm_compute. repeat split; reflexivity. Qed.

(** ** The record dialog *)

(** X14.  The dialog of a record shows its payload and always offers
    Copy, Share, Delete and Close, in that order; "Open URL" is offered as
    well exactly when the payload starts with http:// or https://, so other
    links (mailto:, tel:) get no open action. *)
Theorem handleScanPress_offers_open_for_urls (scan : Scan) :
  snd (fst (handleScanPress scan)) = qrData scan /\
  (In "Open URL" (snd (handleScanPress scan)) <->
   ClassifySpec.is_prefix "http://" (qrData scan) \/
   ClassifySpec.is_prefix "https://" (qrData scan)) /\
  List.filter (fun label => negb (String.eqb label "Open URL"))
    (snd (handleScanPress scan))
  = ["Copy"; "Share"; "Delete"; "Close"] /\
  (length (snd (handleScanPress scan)) = 4 \/
   snd (handleScanPress scan) = ["Copy"; "Open URL"; "Share"; "Delete"; "Close"])%nat.
Proof.
  unfold handleScanPress, handleScanPress_buttons. cbn [fst snd].
  rewrite <- !startsWith_spec, <- orb_true_iff.
  unfold getQRType.
  destruct (startsWith (qrData scan) "http://" || startsWith (qrData scan) "https://");
    [cbn; intuition congruence|].
  destruct (startsWith (qrData scan) "mailto:"); [cbn; intuition congruence|].
  destruct (startsWith (qrData scan) "tel:"); [cbn; intuition congruence|].
  destruct (startsWith (qrData scan) "WiFi:"); [cbn; intuition congruence|].
  destruct (includes (qrData scan) "Contact:" || includes (qrData scan) "VCARD");
    cbn; intuition congruence.
Qed.

(** ** The scanner *)

Ltac unfold_on :=
  unfold run_on, completion_on, handleBarCodeScanned, scanAnother_onPress,
    login, login_answers, register, logout, firebase_auth, signOut, setUser,
    session_setItem, session_setItem_answer, session_removeItem, session_console_error, setScanned, setScannerLoading,
    in_app, getLocation, saveScanToDatabase, addDoc, try_finally_on,
    try_catch_on, bind_on, ret_on, throw_on, ask_on, get_on, put_on.

(** Run a handler of a component as far as the hypotheses decide. *)
Ltac exec_on :=
  unfold_on; unfold_async;
  repeat (reduce_async;
          progress (use_hyps;
                    repeat match goal with
                    | H : scanned ?s = _ |- context [scanned ?s] => rewrite H
                    end));
  reduce_async.

(** A demo load reads AsyncStorage only: states with the same storage give
    the same list. *)
Lemma fetch_demo_reads_storage_only (env : Env) (st st' : State) :
  is_demo (user env) = true ->
  storage st' = storage st ->
  scans (run fetchScanHistory env st') = scans (run fetchScanHistory env st).
Proof.
  intros Hd Hs. exec. rewrite Hs.
  repeat (match goal with
          | |- context [fails ?e ?op] => destruct (fails e op) eqn:?
          | |- context [storage ?st !! ?k] =>
              destruct (storage st !! k) as [[?|[|? ?]]|] eqn:?
          end; reduce_async); reflexivity.
Qed.

Lemma or_else_demo_uid (u : option User) :
  is_demo u = true -> or_else (option_map uid u) "demo-user" = "demo-user".
Proof.
  destruct u as [usr|]; cbn; [|reflexivity].
  intros H. apply String.eqb_eq in H. rewrite H. reflexivity.
Qed.

Lemma or_else_truthy (s fallback : string) :
  s <> "" -> or_else (Some s) fallback = s.
Proof. destruct s; [congruence | reflexivity]. Qed.

(** X15.  What the demo user scans never reaches the history: the scan
    is sent to Firestore under the user id "demo-user" and AsyncStorage is
    left untouched, while the history of a demo or absent user is read from
    AsyncStorage only; so a history load after the scan lists what a load
    before the scan would list, whatever Firestore and the location service
    answered. *)
Theorem demo_scan_never_in_history (loc : Locale) (located : LocationResponse)
    (added : AddDocResponse) (data : string) (env env2 : Env) (s : ScannerState) :
  is_demo (user env) = true ->
  scanned s = false ->
  is_demo (user env2) = true ->
  let s' := run_on (handleBarCodeScanned loc located added data) env s in
  storage (app s') = storage (app s) /\
  (forall docId serverTime,
     added = Added docId serverTime ->
     exists doc,
       firestore (app s') = (firestore (app s) ++ [doc])%list /\
       doc_id doc = docId /\ doc_userId doc = "demo-user" /\ doc_qrData doc = data) /\
  (added = AddRejected -> firestore (app s') = firestore (app s)) /\
  scans (run fetchScanHistory env2 (app s'))
  = scans (run fetchScanHistory env2 (app s)).
Proof.
  intros Hd Hsc Hd2 s'.
  assert (Hst : storage (app s') = storage (app s)).
  { subst s'. destruct located, added; exec_on; reflexivity. }
  split; [exact Hst|]. split; [|split].
  - intros docId serverTime ->. subst s'.
    destruct located; exec_on; rewrite (or_else_demo_uid _ Hd);
      eexists; repeat split.
  - intros ->. subst s'. destruct located; exec_on; reflexivity.
  - now apply fetch_demo_reads_storage_only.
Qed.

Lemma demo_scan_never_in_history_witness :
  let loc := mkLocale (fun _ => "") (fun _ => "") (fun _ => "0.0000") in
  let env := mkEnv (Some demoUser) (mkClock 1700000000000 0) no_faults in
  let history := run fetchScanHistory env (mount ∅ []) in
  let s' := run_on (handleBarCodeScanned loc PermissionDenied
                      (Added "n1" 1700000000500) "https://rocq-prover.org")
              env (open_scanner history) in
  map doc_userId (firestore (app s')) = ["demo-user"] /\
  map id (scans (run fetchScanHistory env (app s'))) = ["1"; "2"; "3"; "4"; "5"].
Proof.
  intros loc env history s'.
  destruct (demo_scan_never_in_history loc PermissionDenied
              (Added "n1" 1700000000500) "https://rocq-prover.org" env env
              (open_scanner history) eq_refl eq_refl eq_refl)
    as (_ & _ & _ & E).
  split; [reflexivity|]. subst s'. rewrite E. reflexivity.
Defined.

(** A first code with the save accepted. *)
Lemma handle_saved (loc : Locale) (located : LocationResponse)
    (docId : string) (serverTime : Z) (data : string) (env : Env)
    (s : ScannerState) :
  scanned s = false ->
  handleBarCodeScanned loc located (Added docId serverTime) data env s
  = (Normal tt,
     {| scanned := true;
        scanner_loading := false;
        app :=
          {| scans := scans (app s);
             loading := loading (app s);
             storage := storage (app s);
             firestore := (firestore (app s) ++
                           [scan_document env docId serverTime data (location_of located)])%list;
             console := (console (app s) ++ location_log located)%list;
             alerts := (alerts (app s) ++
                        [("QR Code Scanned!",
                          scanned_message loc data (location_of located))])%list |} |}).
Proof.
  intros Hs. unfold scan_document.
  destruct located; exec_on; rewrite ?app_nil_r; reflexivity.
Qed.

(** A first code with the save rejected. *)
Lemma handle_rejected (loc : Locale) (located : LocationResponse)
    (data : string) (env : Env) (s : ScannerState) :
  scanned s = false ->
  handleBarCodeScanned loc located AddRejected data env s
  = (Normal tt,
     {| scanned := false;
        scanner_loading := false;
        app :=
          {| scans := scans (app s);
             loading := loading (app s);
             storage := storage (app s);
             firestore := firestore (app s);
             console := ((console (app s) ++ location_log located) ++
                         ["Error saving scan:"])%list;
             alerts := (alerts (app s) ++ [("Error", "Failed to save scan data")])%list |} |}).
Proof.
  intros Hs. destruct located; exec_on; rewrite ?app_nil_r; reflexivity.
Qed.

Lemma fold_insert_newest (d : Doc) (acc l : list Doc) :
  Forall (fun x => later_or_equal (doc_timestamp x) (doc_timestamp d) = false) l ->
  fold_right insert_desc (d :: acc) l = d :: fold_right insert_desc acc l.
Proof.
  induction 1 as [|x l Hx Hl IH]; cbn; [reflexivity|].
  rewrite IH. cbn. now rewrite Hx.
Qed.

Lemma orderBy_newest_last (d : Doc) (l : list Doc) :
  Forall (fun x => later_or_equal (doc_timestamp x) (doc_timestamp d) = false) l ->
  orderBy_timestamp_desc (l ++ [d]) = d :: orderBy_timestamp_desc l.
Proof.
  intros H. unfold orderBy_timestamp_desc. rewrite fold_right_app. cbn.
  now apply fold_insert_newest.
Qed.

(** X16.  What a signed-in user scans is in the history at the next
    load that reaches Firestore: the list has one record more, among them
    the record of the new document with the scanned payload and the
    server's time; when every earlier document of the user is dated before
    that time, the new record is the first of the list and the rest is as
    before. *)
Theorem signed_in_scan_listed (loc : Locale) (located : LocationResponse)
    (docId : string) (serverTime : Z) (data : string) (env : Env)
    (s : ScannerState) (usr : User) :
  user env = Some usr ->
  uid usr <> "" ->
  uid usr <> "demo-user" ->
  scanned s = false ->
  fails env GetDocs = false ->
  fails env (SetItem "scanHistory") = false ->
  let s' := run_on (handleBarCodeScanned loc located (Added docId serverTime) data)
              env s in
  let before := scans (run fetchScanHistory env (app s)) in
  let after := scans (run fetchScanHistory env (app s')) in
  length after = S (length before) /\
  (exists scan,
     In scan after /\ id scan = docId /\ qrData scan = data /\
     timestamp scan = serverTime /\ userId scan = Some (uid usr)) /\
  (Forall (fun d => doc_userId d = uid usr ->
                    exists t, doc_timestamp d = Some t /\ t < serverTime)
          (firestore (app s)) ->
   exists scan,
     after = scan :: before /\ id scan = docId /\ qrData scan = data /\
     timestamp scan = serverTime).
Proof.
  intros Hu Hne Hnd Hs Hq Hw s' before after.
  assert (Hd : is_demo (user env) = false).
  { rewrite Hu. cbn. now apply String.eqb_neq. }
  subst after before s'. unfold run, run_on.
  rewrite (handle_saved loc located docId serverTime data env s Hs).
  cbn [snd app].
  rewrite !(fetch_remote_ok env _ Hd Hq Hw). cbn [snd scans firestore].
  unfold remote_list. rewrite List.filter_app.
  set (doc := scan_document env docId serverTime data (location_of located)).
  assert (Huid : doc_userId doc = uid usr).
  { subst doc. unfold scan_document. cbn. rewrite Hu. cbn.
    now apply or_else_truthy. }
  assert (Hmine : List.filter
                    (fun d => String.eqb (doc_userId d) (user_uid (user env))) [doc]
                  = [doc]).
  { cbn [List.filter]. rewrite Hu. cbn [user_uid].
    rewrite Huid, String.eqb_refl. reflexivity. }
  rewrite Hmine.
  set (mine := List.filter
                 (fun d => String.eqb (doc_userId d) (user_uid (user env)))
                 (firestore (app s))).
  pose proof (orderBy_perm (mine ++ [doc])) as Hp.
  split; [|split].
  - rewrite !length_map, Hp, (Permutation_length (orderBy_perm mine)),
      length_app. cbn. lia.
  - exists (scan_of_doc (now (clock env)) doc). split.
    + apply in_map. apply (Permutation_in _ (Permutation_sym Hp)).
      apply in_or_app. right. now left.
    + cbn [scan_of_doc id qrData timestamp userId]. rewrite Huid.
      subst doc. cbn. auto.
  - intros Hold. exists (scan_of_doc (now (clock env)) doc).
    rewrite orderBy_newest_last; [cbn; auto|].
    apply List.Forall_forall. intros d Hin. subst mine.
    apply filter_In in Hin as [Hin E].
    rewrite List.Forall_forall in Hold. specialize (Hold d Hin).
    rewrite Hu in E. cbn in E. apply String.eqb_eq in E.
    destruct (Hold E) as (t & Ht & Hlt). rewrite Ht. cbn.
    apply Z.leb_gt. exact Hlt.
Qed.

Lemma signed_in_scan_listed_witness :
  let loc := mkLocale (fun _ => "") (fun _ => "") (fun _ => "0.0000") in
  let alice := mkUser "alice" "alice@example.com" in
  let env := mkEnv (Some alice) (mkClock 1700000000000 0) no_faults in
  let docs := [mkDoc "d1" "alice" "alice@example.com" "tel:123" (Some 1699980000000) None;
               mkDoc "d2" "bob" "bob@example.com" "secret" (Some 1700000000900) None] in
  let s' := run_on (handleBarCodeScanned loc LocationError
                      (Added "n1" 1700000000500) "WiFi:T:WPA;S:Net;;")
              env (open_scanner (mount ∅ docs)) in
  map id (scans (run fetchScanHistory env (app s'))) = ["n1"; "d1"].
Proof.
  intros loc alice env docs s'.
  destruct (signed_in_scan_listed loc LocationError "n1" 1700000000500
              "WiFi:T:WPA;S:Net;;" env (open_scanner (mount ∅ docs)) alice
              eq_refl ltac:(discriminate) ltac:(discriminate)
              eq_refl eq_refl eq_refl)
    as (_ & _ & Hfirst).
  destruct Hfirst as (scan & E & Hid & _).
  - repeat constructor; cbn; intros H; try discriminate.
    exists 1699980000000. split; [reflexivity | reflexivity].
  - subst s'. rewrite E. cbn [map]. rewrite Hid. reflexivity.
Defined.

Lemma string_append_nil_r (a : string) : (a ++ "")%string = a.
Proof.
  induction a as [|x a IH]; [reflexivity|].
  change (String x (a ++ "") = String x a)%string. now rewrite IH.
Qed.

(** X17.  A scan is saved whether or not the position is known.  With a
    position the document carries it; when permission is refused, or the
    location service fails (which is logged), the document is saved with no
    location and the success dialog shows the payload alone. *)
Theorem scan_saved_with_or_without_location (loc : Locale)
    (located : LocationResponse) (docId : string) (serverTime : Z)
    (data : string) (env : Env) (s : ScannerState) :
  scanned s = false ->
  let s' := run_on (handleBarCodeScanned loc located (Added docId serverTime) data)
              env s in
  exists doc,
    firestore (app s') = (firestore (app s) ++ [doc])%list /\
    doc_id doc = docId /\ doc_qrData doc = data /\
    doc_timestamp doc = Some serverTime /\
    (forall coords, located = Position coords ->
       doc_location doc = Some coords /\ console (app s') = console (app s)) /\
    (located = PermissionDenied ->
       doc_location doc = None /\ console (app s') = console (app s) /\
       last (alerts (app s')) = Some ("QR Code Scanned!", ("Data: " ++ data)%string)) /\
    (located = LocationError ->
       doc_location doc = None /\
       console (app s') = (console (app s) ++ ["Error getting location:"])%list /\
       last (alerts (app s')) = Some ("QR Code Scanned!", ("Data: " ++ data)%string)).
Proof.
  intros Hs s'. subst s'. unfold run_on.
  rewrite (handle_saved loc located docId serverTime data env s Hs).
  cbn [snd app firestore console alerts].
  eexists. split; [reflexivity|]. cbn [scan_document doc_id doc_qrData doc_timestamp doc_location].
  repeat split.
  - subst located. destruct coords; reflexivity.
  - subst located. cbn. apply app_nil_r.
  - subst located. reflexivity.
  - subst located. cbn. apply app_nil_r.
  - subst located. rewrite last_snoc. unfold scanned_message, location_of.
    now rewrite string_append_nil_r.
  - subst located. reflexivity.
  - subst located. reflexivity.
  - subst located. rewrite last_snoc. unfold scanned_message, location_of.
    now rewrite string_append_nil_r.
Qed.

Lemma scan_saved_with_or_without_location_witness :
  let loc := mkLocale (fun _ => "") (fun _ => "") (fun _ => "0.0000") in
  let env := mkEnv (Some (mkUser "alice" "alice@example.com"))
               (mkClock 1700000000000 0) no_faults in
  let s' := run_on (handleBarCodeScanned loc LocationError
                      (Added "n1" 1700000000500) "tel:123")
              env (open_scanner (mount ∅ [])) in
  map doc_location (firestore (app s')) = [None] /\
  console (app s') = ["Error getting location:"] /\
  alerts (app s') = [("QR Code Scanned!", "Data: tel:123")].
Proof.
  intros loc env s'.
  destruct (scan_saved_with_or_without_location loc LocationError "n1"
              1700000000500 "tel:123" env (open_scanner (mount ∅ [])) eq_refl)
    as (doc & Hf & _ & _ & _ & _ & _ & Herr).
  destruct (Herr eq_refl) as (Hl & Hc & _).
  subst s'. refine (conj _ (conj Hc eq_refl)).
  rewrite Hf. cbn [map app firestore mount open_scanner List.app].
  now rewrite Hl.
Defined.

(** X18.  The scanner handles one code at a time.  While [scanned] is
    set the handler does nothing at all.  Otherwise it completes normally
    with the spinner off and exactly one dialog raised, never the one of its
    own [catch] block: after an accepted save [scanned] stays set, so a
    further code changes nothing (one document per scan) until "Scan
    Another" is pressed; after a rejected save no document is written, the
    failure is reported and [scanned] is cleared so that the code can be
    scanned again. *)
Theorem scanner_one_code_at_a_time (loc : Locale) (located : LocationResponse)
    (added : AddDocResponse) (data : string) (env : Env) (s : ScannerState) :
  let handler := handleBarCodeScanned loc located added data in
  let s' := run_on handler env s in
  (scanned s = true -> handler env s = (Normal tt, s)) /\
  (scanned s = false ->
   completion_on handler env s = Normal tt /\
   scanner_loading s' = false /\
   (exists dialog,
      alerts (app s') = (alerts (app s) ++ [dialog])%list /\
      dialog <> ("Error", "An error occurred while processing the scan")) /\
   (added = AddRejected ->
    scanned s' = false /\
    firestore (app s') = firestore (app s) /\
    last (alerts (app s')) = Some ("Error", "Failed to save scan data")) /\
   (added <> AddRejected ->
    scanned s' = true /\
    length (firestore (app s')) = S (length (firestore (app s))) /\
    (forall located2 added2 data2,
       run_on (handleBarCodeScanned loc located2 added2 data2) env s' = s') /\
    scanned (run_on scanAnother_onPress env s') = false)).
Proof.
  intros handler s'. subst handler s'. split.
  - intros Hs. exec_on. reflexivity.
  - intros Hs. unfold completion_on, run_on.
    destruct added as [|docId serverTime].
    + rewrite (handle_rejected loc located data env s Hs).
      cbn [fst snd scanned scanner_loading app alerts firestore].
      repeat split; try congruence.
      * eexists. split; [reflexivity | discriminate].
      * now rewrite last_snoc.
    + rewrite (handle_saved loc located docId serverTime data env s Hs).
      cbn [fst snd scanned scanner_loading app alerts firestore].
      repeat split; try congruence.
      * eexists. split; [reflexivity | discriminate].
      * rewrite length_app. cbn. lia.
Qed.

Lemma scanner_one_code_at_a_time_witness :
  let loc := mkLocale (fun _ => "") (fun _ => "") (fun _ => "0.0000") in
  let env := mkEnv (Some (mkUser "alice" "alice@example.com"))
               (mkClock 1700000000000 0) no_faults in
  let first := run_on (handleBarCodeScanned loc PermissionDenied
                         (Added "n1" 1700000000500) "tel:123")
                 env (open_scanner (mount ∅ [])) in
  let second := run_on (handleBarCodeScanned loc PermissionDenied
                          (Added "n2" 1700000000600) "tel:123") env first in
  let failed := run_on (handleBarCodeScanned loc PermissionDenied AddRejected "tel:123")
                  env (open_scanner (mount ∅ [])) in
  map doc_id (firestore (app second)) = ["n1"] /\
  scanned failed = false /\
  alerts (app failed) = [("Error", "Failed to save scan data")].
Proof.
  intros loc env first second failed.
  destruct (scanner_one_code_at_a_time loc PermissionDenied
              (Added "n1" 1700000000500) "tel:123" env (open_scanner (mount ∅ [])))
    as (_ & H1).
  destruct (H1 eq_refl) as (_ & _ & _ & _ & Hsaved).
  destruct (Hsaved ltac:(discriminate)) as (_ & _ & Hignore & _).
  destruct (scanner_one_code_at_a_time loc PermissionDenied AddRejected "tel:123"
              env (open_scanner (mount ∅ [])))
    as (_ & H2).
  destruct (H2 eq_refl) as (_ & _ & _ & Hrej & _).
  destruct (Hrej eq_refl) as (Hsc & _ & _).
  refine (conj _ (conj Hsc eq_refl)).
  subst second. rewrite Hignore. reflexivity.
Defined.

(** ** The authentication provider *)

(** X19.  When Firebase refuses a sign-in and the token write is
    accepted, [login] lets in exactly the demo credentials: with
    demo@example.com and demo123 it resolves to success with the demo user,
    sets that user (for whom the history takes the demo path) and stores
    the token "demo-user"; with any other pair it resolves to a failure
    carrying Firebase's message and leaves the session as it was. *)
Theorem login_demo_fallback (message email password : string) (env : Env)
    (s : Session) :
  fails env (SetItem "userToken") = false ->
  (email = "demo@example.com" -> password = "demo123" ->
   login (AuthFailed message) email password env s
   = (Normal (AuthSuccess demoUser),
      {| session_user := Some demoUser;
         session_storage := <["userToken" := Text "demo-user"]> (session_storage s);
         session_console := session_console s |}) /\
   is_demo (Some demoUser) = true) /\
  (email <> "demo@example.com" \/ password <> "demo123" ->
   login (AuthFailed message) email password env s
   = (Normal (AuthFailure message), s)).
Proof.
  intros Hw. split.
  - intros -> ->. split; [|reflexivity]. exec_on. reflexivity.
  - intros Hne.
    assert (E : String.eqb email "demo@example.com" && String.eqb password "demo123"
                = false).
    { apply andb_false_iff. destruct Hne as [H|H]; [left | right];
        now apply String.eqb_neq. }
    unfold_on. reduce_async. rewrite E. reflexivity.
Qed.

Lemma login_demo_fallback_witness :
  let env := mkEnv None (mkClock 0 0) no_faults in
  let s := mkSession None ∅ [] in
  completion_on (login (AuthFailed "auth/invalid-credential") "demo@example.com" "demo123")
    env s = Normal (AuthSuccess demoUser) /\
  completion_on (login (AuthFailed "auth/invalid-credential") "demo@example.com" "Demo123")
    env s = Normal (AuthFailure "auth/invalid-credential").
Proof.
  intros env s.
  destruct (login_demo_fallback "auth/invalid-credential" "demo@example.com" "demo123"
              env s eq_refl) as (H1 & _).
  destruct (H1 eq_refl eq_refl) as (E1 & _).
  destruct (login_demo_fallback "auth/invalid-credential" "demo@example.com" "Demo123"
              env s eq_refl) as (_ & H2).
  unfold completion_on. rewrite E1, H2; [split; reflexivity|].
  right. discriminate.
Defined.

(** X20.  [login] itself throws in one situation only, whatever the
    store answers to each of its two writes of the token: the demo
    credentials, the [catch] block reached (Firebase refused, or the write
    of the [try] block was rejected) and the write of the [catch] block
    rejected; the demo user has then been set although no token was stored.
    In every other situation it resolves to a result.  In particular, when
    Firebase accepts the demo credentials but the first write is rejected
    and the second accepted, the call resolves to success with the demo
    user in place of the user Firebase signed in.  With a store that
    answers both writes alike this is [login]. *)
Theorem login_throws_only_in_demo_fallback (response : AuthResponse)
    (first_rejected second_rejected : bool)
    (email password : string) (env : Env) (s : Session) :
  let outcome :=
    login_answers response first_rejected second_rejected email password env s in
  ((exists error, fst outcome = Throw error) <->
   email = "demo@example.com" /\ password = "demo123" /\
   ((exists message, response = AuthFailed message) \/ first_rejected = true) /\
   second_rejected = true) /\
  (forall error,
     fst outcome = Throw error ->
     session_user (snd outcome) = Some demoUser /\
     session_storage (snd outcome) = session_storage s) /\
  (forall usr,
     response = Authenticated usr ->
     email = "demo@example.com" -> password = "demo123" ->
     first_rejected = true -> second_rejected = false ->
     outcome
     = (Normal (AuthSuccess demoUser),
        {| session_user := Some demoUser;
           session_storage := <["userToken" := Text "demo-user"]> (session_storage s);
           session_console := session_console s |})) /\
  login response email password env s
  = login_answers response (fails env (SetItem "userToken"))
      (fails env (SetItem "userToken")) email password env s.
Proof.
  intros outcome. subst outcome.
  split; [|split; [|split]].
  - destruct (String.eqb_spec email "demo@example.com") as [He|He];
      destruct (String.eqb_spec password "demo123") as [Hp|Hp];
      destruct first_rejected, second_rejected;
      destruct response as [usr|message]; subst;
      unfold_on; reduce_async;
      try (apply String.eqb_neq in He; rewrite ?He);
      try (apply String.eqb_neq in Hp; rewrite ?Hp);
      rewrite ?andb_false_r; reduce_async;
      (split; [intros [e H]; try discriminate; repeat split; eauto
              | intros (H1 & H2 & H3 & H4); subst;
                rewrite ?String.eqb_refl in *; try discriminate;
                try (destruct H3 as [[m H3]|H3]; discriminate); eauto]).
  - destruct (String.eqb email "demo@example.com" && String.eqb password "demo123")
      eqn:E;
      destruct first_rejected, second_rejected;
      destruct response as [usr|message];
      unfold_on; reduce_async; rewrite ?E; reduce_async;
      intros e H; try discriminate; auto.
  - intros usr -> -> -> -> ->. reflexivity.
  - unfold_on.
    destruct response as [usr|message];
      destruct (fails env (SetItem "userToken")) eqn:Hw;
      reduce_async; rewrite ?Hw; reduce_async; try reflexivity;
      destruct (String.eqb email "demo@example.com" && String.eqb password "demo123");
      reduce_async; rewrite ?Hw; reflexivity.
Qed.

(** X21.  [register] never throws and never falls back to the demo user:
    when Firebase refuses, it resolves to a failure with Firebase's message
    and leaves the session as it was, for every e-mail and password; when
    Firebase accepts, the token is the new user's id, and a rejected token
    write turns the accepted registration into a failure. *)
Theorem register_without_fallback (response : AuthResponse)
    (email password : string) (env : Env) (s : Session) :
  let outcome := register response email password env s in
  (exists result, fst outcome = Normal result) /\
  (forall message,
     response = AuthFailed message ->
     outcome = (Normal (AuthFailure message), s)) /\
  (forall usr,
     response = Authenticated usr ->
     (fails env (SetItem "userToken") = false ->
      fst outcome = Normal (AuthSuccess usr) /\
      session_storage (snd outcome) !! "userToken" = Some (Text (uid usr))) /\
     (fails env (SetItem "userToken") = true ->
      outcome = (Normal (AuthFailure "rejected"), s))).
Proof.
  intros outcome. subst outcome.
  destruct response as [usr|message];
    destruct (fails env (SetItem "userToken")) eqn:Hw;
    unfold_on; reduce_async; rewrite ?Hw; reduce_async;
    (split; [eexists; reflexivity|]);
    (split; [intros m E; inversion E; subst; reflexivity|]);
    intros u E; inversion E; subst;
    (split; [intros H; try discriminate | intros H; try discriminate; reflexivity]).
  split; [reflexivity | apply lookup_insert_eq].
Qed.

(** X22.  [logout] never throws.  When Firebase refuses the sign-out the
    session is left as it was, user and token included, and the error is
    only logged; when the sign-out and the removal of the token are
    accepted, the user is cleared and no token is left. *)
Theorem logout_outcomes (accepted : bool) (env : Env) (s : Session) :
  let outcome := logout accepted env s in
  fst outcome = Normal tt /\
  (accepted = false ->
   session_user (snd outcome) = session_user s /\
   session_storage (snd outcome) = session_storage s /\
   session_console (snd outcome) = (session_console s ++ ["Logout error:"])%list) /\
  (accepted = true ->
   fails env (RemoveItem "userToken") = false ->
   session_user (snd outcome) = None /\
   session_storage (snd outcome) !! "userToken" = None /\
   session_console (snd outcome) = session_console s).
Proof.
  intros outcome. subst outcome.
  destruct accepted; destruct (fails env (RemoveItem "userToken")) eqn:Hr;
    unfold_on; reduce_async; rewrite ?Hr; reduce_async;
    repeat split; try discriminate; try reflexivity;
    intros; try discriminate; repeat split; try reflexivity;
    apply lookup_delete_eq.
Qed.

Lemma logout_outcomes_witness :
  let env := mkEnv None (mkClock 0 0) no_faults in
  let s := mkSession (Some demoUser) (<["userToken" := Text "demo-user"]> ∅) [] in
  session_user (run_on (logout true) env s) = None /\
  session_storage (run_on (logout true) env s) !! "userToken" = None /\
  session_user (run_on (logout false) env s) = Some demoUser.
Proof.
  intros env s.
  destruct (logout_outcomes true env s) as (_ & _ & Hok).
  destruct (Hok eq_refl eq_refl) as (E1 & E2 & _).
  destruct (logout_outcomes false env s) as (_ & Hno & _).
  destruct (Hno eq_refl) as (E3 & _).
  exact (conj E1 (conj E2 E3)).
Defined.

(** Firebase accepts the demo credentials and the store rejects the first
    write of the token: with the second write rejected too the call throws,
    with the second write accepted it signs the demo user in. *)
Lemma login_throws_only_in_demo_fallback_witness :
  let env := mkEnv None (mkClock 0 0) no_faults in
  let s := mkSession None ∅ [] in
  let firebase_user := mkUser "u1" "demo@example.com" in
  let outcome := login_answers (Authenticated firebase_user) true true
                   "demo@example.com" "demo123" env s in
  fst outcome = Throw "rejected" /\
  session_user (snd outcome) = Some demoUser /\
  session_storage (snd outcome) = ∅ /\
  fst (login_answers (Authenticated firebase_user) true false
         "demo@example.com" "demo123" env s)
  = Normal (AuthSuccess demoUser).
Proof.
  intros env s firebase_user outcome.
  destruct (login_throws_only_in_demo_fallback
              (Authenticated firebase_user) true true
              "demo@example.com" "demo123" env s) as (_ & H & _).
  destruct (H "rejected" eq_refl) as (E1 & E2).
  destruct (login_throws_only_in_demo_fallback
              (Authenticated firebase_user) true false
              "demo@example.com" "demo123" env s) as (_ & _ & H2 & _).
  specialize (H2 firebase_user eq_refl eq_refl eq_refl eq_refl eq_refl).
  cbv zeta in H2.
  refine (conj eq_refl (conj E1 (conj E2 _))).
  rewrite H2. reflexivity.
Defined.

Lemma register_without_fallback_witness :
  let env := mkEnv None (mkClock 0 0) no_faults in
  let s := mkSession None ∅ [] in
  register (AuthFailed "auth/email-already-in-use") "demo@example.com" "demo123" env s
  = (Normal (AuthFailure "auth/email-already-in-use"), s).
Proof.
  intros env s.
  destruct (register_without_fallback (AuthFailed "auth/email-already-in-use")
              "demo@example.com" "demo123" env s) as (_ & H & _).
  exact (H _ eq_refl).
Defined.

(** ** Seeding with a store that rejects writes *)

(** X23.  For a demo or absent user with no snapshot, a rejected write
    of the seeds does not fail the load: the five seed records are listed,
    the rejection is only logged and nothing is stored; the next load
    therefore seeds again, with dates counted from its own clock. *)
Theorem demo_seeds_redated_when_write_rejected (env env2 : Env) (st : State) :
  is_demo (user env) = true ->
  fails env (GetItem "demoScans") = false ->
  storage st !! "demoScans" = None ->
  fails env (SetItem "demoScans") = true ->
  is_demo (user env2) = true ->
  fails env2 (GetItem "demoScans") = false ->
  let st1 := run fetchScanHistory env st in
  let st2 := run fetchScanHistory env2 st1 in
  completion fetchScanHistory env st = Normal tt /\
  scans st1 = defaultDemoScans (now (clock env)) /\
  storage st1 = storage st /\
  console st1 = (console st ++ ["Error saving demo scans:"])%list /\
  alerts st1 = alerts st /\
  scans st2 = defaultDemoScans (now (clock env2)).
Proof.
  intros Hd Hg Hs Hw Hd2 Hg2 st1 st2.
  assert (E1 : fetchScanHistory env st
               = (Normal tt,
                  {| scans := defaultDemoScans (now (clock env));
                     loading := false;
                     storage := storage st;
                     firestore := firestore st;
                     console := (console st ++ ["Error saving demo scans:"])%list;
                     alerts := alerts st |})).
  { exec. reflexivity. }
  subst st2 st1. unfold run, completion. rewrite E1. cbn [fst snd scans storage console alerts].
  repeat split.
  set (st1 := {| scans := defaultDemoScans (now (clock env)); loading := false;
                 storage := storage st; firestore := firestore st;
                 console := (console st ++ ["Error saving demo scans:"])%list;
                 alerts := alerts st |}).
  assert (Hs1 : storage st1 !! "demoScans" = None) by exact Hs.
  destruct (fails env2 (SetItem "demoScans")) eqn:Hw2; exec; reflexivity.
Qed.

Lemma demo_seeds_redated_when_write_rejected_witness :
  let env := mkEnv None (mkClock 1700000000000 0) writes_down in
  let later := mkEnv None (mkClock 1700003600000 0) writes_down in
  let st1 := run fetchScanHistory env (mount ∅ []) in
  map timestamp (scans st1)
  = [1699913600000; 1699827200000; 1699740800000; 1699654400000; 1699568000000] /\
  map timestamp (scans (run fetchScanHistory later st1))
  = [1699917200000; 1699830800000; 1699744400000; 1699658000000; 1699571600000].
Proof.
  intros env later st1.
  destruct (demo_seeds_redated_when_write_rejected env later (mount ∅ [])
              eq_refl eq_refl (lookup_empty _) eq_refl eq_refl eq_refl)
    as (_ & E1 & _ & _ & _ & E2).
  subst st1. rewrite E2, E1. split; reflexivity.
Defined.
